(** * Period-aware operational metrics of the DSTech dashboard

    A shallow embedding of the aggregation code of [dstech_app.py] and
    [dstech_charts.py]: the report builders [generate_executive_report]
    and [build_report_datasets], the KPI composer [get_operational_kpis]
    and the 30-day [get_dashboard_summary]; further the table of client
    aliases and the users file with their callbacks, the alarm rankings,
    the client ranking and the efficiency chart.

    Conventions of the embedding.
    - Numeric columns and Python floats are rationals ([Q]); a missing
      cell of a merged pandas frame (NaN) is [None].
    - SQL NULL is [None]; aggregates follow PostgreSQL: [SUM], [AVG] and
      [MAX] of no row are NULL, [COUNT] of no row is 0, a comparison with
      NULL is not true, a division by zero aborts the statement.
    - A Python exception is the [Raise] constructor of [result]; a
      [try]/[except Exception] block is [try_exceptM].
    - The clock ([datetime.now()], [date.today()], [CURRENT_DATE]) and the
      availability of the database are explicit in the environment. *)

From Stdlib Require Import String Ascii DecimalString.
From Stdlib Require Import ZArith QArith Qround Qabs List Sorted Bool Lia.
Import ListNotations.

Local Open Scope Z_scope.

(** ** Python exceptions and the error monad *)

Inductive exn : Type :=
| ZeroDivisionError
| OverflowError
| KeyError
| TypeError
| DatabaseError.

Inductive result (A : Type) : Type :=
| Ok (a : A)
| Raise (e : exn).

Arguments Ok {A} a.
Arguments Raise {A} e.

Definition bind {A B : Type} (m : result A) (k : A -> result B) : result B :=
  match m with
  | Ok a => k a
  | Raise e => Raise e
  end.

Notation "x <- m ;; k" := (bind m (fun x => k))
  (at level 61, m at next level, right associativity).

(** ** Numbers *)

Definition Qltb (a b : Q) : bool := negb (Qle_bool b a).

(** Python's [a / b] on floats. *)
Definition py_truediv (a b : Q) : result Q :=
  if Qeq_bool b 0 then Raise ZeroDivisionError else Ok (a / b)%Q.

(** PostgreSQL's [a / b]: NULL if an operand is NULL, an error on a zero
    divisor. *)
Definition sql_div (a b : option Q) : result (option Q) :=
  match a, b with
  | Some x, Some y =>
      if Qeq_bool y 0 then Raise DatabaseError else Ok (Some (x / y)%Q)
  | _, _ => Ok None
  end.

Definition pow10 (n : nat) : Q := inject_Z (10 ^ Z.of_nat n).

(** Python's [round(x, n)]: to the nearest multiple of [10^-n], a tie going
    to the even neighbour. *)
Definition py_round (x : Q) (n : nat) : Q :=
  let s := (x * pow10 n)%Q in
  let f := Qfloor s in
  let k := match Qcompare (s - inject_Z f) (1 # 2) with
           | Lt => f
           | Gt => f + 1
           | Eq => if Z.even f then f else f + 1
           end in
  (inject_Z k / pow10 n)%Q.

(** PostgreSQL's [ROUND(x::numeric, n)]: a tie goes away from zero. *)
Definition sql_round (x : Q) (n : nat) : Q :=
  let s := (Qabs x * pow10 n)%Q in
  let k := Qfloor (s + (1 # 2)) in
  if Qltb x 0 then (inject_Z (- k) / pow10 n)%Q else (inject_Z k / pow10 n)%Q.

(** Python's [int(x)] on a float: truncation towards zero. *)
Definition py_int (x : Q) : Z :=
  if Qltb x 0 then Qceiling x else Qfloor x.

(** ** SQL aggregates *)

Definition coalesce (v : option Q) (d : Q) : Q :=
  match v with Some x => x | None => d end.

Definition Qsum (l : list Q) : Q := fold_right Qplus 0%Q l.

(** The non-NULL inputs of an aggregate. *)
Fixpoint non_null {A : Type} (l : list (option A)) : list A :=
  match l with
  | [] => []
  | Some x :: l' => x :: non_null l'
  | None :: l' => non_null l'
  end.

Definition sql_sum (l : list (option Q)) : option Q :=
  match non_null l with
  | [] => None
  | xs => Some (Qsum xs)
  end.

Definition sql_avg (l : list (option Q)) : option Q :=
  match non_null l with
  | [] => None
  | xs => Some (Qsum xs / inject_Z (Z.of_nat (length xs)))%Q
  end.

Definition sql_count {A : Type} (l : list A) : Z := Z.of_nat (length l).

(** [v > 0] as the condition of a [CASE WHEN]: NULL is not true. *)
Definition sql_pos (v : option Q) : bool :=
  match v with Some x => Qltb 0 x | None => false end.

(** [NULLIF(x, 0)] *)
Definition nullif0 (x : Q) : option Q :=
  if Qeq_bool x 0 then None else Some x.

(** [a + b] with NULL propagation. *)
Definition sql_add (a b : option Q) : option Q :=
  match a, b with
  | Some x, Some y => Some (x + y)%Q
  | _, _ => None
  end.

Definition sql_scale (a : option Q) (c : Q) : option Q :=
  match a with Some x => Some (x * c)%Q | None => None end.

(** ** Dates and times

    A [datetime] is a proleptic Gregorian day number (Python's
    [toordinal]) and the microseconds elapsed since midnight. *)

Record datetime : Type := mkdt { ordinal : Z; micros : Z }.

Definition MINORDINAL : Z := 1.
Definition MAXORDINAL : Z := 3652059.   (* 9999-12-31 *)

Definition is_leap (y : Z) : bool :=
  (y mod 4 =? 0) && (negb (y mod 100 =? 0) || (y mod 400 =? 0)).

Definition days_before_year (y : Z) : Z :=
  let p := y - 1 in p * 365 + p / 4 - p / 100 + p / 400.

Definition days_before_month (y m : Z) : Z :=
  nth (Z.to_nat (m - 1)) [0; 31; 59; 90; 120; 151; 181; 212; 243; 273; 304; 334] 0
  + (if (2 <? m) && is_leap y then 1 else 0).

(** [date(y, m, d).toordinal()] *)
Definition ymd (y m d : Z) : Z := days_before_year y + days_before_month y m + d.

(** [datetime(y, m, d, hh, mm)] *)
Definition at_time (day hh mm : Z) : datetime :=
  mkdt day ((hh * 60 + mm) * 60000000).

Definition midnight (day : Z) : datetime := mkdt day 0.

(** [dt + timedelta(days=n)]; the result must be a representable date. *)
Definition add_days (dt : datetime) (n : Z) : result datetime :=
  let o := ordinal dt + n in
  if (MINORDINAL <=? o) && (o <=? MAXORDINAL)
  then Ok (mkdt o (micros dt))
  else Raise OverflowError.

(** [dt.replace(hour=0, minute=0, second=0, microsecond=0)] *)
Definition floor_to_midnight (dt : datetime) : datetime := mkdt (ordinal dt) 0.

(** [dt.date()], and PostgreSQL's ["Time_Stamp"::date]. *)
Definition date_of (dt : datetime) : Z := ordinal dt.

Definition dt_leb (a b : datetime) : bool :=
  (ordinal a <? ordinal b) || ((ordinal a =? ordinal b) && (micros a <=? micros b)).

Definition dt_ltb (a b : datetime) : bool :=
  (ordinal a <? ordinal b) || ((ordinal a =? ordinal b) && (micros a <? micros b)).

(** [ts >= lo AND ts < hi] *)
Definition in_half_open (lo hi ts : datetime) : bool :=
  dt_leb lo ts && dt_ltb ts hi.

(** ** Data frames

    [pd.DataFrame()] has no column at all; it is what both [execute_query]
    wrappers return when the query fails. A successful query returns its
    rows, possibly none. *)

Inductive DataFrame (R : Type) : Type :=
| NoFrame
| Frame (rows : list R).

Arguments NoFrame {R}.
Arguments Frame {R} rows.

Definition df_empty {R : Type} (df : DataFrame R) : bool :=
  match df with
  | NoFrame => true
  | Frame [] => true
  | Frame (_ :: _) => false
  end.

(** [df.iloc[0]] of a frame known not to be empty. *)
Definition iloc0 {R : Type} (df : DataFrame R) : option R :=
  match df with
  | Frame (r :: _) => Some r
  | _ => None
  end.

(** ** The record sources

    One record per table of the plant database, with the columns the
    queries read. The columns that the queries guard row by row
    ([COALESCE("D3", 0)], [COALESCE("Q1", 0)]) are nullable. *)

(** [Rel_Diario]: one consolidated row per day. *)
Record Rel_Diario_row : Type := mkDiario {
  rd_Time_Stamp : datetime;
  rd_C0 : Q;   (* downtime, minutes *)
  rd_C1 : Q;   (* production time, minutes *)
  rd_C2 : Q;   (* water, cubic metres *)
  rd_C4 : Q;   (* production, kilograms *)
  rd_C5 : Z    (* client *)
}.

(** [Sts_Dados]: one row per status poll, cumulative within the day. *)
Record Sts_Dados_row : Type := mkSts {
  sd_Time_Stamp : datetime;
  sd_D1 : option Q;   (* water so far today, cubic metres *)
  sd_D2 : option Q;   (* cycles so far today *)
  sd_D3 : option Q    (* kilograms washed so far today *)
}.

(** [Rel_Carga]: one row per load. *)
Record Rel_Carga_row : Type := mkCarga {
  rc_Time_Stamp : datetime;
  rc_C1 : Z;   (* client identifier *)
  rc_C2 : Q;   (* kilograms *)
  rc_C3 : Q    (* water, cubic metres *)
}.

(** [Rel_Quimico]: nine chemical quantities per time stamp. *)
Record Rel_Quimico_row : Type := mkQuimico {
  rq_Time_Stamp : datetime;
  rq_Q : list (option Q)   (* "Q1" .. "Q9" *)
}.

(** [ALARMHISTORY] *)
Record Alarm_row : Type := mkAlarm {
  Al_Start_Time : datetime;
  Al_Norm_Time : option datetime
}.

Record Database : Type := mkDB {
  Rel_Diario : list Rel_Diario_row;
  Sts_Dados : list Sts_Dados_row;
  Rel_Carga : list Rel_Carga_row;
  Rel_Quimico : list Rel_Quimico_row;
  ALARMHISTORY : list Alarm_row;
  client_alias : list (Z * string)   (* app.client_alias, keyed by client_id *)
}.

Definition empty_db : Database := mkDB [] [] [] [] [] [].

(** The environment of one request: the database, the clock, and for the
    [n]-th statement sent to the server whether the connection and the
    statement timeout let it through. *)
Record Env : Type := mkEnv {
  db : Database;
  now : datetime;
  up : nat -> bool
}.

Definition always_up : nat -> bool := fun _ => true.
Definition never_up : nat -> bool := fun _ => false.

(** ** Computations that query the database

    The state is the number of statements sent so far. *)

Definition M (A : Type) : Type := nat -> result A * nat.

Definition ret {A : Type} (a : A) : M A := fun n => (Ok a, n).

Definition lift {A : Type} (r : result A) : M A := fun n => (r, n).

Definition bindM {A B : Type} (m : M A) (k : A -> M B) : M B :=
  fun n =>
    match m n with
    | (Ok a, n') => k a n'
    | (Raise e, n') => (Raise e, n')
    end.

Notation "x <<- m ;; k" := (bindM m (fun x => k))
  (at level 61, m at next level, right associativity).

Definition try_exceptM {A : Type} (body : M A) (handler : exn -> M A) : M A :=
  fun n =>
    match body n with
    | (Ok a, n') => (Ok a, n')
    | (Raise e, n') => handler e n'
    end.

(** Both [execute_query] wrappers ([DatabaseManager.execute_query] of the
    application and [execute_query] of the charts module): the frame read
    from the server, or [pd.DataFrame()] when anything fails. *)
Definition execute_query {R : Type} (env : Env) (query : result (list R))
  : M (DataFrame R) :=
  fun n =>
    (Ok (if up env n
         then match query with Ok rows => Frame rows | Raise _ => NoFrame end
         else NoFrame),
     S n).

(** ** GROUP BY and ORDER BY *)

Section Grouping.
Variable R : Type.

(** Rows are filed under their key; keys are kept in ascending order,
    the rows of a group in the order of the table. *)
Fixpoint add_to_group (k : Z) (r : R) (gs : list (Z * list R))
  : list (Z * list R) :=
  match gs with
  | [] => [(k, [r])]
  | (k', g) :: gs' =>
      match Z.compare k k' with
      | Lt => (k, [r]) :: gs
      | Eq => (k', r :: g) :: gs'
      | Gt => (k', g) :: add_to_group k r gs'
      end
  end.

Definition group_by (key : R -> Z) (rows : list R) : list (Z * list R) :=
  fold_right (fun r gs => add_to_group (key r) r gs) [] rows.

(** [ORDER BY f DESC] *)
Fixpoint insert_desc (f : R -> Q) (r : R) (l : list R) : list R :=
  match l with
  | [] => [r]
  | x :: l' => if Qle_bool (f x) (f r) then r :: l else x :: insert_desc f r l'
  end.

Definition order_by_desc (f : R -> Q) (l : list R) : list R :=
  fold_right (insert_desc f) [] l.
End Grouping.

Arguments add_to_group {R} k r gs.
Arguments group_by {R} key rows.
Arguments order_by_desc {R} f l.

(** [CAST(id AS TEXT)] *)
Definition text_of_int (z : Z) : string := NilZero.string_of_int (Z.to_int z).

(** [f(df.iloc[0][col]) if not df.empty else d] *)
Definition cell {R A : Type} (df : DataFrame R) (f : R -> A) (d : A) : A :=
  match iloc0 df with
  | Some r => f r
  | None => d
  end.

(** The results of a list of computations, or the first exception. *)
Fixpoint all_ok {A : Type} (l : list (result A)) : result (list A) :=
  match l with
  | [] => Ok []
  | r :: l' => x <- r ;; xs <- all_ok l' ;; Ok (x :: xs)
  end.

(** * dstech_app.py *)

Module dstech_app.

(** ** generate_executive_report *)

(** The dictionary returned by [generate_executive_report], each entry
    before it is formatted into text. *)
Record ExecReport : Type := mkReport {
  period_days : Z;
  period_production : Q;   (* total_kg *)
  period_cycles : Z;       (* total_cycles *)
  daily_avg : Q;
  avg_weight : Q;          (* peso_medio *)
  water_period : Q;        (* total_water_liters *)
  water_per_kg : Q;        (* agua_por_kg *)
  chemicals_period : Q;    (* total_chemicals *)
  chemicals_per_kg : Q
}.

(** The dictionary of the [except] branch. *)
Definition fallback_report : ExecReport :=
  mkReport 0 0 0 0 0 0 0 0 0.

(** Lines 216-230: the defaults of the arguments and the bounds handed to
    the queries. This runs before the [try]. *)
Definition report_window (env : Env) (start_date end_date : option datetime)
  : result (datetime * datetime * datetime) :=
  start_dt <- match start_date with
              | None => add_days (now env) (-7)
              | Some d => Ok d
              end ;;
  end_dt <- Ok (match end_date with None => now env | Some d => d end) ;;
  end_exclusive <- add_days end_dt 1 ;;
  Ok (start_dt, end_dt, end_exclusive).

(** [SELECT COALESCE(SUM("C4"), 0) AS total_kg FROM "Rel_Diario" WHERE ...] *)
Definition prod_query (d : Database) (lo hi : datetime) : result (list Q) :=
  let rows := filter (fun r => in_half_open lo hi (rd_Time_Stamp r)) (Rel_Diario d) in
  Ok [coalesce (sql_sum (map (fun r => Some (rd_C4 r)) rows)) 0].

Record cycles_water_row : Type := mkCW {
  total_cycles : Q;
  total_water_liters : Q
}.

(** [SELECT COALESCE(SUM("D2"), 0), COALESCE(SUM("D1") * 1000, 0)
     FROM "Sts_Dados" WHERE ...] *)
Definition cycles_water_query (d : Database) (lo hi : datetime)
  : result (list cycles_water_row) :=
  let rows := filter (fun r => in_half_open lo hi (sd_Time_Stamp r)) (Sts_Dados d) in
  Ok [mkCW (coalesce (sql_sum (map sd_D2 rows)) 0)
           (coalesce (sql_scale (sql_sum (map sd_D1 rows)) 1000) 0)].

(** [COALESCE("Q1",0) + ... + COALESCE("Q5",0)] of one row *)
Definition chem_Q1_Q5 (r : Rel_Quimico_row) : Q :=
  Qsum (map (fun i => coalesce (nth i (rq_Q r) None) 0) [0; 1; 2; 3; 4]%nat).

Definition chem_query (d : Database) (lo hi : datetime) : result (list Q) :=
  let rows := filter (fun r => in_half_open lo hi (rq_Time_Stamp r)) (Rel_Quimico d) in
  Ok [coalesce (sql_sum (map (fun r => Some (chem_Q1_Q5 r)) rows)) 0].

Definition alarms_period_query (d : Database) (lo hi : datetime) : result (list Z) :=
  Ok [sql_count (filter (fun a => in_half_open lo hi (Al_Start_Time a)) (ALARMHISTORY d))].

(** [WHERE "Al_Norm_Time" IS NULL AND "Al_Start_Time" >= CURRENT_DATE] *)
Definition alarms_active_query (d : Database) (today : Z) : result (list Z) :=
  Ok [sql_count (filter (fun a => match Al_Norm_Time a with
                                  | None => dt_leb (midnight today) (Al_Start_Time a)
                                  | Some _ => false
                                  end) (ALARMHISTORY d))].

(** Lines 287-321: the ratios and the returned dictionary. *)
Definition report_of_totals (start_dt end_dt : datetime)
    (total_kg : Q) (total_cycles : Z) (total_water_liters total_chemicals : Q)
  : result ExecReport :=
  peso_medio <- (if 0 <? total_cycles
                 then q <- py_truediv total_kg (inject_Z total_cycles) ;; Ok (py_round q 2)
                 else Ok 0%Q) ;;
  agua_por_kg <- (if Qltb 0 total_kg
                  then q <- py_truediv total_water_liters total_kg ;; Ok (py_round q 2)
                  else Ok 0%Q) ;;
  chemicals_per_kg <- (if Qltb 0 total_kg
                       then q <- py_truediv total_chemicals total_kg ;; Ok (py_round q 4)
                       else Ok 0%Q) ;;
  let days_diff := date_of end_dt - date_of start_dt + 1 in
  daily_avg <- (if 0 <? days_diff
                then q <- py_truediv total_kg (inject_Z days_diff) ;; Ok (py_round q 0)
                else Ok 0%Q) ;;
  Ok (mkReport days_diff total_kg total_cycles daily_avg peso_medio
               total_water_liters agua_por_kg total_chemicals chemicals_per_kg).

(** The [try] block of [generate_executive_report]. *)
Definition report_body (env : Env) (start_dt end_dt end_exclusive : datetime)
  : M ExecReport :=
  prod_df <<- execute_query env (prod_query (db env) start_dt end_exclusive) ;;
  cycles_water_df <<- execute_query env (cycles_water_query (db env) start_dt end_exclusive) ;;
  let total_kg := cell prod_df (fun x => x) 0%Q in
  let total_cycles := cell cycles_water_df (fun r => py_int (total_cycles r)) 0 in
  let total_water_liters := cell cycles_water_df total_water_liters 0%Q in
  chem_df <<- execute_query env (chem_query (db env) start_dt end_exclusive) ;;
  let total_chemicals := cell chem_df (fun x => x) 0%Q in
  alarms_period_df <<- execute_query env (alarms_period_query (db env) start_dt end_exclusive) ;;
  alarms_active_df <<- execute_query env (alarms_active_query (db env) (date_of (now env))) ;;
  let period_alarms := cell alarms_period_df (fun x => x) 0 in
  let active_alarms := cell alarms_active_df (fun x => x) 0 in
  lift (report_of_totals start_dt end_dt total_kg total_cycles
                         total_water_liters total_chemicals).

Definition generate_executive_report (env : Env)
    (start_date end_date : option datetime) : M ExecReport :=
  w <<- lift (report_window env start_date end_date) ;;
  let '(start_dt, end_dt, end_exclusive) := w in
  try_exceptM (report_body env start_dt end_dt end_exclusive)
              (fun _ => ret fallback_report).

(** ** build_report_datasets *)

Definition lookup_alias (aliases : list (Z * string)) (id : Z) : option string :=
  match find (fun p => fst p =? id) aliases with
  | Some p => Some (snd p)
  | None => None
  end.

(** [COALESCE(ca.alias, 'Cliente ' || CAST(rc."C1" AS TEXT))] *)
Definition client_display_of (aliases : list (Z * string)) (id : Z) : string :=
  match lookup_alias aliases id with
  | Some a => a
  | None => ("Cliente " ++ text_of_int id)%string
  end.

Record Client_row : Type := mkClient {
  client_id : Z;
  client_display : string;
  total_cargas : Z;
  total_kg : Q;
  peso_medio_kg : Q
}.

Definition loads_in (d : Database) (lo hi : datetime) : list Rel_Carga_row :=
  filter (fun r => in_half_open lo hi (rc_Time_Stamp r)) (Rel_Carga d).

(** One output row of [prod_client_sql] per group of [GROUP BY rc."C1",
    ca.alias]. *)
Definition client_row_of (aliases : list (Z * string)) (g : Z * list Rel_Carga_row)
  : Client_row :=
  let '(id, loads) := g in
  mkClient id
           (client_display_of aliases id)
           (sql_count loads)
           (coalesce (sql_sum (map (fun r => Some (rc_C2 r)) loads)) 0)
           (coalesce (sql_avg (map (fun r => nullif0 (rc_C2 r)) loads)) 0).

Definition prod_client_sql (d : Database) (lo hi : datetime)
  : result (list Client_row) :=
  Ok (order_by_desc total_kg
        (map (client_row_of (client_alias d)) (group_by rc_C1 (loads_in d lo hi)))).

Record Daily_row : Type := mkDaily {
  dp_dia : Z;
  dp_cargas : Z;
  dp_kg : Q
}.

Definition daily_prod_sql (d : Database) (lo hi : datetime)
  : result (list Daily_row) :=
  Ok (map (fun g : Z * list Rel_Carga_row =>
             mkDaily (fst g) (sql_count (snd g))
                     (coalesce (sql_sum (map (fun r => Some (rc_C2 r)) (snd g))) 0))
          (group_by (fun r => date_of (rc_Time_Stamp r)) (loads_in d lo hi))).

Record Water_row : Type := mkWater {
  w_dia : Z;
  w_kg : Q;
  w_ciclos : Z;
  w_agua_litros : Q
}.

Definition diario_in (d : Database) (lo hi : datetime) : list Rel_Diario_row :=
  filter (fun r => in_half_open lo hi (rd_Time_Stamp r)) (Rel_Diario d).

Definition water_daily_sql (d : Database) (lo hi : datetime)
  : result (list Water_row) :=
  Ok (map (fun g : Z * list Rel_Diario_row =>
             mkWater (fst g)
                     (coalesce (sql_sum (map (fun r => Some (rd_C4 r)) (snd g))) 0)
                     (sql_count (snd g))
                     (coalesce (sql_scale (sql_sum (map (fun r => Some (rd_C2 r)) (snd g))) 1000) 0))
          (group_by (fun r => date_of (rd_Time_Stamp r)) (diario_in d lo hi))).

Record Chem_row : Type := mkChem {
  c_dia : Z;
  c_quimicos : Q
}.

Definition chemicals_daily_sql (d : Database) (lo hi : datetime)
  : result (list Chem_row) :=
  Ok (map (fun g : Z * list Rel_Quimico_row =>
             mkChem (fst g)
                    (coalesce (sql_sum (map (fun r => Some (chem_Q1_Q5 r)) (snd g))) 0))
          (group_by (fun r => date_of (rq_Time_Stamp r))
                    (filter (fun r => in_half_open lo hi (rq_Time_Stamp r)) (Rel_Quimico d)))).

Record AlarmDay_row : Type := mkAlarmDay {
  ad_dia : Z;
  ad_alarmes : Z
}.

Definition alarms_daily_sql (d : Database) (lo hi : datetime)
  : result (list AlarmDay_row) :=
  Ok (map (fun g : Z * list Alarm_row => mkAlarmDay (fst g) (sql_count (snd g)))
          (group_by (fun a => date_of (Al_Start_Time a))
                    (filter (fun a => in_half_open lo hi (Al_Start_Time a)) (ALARMHISTORY d)))).

(** A row of [water_chem_daily]; a cell that the outer merge could not
    fill is NaN. *)
Record WaterChem_row : Type := mkWC {
  wc_dia : Z;
  wc_kg : option Q;
  wc_ciclos : option Z;
  wc_agua_litros : option Q;
  wc_quimicos : option Q;
  wc_agua_por_kg : option Q;
  wc_quimicos_por_kg : option Q
}.

(** The lambda of lines 422 and 425:
    [(float(num) / float(kg)) if (pd.notnull(kg) and kg not in [0, 0.0]) else 0.0] *)
Definition per_kg (num kg : option Q) : result (option Q) :=
  match kg with
  | Some k =>
      if negb (Qeq_bool k 0)
      then match num with
           | Some a => q <- py_truediv a k ;; Ok (Some q)
           | None => Ok None
           end
      else Ok (Some 0%Q)
  | None => Ok (Some 0%Q)
  end.

Definition merged_row (ws : list Water_row) (cs : list Chem_row) (dia : Z)
  : result WaterChem_row :=
  let w := find (fun r => w_dia r =? dia) ws in
  let c := find (fun r => c_dia r =? dia) cs in
  let kg := option_map w_kg w in
  let agua := option_map w_agua_litros w in
  let quim := option_map c_quimicos c in
  agua_por_kg <- per_kg agua kg ;;
  quimicos_por_kg <- per_kg quim kg ;;
  Ok (mkWC dia kg (option_map w_ciclos w) agua quim agua_por_kg quimicos_por_kg).

(** [pd.merge(water_daily_df, chemicals_daily_df, on='dia', how='outer')
      .sort_values('dia')] followed by the two derived columns. A frame
    without the column ['dia'] cannot be merged. *)
Definition water_chem_merge (water_daily_df : DataFrame Water_row)
    (chemicals_daily_df : DataFrame Chem_row) : result (DataFrame WaterChem_row) :=
  match water_daily_df, chemicals_daily_df with
  | Frame ws, Frame cs =>
      let dias := map fst (group_by (fun x : Z => x) (map w_dia ws ++ map c_dia cs)) in
      rows <- all_ok (map (merged_row ws cs) dias) ;;
      Ok (Frame rows)
  | _, _ => Raise KeyError
  end.

Record ReportDatasets : Type := mkDatasets {
  summary : ExecReport;
  production_by_client : DataFrame Client_row;
  daily_production : DataFrame Daily_row;
  water_chemicals_daily : DataFrame WaterChem_row;
  alarms_daily : DataFrame AlarmDay_row
}.

(** Line 358 *)
Definition datasets_end_exclusive (end_dt : datetime) : result datetime :=
  d <- add_days end_dt 1 ;; Ok (floor_to_midnight d).

Definition build_report_datasets (env : Env) (start_dt end_dt : datetime)
  : M ReportDatasets :=
  try_exceptM
    (end_exclusive <<- lift (datasets_end_exclusive end_dt) ;;
     summary <<- generate_executive_report env (Some start_dt) (Some end_dt) ;;
     prod_client_df <<- execute_query env (prod_client_sql (db env) start_dt end_exclusive) ;;
     daily_prod_df <<- execute_query env (daily_prod_sql (db env) start_dt end_exclusive) ;;
     water_daily_df <<- execute_query env (water_daily_sql (db env) start_dt end_exclusive) ;;
     chemicals_daily_df <<- execute_query env (chemicals_daily_sql (db env) start_dt end_exclusive) ;;
     water_chem_daily <<- lift (water_chem_merge water_daily_df chemicals_daily_df) ;;
     alarms_daily_df <<- execute_query env (alarms_daily_sql (db env) start_dt end_exclusive) ;;
     ret (mkDatasets summary prod_client_df daily_prod_df water_chem_daily alarms_daily_df))
    (fun _ =>
       summary <<- generate_executive_report env (Some start_dt) (Some end_dt) ;;
       ret (mkDatasets summary NoFrame NoFrame NoFrame NoFrame)).

(** ** get_client_performance_comparison *)

Record Perf_row : Type := mkPerf {
  client_name : string;
  perf_client_id : Z;
  perf_total_kg : Q
}.

(** ['Cliente ' || CAST("C1" AS TEXT) as client_name ... WHERE "Time_Stamp"
    >= %s AND "Time_Stamp" <= %s AND "C2" > 0 GROUP BY "C1"
    ORDER BY total_kg DESC LIMIT 50] *)
Definition client_performance_query (d : Database) (lo hi : datetime)
  : result (list Perf_row) :=
  let rows := filter (fun r => dt_leb lo (rc_Time_Stamp r)
                               && dt_leb (rc_Time_Stamp r) hi
                               && Qltb 0 (rc_C2 r)) (Rel_Carga d) in
  Ok (firstn 50
        (order_by_desc perf_total_kg
           (map (fun g : Z * list Rel_Carga_row =>
                   mkPerf ("Cliente " ++ text_of_int (fst g))%string (fst g)
                          (Qsum (map rc_C2 (snd g))))
                (group_by rc_C1 rows)))).

Definition get_client_performance_comparison (env : Env) (start_date end_date : datetime)
  : M (DataFrame Perf_row) :=
  execute_query env (client_performance_query (db env) start_date end_date).

End dstech_app.

(** * dstech_charts.py *)

Module dstech_charts.

(** ** The date used for the cumulative-status source *)

(** [SELECT COUNT( * ) FROM "Sts_Dados" WHERE "Time_Stamp"::date = today] *)
Definition sts_dados_hoje_check_query (d : Database) (today : Z) : result (list Z) :=
  Ok [sql_count (filter (fun r => date_of (sd_Time_Stamp r) =? today) (Sts_Dados d))].

Definition max_date (rows : list Sts_Dados_row) : option Z :=
  fold_right (fun r acc => match acc with
                           | None => Some (date_of (sd_Time_Stamp r))
                           | Some m => Some (Z.max (date_of (sd_Time_Stamp r)) m)
                           end) None rows.

(** [SELECT MAX("Time_Stamp"::date) as max_date FROM "Sts_Dados"] *)
Definition sts_dados_hoje_query (d : Database) : result (list (option Z)) :=
  Ok [max_date (Sts_Dados d)].

(** Lines 745-769: the pair [(latest_date, resumo_exec_date)]. *)
Definition resolve_dates (env : Env) : M (Z * Z) :=
  let today := date_of (now env) in
  try_exceptM
    (today_data_check <<- execute_query env (sts_dados_hoje_check_query (db env) today) ;;
     let has_today_data := cell today_data_check (fun c => 0 <? c) false in
     latest_date_df <<- execute_query env (sts_dados_hoje_query (db env)) ;;
     let latest_date := match iloc0 latest_date_df with
                        | Some (Some m) => m
                        | _ => today
                        end in
     let resumo_exec_date := if has_today_data then today else latest_date in
     ret (latest_date, resumo_exec_date))
    (fun _ => ret (today, today)).

(** ** The statements of get_operational_kpis *)

(** [ORDER BY "Time_Stamp" DESC LIMIT 1]: the row with the greatest time
    stamp (SQL leaves the choice among equal stamps open; the first such
    row of the table is taken). *)
Definition last_by_time (rows : list Sts_Dados_row) : option Sts_Dados_row :=
  fold_left (fun best r =>
               match best with
               | None => Some r
               | Some b => if dt_ltb (sd_Time_Stamp b) (sd_Time_Stamp r)
                           then Some r else Some b
               end) rows None.

Definition sts_on (d : Database) (day : Z) : list Sts_Dados_row :=
  filter (fun r => date_of (sd_Time_Stamp r) =? day) (Sts_Dados d).

Record sts_row : Type := mkStsOut {
  s_quilos_lavados : Q;
  s_batchs : Q;
  s_litros_agua : Q;
  s_peso_medio : option Q;
  s_litros_por_kg : option Q
}.

(** [CASE WHEN den > 0 THEN ROUND(CAST(num / den AS NUMERIC), n) ELSE 0 END] *)
Definition case_ratio (num den : option Q) (n : nat) : result (option Q) :=
  if sql_pos den
  then q <- sql_div num den ;; Ok (option_map (fun x => sql_round x n) q)
  else Ok (Some 0%Q).

(** [sts_hoje_query] and [sts_resumo_exec_query]: the same statement over
    two date filters. *)
Definition sts_last_query (d : Database) (day : Z) : result (list sts_row) :=
  match last_by_time (sts_on d day) with
  | None => Ok []
  | Some r =>
      peso <- case_ratio (sd_D3 r) (sd_D2 r) 2 ;;
      lkg <- case_ratio (sql_scale (sd_D1 r) 1000) (sd_D3 r) 2 ;;
      Ok [mkStsOut (coalesce (sd_D3 r) 0) (coalesce (sd_D2 r) 0)
                   (coalesce (sd_D1 r) 0 * 1000)%Q peso lkg]
  end.

(** The selected period: both bounds given, or the last seven days. *)
Inductive Period : Type :=
| Selected (start_date end_date : datetime)
| Last7.

Definition period_of (start_date end_date : option datetime) : Period :=
  match start_date, end_date with
  | Some s, Some e => Selected s e
  | _, _ => Last7
  end.

(** [date_filter_periodo]: ["Time_Stamp" >= start AND "Time_Stamp" <= end],
    or ["Time_Stamp" >= CURRENT_DATE - INTERVAL '7 days']. *)
Definition date_filter_periodo (today : Z) (p : Period) (ts : datetime) : bool :=
  match p with
  | Selected s e => dt_leb s ts && dt_leb ts e
  | Last7 => dt_leb (midnight (today - 7)) ts
  end.

(** [client_filter_sql]: [AND "C5" = client] unless no client or 'all'. *)
Definition client_filter_sql (client_filter : option Z) (r : Rel_Diario_row) : bool :=
  match client_filter with
  | Some c => rd_C5 r =? c
  | None => true
  end.

Definition sumC (f : Rel_Diario_row -> Q) (rows : list Rel_Diario_row) : option Q :=
  sql_sum (map (fun r => Some (f r)) rows).

(** [FROM "Rel_Diario" WHERE {date_filter_periodo} AND "C4" > 0] *)
Definition diario_periodo (d : Database) (today : Z) (p : Period) : list Rel_Diario_row :=
  filter (fun r => date_filter_periodo today p (rd_Time_Stamp r) && Qltb 0 (rd_C4 r))
         (Rel_Diario d).

Record periodo_row : Type := mkPeriodo {
  p_quilos_lavados : Q;
  p_batchs : Z;
  p_litros_agua : Q;
  p_peso_medio : option Q;
  p_litros_por_kg : option Q
}.

Definition sts_periodo_query (d : Database) (today : Z) (p : Period)
  : result (list periodo_row) :=
  let rows := diario_periodo d today p in
  peso <- (if 0 <? sql_count rows
           then q <- sql_div (sumC rd_C4 rows) (Some (inject_Z (sql_count rows))) ;;
                Ok (option_map (fun x => sql_round x 2) q)
           else Ok (Some 0%Q)) ;;
  lkg <- case_ratio (sql_scale (sumC rd_C2 rows) 1000) (sumC rd_C4 rows) 2 ;;
  Ok [mkPeriodo (coalesce (sumC rd_C4 rows) 0) (sql_count rows)
                (coalesce (sql_scale (sumC rd_C2 rows) 1000) 0) peso lkg].

(** [... WHERE {date_filter_periodo} AND "C4" > 0{client_filter_sql}] *)
Definition diario_periodo_client (d : Database) (today : Z) (p : Period)
    (client_filter : option Z) : list Rel_Diario_row :=
  filter (fun r => date_filter_periodo today p (rd_Time_Stamp r)
                   && Qltb 0 (rd_C4 r) && client_filter_sql client_filter r)
         (Rel_Diario d).

(** [(quilos_lavados_periodo, ciclos_periodo)] *)
Definition production_periodo_query (d : Database) (today : Z) (p : Period)
    (client_filter : option Z) : result (list (Q * Z)) :=
  let rows := diario_periodo_client d today p client_filter in
  Ok [(coalesce (sumC rd_C4 rows) 0, sql_count rows)].

(** [(litros_agua_periodo, litros_por_kg_periodo)] *)
Definition water_periodo_query (d : Database) (today : Z) (p : Period)
    (client_filter : option Z) : result (list (Q * option Q)) :=
  let rows := diario_periodo_client d today p client_filter in
  lkg <- case_ratio (sql_scale (sumC rd_C2 rows) 1000) (sumC rd_C4 rows) 2 ;;
  Ok [((coalesce (sumC rd_C2 rows) 0 * 1000)%Q, lkg)].

(** [WHERE "Time_Stamp" >= today AND "Time_Stamp" < today + 1 day] *)
Definition date_filter_hoje_carga (today : Z) (ts : datetime) : bool :=
  in_half_open (midnight today) (midnight (today + 1)) ts.

Definition production_hoje_query (d : Database) (today : Z) : result (list (Q * Z)) :=
  let rows := filter (fun r => date_filter_hoje_carga today (rc_Time_Stamp r)
                               && Qltb 0 (rc_C2 r)) (Rel_Carga d) in
  Ok [(coalesce (sql_sum (map (fun r => Some (rc_C2 r)) rows)) 0, sql_count rows)].

Definition water_hoje_query (d : Database) (today : Z) : result (list (Q * option Q)) :=
  let rows := filter (fun r => date_filter_hoje_carga today (rc_Time_Stamp r)
                               && Qltb 0 (rc_C2 r) && Qltb 0 (rc_C3 r)) (Rel_Carga d) in
  let c3 := sql_sum (map (fun r => Some (rc_C3 r)) rows) in
  let c2 := sql_sum (map (fun r => Some (rc_C2 r)) rows) in
  lkg <- case_ratio (sql_scale c3 1000) c2 2 ;;
  Ok [((coalesce c3 0 * 1000)%Q, lkg)].

(** ["Q1" + "Q2" + ... + "Q9"] of one row: NULL as soon as one is NULL. *)
Definition chem_Q1_Q9 (r : Rel_Quimico_row) : option Q :=
  fold_right (fun i acc => sql_add (nth i (rq_Q r) None) acc) (Some 0%Q)
             [0; 1; 2; 3; 4; 5; 6; 7; 8]%nat.

(** [(ml_quimicos, ml_quimicos_por_kg)] over the chemical rows [rows], the
    kilograms [kg] being the sub-select of the [CASE]. *)
Definition chemical_query (rows : list Rel_Quimico_row) (kg : option Q)
  : result (list (Q * option Q)) :=
  let total := sql_sum (map chem_Q1_Q9 rows) in
  per_kg <- case_ratio total kg 3 ;;
  Ok [(coalesce total 0, per_kg)].

Definition chemical_hoje_query (d : Database) (resumo_exec_date : Z)
  : result (list (Q * option Q)) :=
  chemical_query
    (filter (fun r => date_of (rq_Time_Stamp r) =? resumo_exec_date) (Rel_Quimico d))
    (match last_by_time (sts_on d resumo_exec_date) with
     | Some r => sd_D3 r
     | None => None
     end).

Definition chemical_periodo_query (d : Database) (today : Z) (p : Period)
  : result (list (Q * option Q)) :=
  chemical_query
    (filter (fun r => date_filter_periodo today p (rq_Time_Stamp r)) (Rel_Quimico d))
    (sumC rd_C4 (diario_periodo d today p)).

(** [FROM "Rel_Diario" WHERE {date_filter_periodo}
     AND "C1" > 0 AND "C0" >= 0{client_filter_sql}] *)
Definition diario_efficiency (d : Database) (today : Z) (p : Period)
    (client_filter : option Z) : list Rel_Diario_row :=
  filter (fun r => date_filter_periodo today p (rd_Time_Stamp r)
                   && Qltb 0 (rd_C1 r) && Qle_bool 0 (rd_C0 r)
                   && client_filter_sql client_filter r)
         (Rel_Diario d).

(** [CASE WHEN SUM("C1" + "C0") > 0
     THEN ROUND(CAST((SUM("C1") / SUM("C1" + "C0")) * 100 AS NUMERIC), 1)
     ELSE 0 END as eficiencia_media] *)
Definition efficiency_of (rows : list Rel_Diario_row) : result (option Q) :=
  let total := sumC (fun r => rd_C1 r + rd_C0 r)%Q rows in
  if sql_pos total
  then q <- sql_div (sumC rd_C1 rows) total ;;
       Ok (option_map (fun x => sql_round (x * 100) 1) q)
  else Ok (Some 0%Q).

Definition efficiency_query (d : Database) (today : Z) (p : Period)
    (client_filter : option Z) : result (list (option Q)) :=
  e <- efficiency_of (diario_efficiency d today p client_filter) ;;
  Ok [e].

Definition alarms_query (d : Database) (today : Z) : result (list Z) :=
  Ok [sql_count (filter (fun a => date_filter_hoje_carga today (Al_Start_Time a)
                                  && match Al_Norm_Time a with
                                     | None => true
                                     | Some _ => false
                                     end) (ALARMHISTORY d))].

(** ** get_operational_kpis *)

(** [float(df.iloc[0][col]) if not df.empty and df.iloc[0][col] is not None
    else 0] *)
Definition cell_float {R : Type} (df : DataFrame R) (f : R -> option Q) : Q :=
  match iloc0 df with
  | Some r => coalesce (f r) 0
  | None => 0%Q
  end.

(** The dictionary [kpis], each numeric entry before it is formatted. *)
Record KPIs : Type := mkKPIs {
  quilos_lavados_hoje_raw : Q;
  ciclos_hoje : Z;
  litros_agua_hoje_raw : Q;
  litros_por_kg_hoje : Q;
  peso_medio_hoje : Q;
  ml_quimicos_hoje : Q;
  ml_quimicos_por_kg_hoje : Q;
  quilos_lavados_resumo_raw : Q;
  ciclos_resumo : Z;
  litros_agua_resumo_raw : Q;
  litros_por_kg_resumo : Q;
  peso_medio_resumo : Q;
  quilos_lavados_periodo_raw : Q;
  ciclos_periodo : Z;
  litros_agua_periodo_raw : Q;
  litros_por_kg_periodo : Q;
  peso_medio_periodo : Q;
  ml_quimicos_periodo : Q;
  ml_quimicos_por_kg_periodo : Q;
  eficiencia_media : Q;
  alarmes_ativos : Z
}.

(** The dictionary of the [except] branch. *)
Definition zero_kpis : KPIs :=
  mkKPIs 0 0 0 0 0 0 0 0 0 0 0 0 0 0 0 0 0 0 0 0 0.

(** Lines 967-1031 *)
Definition kpis_of_frames
    (sts_hoje_df sts_resumo_exec_df : DataFrame sts_row)
    (sts_periodo_df : DataFrame periodo_row)
    (chemical_hoje_df chemical_periodo_df : DataFrame (Q * option Q))
    (efficiency_df : DataFrame (option Q)) (alarms_df : DataFrame Z) : KPIs :=
  let some {A} (f : A -> Q) := fun r => Some (f r) in
  mkKPIs
    (py_round (cell_float sts_hoje_df (some s_quilos_lavados)) 0)
    (py_int (cell_float sts_hoje_df (some s_batchs)))
    (py_round (cell_float sts_hoje_df (some s_litros_agua)) 0)
    (cell_float sts_hoje_df s_litros_por_kg)
    (cell_float sts_hoje_df s_peso_medio)
    (py_round (cell_float chemical_hoje_df (some fst)) 0)
    (py_round (cell_float chemical_hoje_df snd) 3)
    (py_round (cell_float sts_resumo_exec_df (some s_quilos_lavados)) 0)
    (py_int (cell_float sts_resumo_exec_df (some s_batchs)))
    (py_round (cell_float sts_resumo_exec_df (some s_litros_agua)) 0)
    (cell_float sts_resumo_exec_df s_litros_por_kg)
    (cell_float sts_resumo_exec_df s_peso_medio)
    (py_round (cell_float sts_periodo_df (some p_quilos_lavados)) 0)
    (cell sts_periodo_df p_batchs 0)
    (py_round (cell_float sts_periodo_df (some p_litros_agua)) 0)
    (cell_float sts_periodo_df p_litros_por_kg)
    (cell_float sts_periodo_df p_peso_medio)
    (py_round (cell_float chemical_periodo_df (some fst)) 0)
    (py_round (cell_float chemical_periodo_df snd) 3)
    (py_round (cell_float efficiency_df (fun x => x)) 1)
    (cell alarms_df (fun x => x) 0).

Definition get_operational_kpis (env : Env)
    (start_date end_date : option datetime) (client_filter : option Z) : M KPIs :=
  let today := date_of (now env) in
  let p := period_of start_date end_date in
  let d := db env in
  dates <<- resolve_dates env ;;
  let '(latest_date, resumo_exec_date) := dates in
  try_exceptM
    (sts_hoje_df <<- execute_query env (sts_last_query d latest_date) ;;
     sts_periodo_df <<- execute_query env (sts_periodo_query d today p) ;;
     sts_resumo_exec_df <<- execute_query env (sts_last_query d resumo_exec_date) ;;
     production_hoje_df <<- execute_query env (production_hoje_query d today) ;;
     production_periodo_df <<- execute_query env (production_periodo_query d today p client_filter) ;;
     water_hoje_df <<- execute_query env (water_hoje_query d today) ;;
     water_periodo_df <<- execute_query env (water_periodo_query d today p client_filter) ;;
     chemical_hoje_df <<- execute_query env (chemical_hoje_query d resumo_exec_date) ;;
     chemical_periodo_df <<- execute_query env (chemical_periodo_query d today p) ;;
     efficiency_df <<- execute_query env (efficiency_query d today p client_filter) ;;
     alarms_df <<- execute_query env (alarms_query d today) ;;
     ret (kpis_of_frames sts_hoje_df sts_resumo_exec_df sts_periodo_df
                         chemical_hoje_df chemical_periodo_df efficiency_df alarms_df))
    (fun _ => ret zero_kpis).

(** ** get_dashboard_summary: the statement [production_summary] *)

Record production_summary_row : Type := mkPS {
  ps_total_cycles : Z;
  ps_total_production_kg : option Q;
  ps_avg_production_per_cycle : option Q;
  ps_avg_efficiency : option Q
}.

(** [("C1" / ("C1" + "C0")) * 100] of one row *)
Definition row_efficiency (r : Rel_Diario_row) : result (option Q) :=
  q <- sql_div (Some (rd_C1 r)) (Some (rd_C1 r + rd_C0 r)%Q) ;;
  Ok (sql_scale q 100).

(** [SELECT COUNT( * ), SUM("C4"), AVG("C4"), AVG(("C1" / ("C1" + "C0")) * 100)
     FROM "Rel_Diario" WHERE "Time_Stamp" >= CURRENT_DATE - INTERVAL '30 days'] *)
Definition production_summary (d : Database) (today : Z)
  : result (list production_summary_row) :=
  let rows := filter (fun r => dt_leb (midnight (today - 30)) (rd_Time_Stamp r))
                     (Rel_Diario d) in
  effs <- all_ok (map row_efficiency rows) ;;
  Ok [mkPS (sql_count rows) (sumC rd_C4 rows)
           (sql_avg (map (fun r => Some (rd_C4 r)) rows)) (sql_avg effs)].

End dstech_charts.

Import dstech_app dstech_charts.

(** * Reference formulas

    The quantities the properties below compare the code with. *)

(** [round(num / den, n) if guard else 0.0] *)
Definition guarded_ratio (guard : bool) (num den : Q) (n : nat) : Q :=
  if guard then py_round (num / den) n else 0%Q.

(** An aggregate that is zero, or has no row to aggregate. *)
Definition agg_zero (v : option Q) : Prop := (coalesce v 0 == 0)%Q.

(** A date and time Python can hold. *)
Definition valid_datetime (dt : datetime) : Prop :=
  MINORDINAL <= ordinal dt <= MAXORDINAL /\ 0 <= micros dt < 86400000000.

(** The same database with another [Rel_Diario] table. *)
Definition with_diario (d : Database) (rows : list Rel_Diario_row) : Database :=
  mkDB rows (Sts_Dados d) (Rel_Carga d) (Rel_Quimico d) (ALARMHISTORY d) (client_alias d).

(** The efficiency formula of the KPI composer over (production time,
    downtime) pairs: summed production time over summed total time, as a
    percentage. *)
Definition summed_efficiency (recs : list (Q * Q)) : Q :=
  (Qsum (map fst recs) / Qsum (map (fun r => fst r + snd r) recs) * 100)%Q.

(** The mean of the per-record efficiency ratios. *)
Definition mean_of_ratios (recs : list (Q * Q)) : Q :=
  (Qsum (map (fun r => fst r / (fst r + snd r) * 100) recs)
   / inject_Z (Z.of_nat (length recs)))%Q.

Definition minutes_of (r : Rel_Diario_row) : Q * Q := (rd_C1 r, rd_C0 r).

(** The frame that the [n]-th statement of a request reads. *)
Definition frame_of {R : Type} (env : Env) (query : result (list R)) (n : nat)
  : DataFrame R :=
  if up env n
  then match query with Ok rows => Frame rows | Raise _ => NoFrame end
  else NoFrame.

(** The date of the main KPIs ([latest_date]) and the date of the executive
    summary ([resumo_exec_date]) when the two statements of the resolver are
    the [n]-th and the next one of the request. *)
Definition has_today_data_of (env : Env) (n : nat) : bool :=
  cell (frame_of env (sts_dados_hoje_check_query (db env) (date_of (now env))) n)
       (fun c => 0 <? c) false.

Definition latest_date_of (env : Env) (n : nat) : Z :=
  match iloc0 (frame_of env (sts_dados_hoje_query (db env)) (S n)) with
  | Some (Some m) => m
  | _ => date_of (now env)
  end.

Definition resumo_exec_date_of (env : Env) (n : nat) : Z :=
  if has_today_data_of env n then date_of (now env) else latest_date_of env n.

(** The dictionary that [generate_executive_report] builds for given
    bounds when its five statements are the [n]-th to the [n+4]-th of the
    request. *)
Definition report_of (env : Env) (start_dt end_dt : datetime) (n : nat) : ExecReport :=
  let x := mkdt (ordinal end_dt + 1) (micros end_dt) in
  let kg := cell (frame_of env (prod_query (db env) start_dt x) n) (fun q => q) 0%Q in
  let cw := frame_of env (cycles_water_query (db env) start_dt x) (S n) in
  let cyc := cell cw (fun r => py_int (total_cycles r)) 0 in
  let w := cell cw total_water_liters 0%Q in
  let ch := cell (frame_of env (chem_query (db env) start_dt x) (S (S n))) (fun q => q) 0%Q in
  let days := date_of end_dt - date_of start_dt + 1 in
  mkReport days kg cyc
    (guarded_ratio (0 <? days) kg (inject_Z days) 0)
    (guarded_ratio (0 <? cyc) kg (inject_Z cyc) 2)
    w (guarded_ratio (Qltb 0 kg) w kg 2)
    ch (guarded_ratio (Qltb 0 kg) ch kg 4).

(** * Scenarios *)

Definition jan (d : Z) : Z := ymd 2024 1 d.

(** A window whose end carries a time of day: 1 January to 7 January 2024,
    15:30; one consolidated row is stamped 8 January, 10:00. *)
Definition c5_end : datetime := at_time (jan 7) 15 30.

Definition c5_db : Database :=
  mkDB [mkDiario (at_time (jan 8) 10 0) 0 60 (1 # 2) 50 1] [] [] [] [] [].

Definition c5_env : Env := mkEnv c5_db (at_time (jan 20) 12 0) always_up.

(** Two status polls of 3 January 2024: one cycle, 50 litres and 100 kg at
    10:00; two cycles, 130 litres and 300 kg at 11:00. *)
Definition c4_db : Database :=
  mkDB []
       [mkSts (at_time (jan 3) 10 0) (Some (50 # 1000)) (Some 1%Q) (Some 100%Q);
        mkSts (at_time (jan 3) 11 0) (Some (130 # 1000)) (Some 2%Q) (Some 300%Q)]
       [] [] [] [].

Definition c4_env : Env := mkEnv c4_db (at_time (jan 3) 12 0) always_up.

(** The scenario of the end-to-end example: three loads of client 7 in the
    week of 1 to 7 January 2024, of 100 kg with 50 litres, 200 kg with 80
    litres and 0 kg with no water; no alias, nothing in the other sources. *)
Definition c8_loads (t1 t2 t3 : datetime) : list Rel_Carga_row :=
  [mkCarga t1 7 100 (50 # 1000); mkCarga t2 7 200 (80 # 1000); mkCarga t3 7 0 0].

Definition c8_db : Database :=
  mkDB [] [] (c8_loads (at_time (jan 1) 8 0) (at_time (jan 3) 9 30) (at_time (jan 7) 23 0))
       [] [] [].

Definition c8_env : Env := mkEnv c8_db (at_time (jan 20) 12 0) always_up.

Definition no_datasets : ReportDatasets :=
  mkDatasets fallback_report NoFrame NoFrame NoFrame NoFrame.

Definition datasets_of (m : M ReportDatasets) : ReportDatasets :=
  match fst (m 0%nat) with Ok ds => ds | Raise _ => no_datasets end.

Definition rows_of {R : Type} (df : DataFrame R) : list R :=
  match df with Frame rows => rows | NoFrame => [] end.

Definition c8_datasets : ReportDatasets :=
  datasets_of (build_report_datasets c8_env (midnight (jan 1)) (midnight (jan 7))).

Definition c8_row : Client_row :=
  hd (mkClient 0 EmptyString 0 0 0) (rows_of (production_by_client c8_datasets)).

(** A consolidated day without production: 0 kg, yet four hours of
    production time and 12 cubic metres of water. *)
Definition idle_day : Rel_Diario_row :=
  mkDiario (at_time (jan 4) 23 0) 60 240 12 0 1.

Definition c10_days : list Rel_Diario_row :=
  [mkDiario (at_time (jan 3) 23 0) 30 400 5 900 1;
   mkDiario (at_time (jan 5) 23 0) 20 420 6 1100 1].

(** Two consolidated days given by their (production time, downtime)
    minutes, inside the selected week. *)
Definition two_days (a b : Q * Q) : list Rel_Diario_row :=
  [mkDiario (at_time (jan 2) 23 0) (snd a) (fst a) 5 900 1;
   mkDiario (at_time (jan 3) 23 0) (snd b) (fst b) 6 1100 1].

Definition c2_env (a b : Q * Q) : Env :=
  mkEnv (with_diario empty_db (two_days a b)) (at_time (jan 7) 12 0) always_up.

Definition kpis_of (m : M KPIs) : KPIs :=
  match fst (m 0%nat) with Ok k => k | Raise _ => zero_kpis end.

(** The KPI bundle for the week of 1 to 7 January 2024 over two such days. *)
Definition c2_kpis (a b : Q * Q) : KPIs :=
  kpis_of (get_operational_kpis (c2_env a b) (Some (midnight (jan 1)))
                                (Some (midnight (jan 7))) None).

(** The KPI bundle for the week of 1 to 7 January 2024 over the given
    consolidated days. *)
Definition c10_kpis (rows : list Rel_Diario_row) : KPIs :=
  kpis_of (get_operational_kpis
             (mkEnv (with_diario empty_db rows) (at_time (jan 7) 12 0) always_up)
             (Some (midnight (jan 1))) (Some (midnight (jan 7))) None).

(** The status source holds a poll of today, 10 January 2024 (500 kg so
    far), and one stamped on the next day (7 kg). *)
Definition c3_db : Database :=
  mkDB []
       [mkSts (at_time (jan 10) 8 0) (Some (2 # 1)) (Some 5%Q) (Some 500%Q);
        mkSts (at_time (jan 11) 0 30) (Some (1 # 10)) (Some 1%Q) (Some 7%Q)]
       [] [] [] [].

Definition c3_env : Env := mkEnv c3_db (at_time (jan 10) 9 0) always_up.

Definition c3_kpis : KPIs := kpis_of (get_operational_kpis c3_env None None None).

(** Only polls of three days before today, 10 January 2024. *)
Definition c3_old_env : Env :=
  mkEnv (mkDB [] [mkSts (at_time (jan 7) 18 0) (Some (2 # 1)) (Some 5%Q) (Some 500%Q)]
              [] [] [] [])
        (at_time (jan 10) 9 0) always_up.

(** * dstech_app.py: the client aliases

    The helpers [get_client_mappings], [upsert_client_mapping] and
    [get_client_catalog], and the callbacks [load_current_alias],
    [save_client_name] and [clear_all_aliases] of the configuration tab.
    They change the table [app.client_alias], so each one returns the
    environment it leaves behind. A text is a sequence of characters with
    a code below 256; a client identifier is an integer. *)

Module client_aliases.

(** ** Texts *)

(** The characters that [str.strip()] removes. *)
Definition is_space (c : ascii) : bool :=
  let k := Z.of_nat (nat_of_ascii c) in
  ((9 <=? k) && (k <=? 13)) || ((28 <=? k) && (k <=? 32))
  || (k =? 133) || (k =? 160).

Fixpoint lstrip (s : string) : string :=
  match s with
  | EmptyString => EmptyString
  | String c s' => if is_space c then lstrip s' else s
  end.

Fixpoint rstrip (s : string) : string :=
  match s with
  | EmptyString => EmptyString
  | String c s' =>
      match rstrip s' with
      | EmptyString => if is_space c then EmptyString else String c EmptyString
      | t => String c t
      end
  end.

(** [s.strip()] *)
Definition strip (s : string) : string := rstrip (lstrip s).

(** The truth value of a text: the empty text is false. *)
Definition nonempty (s : string) : bool :=
  match s with EmptyString => false | String _ _ => true end.

(** ** The table app.client_alias

    [client_id INTEGER PRIMARY KEY, alias TEXT NOT NULL] *)

Definition in_int4 (z : Z) : bool := (- 2 ^ 31 <=? z) && (z <? 2 ^ 31).

(** [INSERT INTO app.client_alias (client_id, alias) VALUES (%s, %s)
     ON CONFLICT (client_id) DO UPDATE SET alias = EXCLUDED.alias] *)
Fixpoint upsert_row (client_id : Z) (alias : string) (t : list (Z * string))
  : list (Z * string) :=
  match t with
  | [] => [(client_id, alias)]
  | (k, a) :: t' =>
      if k =? client_id then (k, alias) :: t'
      else (k, a) :: upsert_row client_id alias t'
  end.

(** [DELETE FROM app.client_alias WHERE client_id = %s] *)
Definition delete_row (client_id : Z) (t : list (Z * string)) : list (Z * string) :=
  filter (fun p => negb (fst p =? client_id)) t.

(** The environment after the table of aliases became [t]. *)
Definition with_aliases (env : Env) (t : list (Z * string)) : Env :=
  mkEnv (mkDB (Rel_Diario (db env)) (Sts_Dados (db env)) (Rel_Carga (db env))
              (Rel_Quimico (db env)) (ALARMHISTORY (db env)) t)
        (now env) (up env).

(** [ORDER BY client_id ASC] *)
Fixpoint insert_asc (p : Z * string) (l : list (Z * string)) : list (Z * string) :=
  match l with
  | [] => [p]
  | x :: l' => if fst p <=? fst x then p :: l else x :: insert_asc p l'
  end.

Definition order_by_client_id (l : list (Z * string)) : list (Z * string) :=
  fold_right insert_asc [] l.

(** ** Python dictionaries keyed by the client *)

(** [m[k] = v] *)
Fixpoint dict_set (k : Z) (v : string) (m : list (Z * string)) : list (Z * string) :=
  match m with
  | [] => [(k, v)]
  | (k', v') :: m' =>
      if k' =? k then (k', v) :: m' else (k', v') :: dict_set k v m'
  end.

(** [{cid: name for cid, name in rows}] *)
Definition dict_of_rows (rows : list (Z * string)) : list (Z * string) :=
  fold_left (fun m p => dict_set (fst p) (snd p) m) rows [].

(** [m.get(k)] *)
Fixpoint dict_get (m : list (Z * string)) (k : Z) : option string :=
  match m with
  | [] => None
  | (k', v) :: m' => if k' =? k then Some v else dict_get m' k
  end.

(** ** The helpers *)

(** A pair [(ok, msg)], and the alert made of one, is given by [ok]: the
    alert is green or red; the wording is left out. *)

(** [get_client_mappings()]: one statement; the empty list when it fails. *)
Definition get_client_mappings (env : Env) (n : nat) : list (Z * string) * nat :=
  (if up env n then order_by_client_id (client_alias (db env)) else [], S n).

(** [upsert_client_mapping(client_id, alias)]: one statement. *)
Definition upsert_client_mapping (env : Env) (client_id : Z) (alias : string)
    (n : nat) : bool * Env * nat :=
  if up env n && in_int4 client_id
  then (true,
        with_aliases env (upsert_row client_id alias (client_alias (db env))),
        S n)
  else (false, env, S n).

(** [SELECT DISTINCT CAST(rc."C1" AS INTEGER) AS client_id FROM "Rel_Carga" rc
     WHERE rc."C1" IS NOT NULL ORDER BY client_id ASC] *)
Definition client_ids (d : Database) : list Z :=
  map fst (group_by rc_C1 (Rel_Carga d)).

(** [get_client_catalog()]: two statements on one connection; the empty
    list when one of them fails. *)
Definition get_client_catalog (env : Env) (n : nat)
  : list (Z * option string) * nat :=
  if up env n
  then
    let ids := client_ids (db env) in
    if up env (S n)
    then
      let alias_map := dict_of_rows (client_alias (db env)) in
      (map (fun cid => (cid, dict_get alias_map cid)) ids, S (S n))
    else ([], S (S n))
  else ([], S n).

(** ** The callbacks *)

(** [not n_clicks], [not selected_id]: nothing, or zero. *)
Definition truthy (v : option Z) : bool :=
  match v with
  | Some k => negb (k =? 0)
  | None => false
  end.

(** [load_current_alias(selected_id)]; [None] is [PreventUpdate]. *)
Definition load_current_alias (env : Env) (selected_id : option Z) (n : nat)
  : option string * nat :=
  match selected_id with
  | Some id =>
      if truthy selected_id
      then
        let '(rows, n') := get_client_mappings env n in
        let mapping := dict_of_rows rows in
        (Some match dict_get mapping id with
              | Some a => a
              | None => EmptyString
              end, n')
      else (None, n)
  | None => (None, n)
  end.

(** [f"{cid} - {alias}" if alias else str(cid)] *)
Definition option_label (entry : Z * option string) : string :=
  match snd entry with
  | Some a =>
      if nonempty a then (text_of_int (fst entry) ++ " - " ++ a)%string
      else text_of_int (fst entry)
  | None => text_of_int (fst entry)
  end.

(** [(str(cid), alias or str(cid))] *)
Definition table_row (entry : Z * option string) : string * string :=
  (text_of_int (fst entry),
   match snd entry with
   | Some a => if nonempty a then a else text_of_int (fst entry)
   | None => text_of_int (fst entry)
   end).

(** The components rebuilt from the catalog: the table ([None] is the
    notice that no client was found) and the options of the dropdown, each
    a label and a value. *)
Record Components : Type := mkComponents {
  alert : bool;
  table_component : option (list (string * string));
  options : list (string * Z)
}.

Definition components_of (alert : bool) (catalog : list (Z * option string))
  : Components :=
  mkComponents alert
    (match catalog with
     | [] => None
     | _ => Some (map table_row catalog)
     end)
    (map (fun e => (option_label e, fst e)) catalog).

Inductive Update : Type :=
| PreventUpdate
| MissingId                 (* the warning; every other output is [no_update] *)
| Updated (c : Components).

(** [save_client_name(n_clicks, selected_id, manual_id, alias_value)] *)
Definition save_client_name (env : Env) (n_clicks selected_id manual_id : option Z)
    (alias_value : option string) (n : nat) : Update * Env * nat :=
  if negb (truthy n_clicks) then (PreventUpdate, env, n)
  else
    match (match selected_id with Some _ => selected_id | None => manual_id end) with
    | None => (MissingId, env, n)
    | Some cid =>
        let '(res, env', n') :=
          if match alias_value with
             | Some a => nonempty a && nonempty (strip a)
             | None => false
             end
          then upsert_client_mapping env cid
                 (strip match alias_value with Some a => a | None => EmptyString end) n
          else if up env n
               then (true, with_aliases env (delete_row cid (client_alias (db env))), S n)
               else (false, env, S n) in
        let '(catalog, n'') := get_client_catalog env' n' in
        (Updated (components_of res catalog), env', n'')
    end.

(** [clear_all_aliases(n_clicks)] *)
Definition clear_all_aliases (env : Env) (n_clicks : option Z) (n : nat)
  : Update * Env * nat :=
  if negb (truthy n_clicks) then (PreventUpdate, env, n)
  else
    let '(res, env', n') :=
      if up env n
      then (true, with_aliases env [], S n)
      else (false, env, S n) in
    let '(catalog, n'') := get_client_catalog env' n' in
    (Updated (components_of res catalog), env', n'').

End client_aliases.

(** * dstech_app.py: the users

    [load_users], [save_users], [add_user], [validate_user] and the
    callbacks [login_user] and [manage_users]. The state is the file
    [users.json] and the module variable [USERS]; the clock is an argument.
    The digest [hashlib.md5(s.encode()).hexdigest()] is a parameter of the
    section. *)

Module users.

Record User : Type := mkUser {
  u_password : string;      (* ['password']: the digest of the password *)
  u_role : option string;   (* ['role'] *)
  u_created : datetime      (* ['created']: [datetime.now()], before [isoformat()] *)
}.

(** A dictionary from user names to users, in insertion order. *)
Definition Users : Type := list (string * User).

(** [username in users] *)
Definition user_in (username : string) (users : Users) : bool :=
  existsb (fun p => String.eqb (fst p) username) users.

(** [users[username]] *)
Definition user_get (users : Users) (username : string) : option User :=
  match find (fun p => String.eqb (fst p) username) users with
  | Some p => Some (snd p)
  | None => None
  end.

(** [users[username] = u] *)
Fixpoint user_set (username : string) (u : User) (users : Users) : Users :=
  match users with
  | [] => [(username, u)]
  | (k, v) :: users' =>
      if String.eqb k username then (k, u) :: users'
      else (k, v) :: user_set username u users'
  end.

(** The file [users.json]: absent, a dictionary of users, or something
    that cannot be opened or parsed. *)
Inductive File : Type :=
| Missing
| Content (users : Users)
| Unreadable.

Record Disk : Type := mkDisk {
  users_json : File;
  writable : bool        (* whether [open(USERS_FILE, 'w')] succeeds *)
}.

(** [save_users(users)]: the exception of a failed write is printed and
    dropped. *)
Definition save_users (users : Users) (d : Disk) : Disk :=
  if writable d then mkDisk (Content users) true else d.

Section Digest.
Variable md5 : string -> string.

Definition default_users (now : datetime) : Users :=
  [("admin"%string, mkUser (md5 "admin123") (Some "admin"%string) now);
   ("operador"%string, mkUser (md5 "operador123") (Some "operator"%string) now);
   ("supervisor"%string, mkUser (md5 "supervisor123") (Some "supervisor"%string) now)].

(** [load_users()] *)
Definition load_users (now : datetime) (d : Disk) : Users * Disk :=
  match users_json d with
  | Content users => (users, d)
  | Missing => (default_users now, save_users (default_users now) d)
  | Unreadable => ([], d)
  end.

(** [add_user(username, password, role)], by the first component of the
    pair it returns. *)
Definition add_user (now : datetime) (username password : string)
    (role : option string) (d : Disk) : bool * Disk :=
  let '(users, d1) := load_users now d in
  if user_in username users then (false, d1)
  else (true, save_users (user_set username (mkUser (md5 password) role now) users) d1).

(** [validate_user(username, password)] *)
Definition validate_user (now : datetime) (username password : string) (d : Disk)
  : bool * Disk :=
  let '(users, d1) := load_users now d in
  match user_get users username with
  | Some u => (String.eqb (u_password u) (md5 password), d1)
  | None => (false, d1)
  end.

(** The truth value of a text input: nothing and the empty text are
    false. *)
Definition filled (v : option string) : bool :=
  match v with
  | Some (String _ _) => true
  | _ => false
  end.

Definition clicked (n_clicks : option Z) : bool :=
  match n_clicks with
  | Some k => negb (k =? 0)
  | None => false
  end.

Definition text_of (v : option string) : string :=
  match v with Some s => s | None => EmptyString end.

(** What [login_user] returns: the session, whether an alert is shown, and
    the path. *)
Inductive Login : Type :=
| Authenticated (username : string)   (* session of the user, ['/dashboard'] *)
| Refused                             (* empty session, the alert, ['/'] *)
| NoAttempt.                          (* empty session, no alert, ['/'] *)

(** [login_user(n_clicks, username, password)] over the module variable
    [USERS]. *)
Definition login_user (USERS : Users) (n_clicks : option Z)
    (username password : option string) : Login :=
  if clicked n_clicks && filled username && filled password
  then
    match user_get USERS (text_of username) with
    | Some u =>
        if String.eqb (u_password u) (md5 (text_of password))
        then Authenticated (text_of username)
        else Refused
    | None => Refused
    end
  else NoAttempt.

Inductive Feedback : Type :=
| NoFeedback
| Success
| Danger
| Warning.

Record Managed : Type := mkManaged {
  feedback : Feedback;
  users_list : list (string * option string);   (* the name and the role of each item *)
  clear_username : option string;
  clear_password : option string
}.

(** The value of [username] after
    [for username, user_data in users.items()]: the loop binds the name
    again at each item, so it is the last key of the dictionary, and the
    argument only when the dictionary is empty. *)
Definition rebound (username : option string) (users : Users) : option string :=
  last (map (fun p => Some (fst p)) users) username.

(** [manage_users(n_clicks, username, password, role)]; it returns its four
    outputs, the module variable [USERS] and the disk. The two fields are
    cleared by a test made after the loop over the users, on the name that
    the loop left in [username]. *)
Definition manage_users (now : datetime) (USERS : Users) (n_clicks : option Z)
    (username password role : option string) (d : Disk)
  : Managed * Users * Disk :=
  let complete := clicked n_clicks && filled username && filled password in
  let '(fb, USERS1, d1) :=
    if complete
    then
      let '(success, d') := add_user now (text_of username) (text_of password) role d in
      if success
      then let '(loaded, d'') := load_users now d' in (Success, loaded, d'')
      else (Danger, USERS, d')
    else if clicked n_clicks then (Warning, USERS, d)
    else (NoFeedback, USERS, d) in
  let '(users, d2) := load_users now d1 in
  let username' := rebound username users in
  let cleared := clicked n_clicks && filled username' && filled password in
  (mkManaged fb
             (map (fun p => (fst p, u_role (snd p))) users)
             (if cleared then Some EmptyString else username')
             (if cleared then Some EmptyString else password),
   USERS1, d2).

End Digest.

End users.

(** * dstech_app.py: the alarm rankings

    [get_top5_alarms_today], [get_top5_alarms_period] and the count of the
    alarms of the day in [update_kpis]. They read the tag, the message and
    the times of [ALARMHISTORY], the summary of the dashboard reads the
    priority; an alarm carries the two times as the row that the
    [Database] keeps of it. A date text of the picker is
    given by the day it names. *)

Module alarm_history.

Record Alarm : Type := mkAlarmEvent {
  Al_Tag : option string;
  Al_Message : option string;
  Al_Priority : option Z;
  Al_Times : Alarm_row
}.

(** Two cells that [GROUP BY] and [DISTINCT] take for the same value. *)
Definition same_cell (a b : option string) : bool :=
  match a, b with
  | Some x, Some y => String.eqb x y
  | None, None => true
  | _, _ => false
  end.

(** [GROUP BY "Al_Tag", "Al_Message"] *)
Definition group_key (a : Alarm) : option string * option string :=
  (Al_Tag a, Al_Message a).

Definition same_key (k1 k2 : option string * option string) : bool :=
  same_cell (fst k1) (fst k2) && same_cell (snd k1) (snd k2).

Fixpoint add_alarm (a : Alarm)
    (gs : list ((option string * option string) * list Alarm))
  : list ((option string * option string) * list Alarm) :=
  match gs with
  | [] => [(group_key a, [a])]
  | (k, g) :: gs' =>
      if same_key k (group_key a) then (k, a :: g) :: gs'
      else (k, g) :: add_alarm a gs'
  end.

Definition group_alarms (rows : list Alarm)
  : list ((option string * option string) * list Alarm) :=
  fold_right add_alarm [] rows.

(** [MAX("Al_Start_Time")] *)
Definition max_start (g : list Alarm) : option datetime :=
  fold_right (fun a acc =>
                match acc with
                | None => Some (Al_Start_Time (Al_Times a))
                | Some m => if dt_ltb m (Al_Start_Time (Al_Times a))
                            then Some (Al_Start_Time (Al_Times a)) else Some m
                end) None g.

Record Ranked : Type := mkRanked {
  tag : option string;
  descricao : option string;
  total_ocorrencias : Z;
  ultima_ocorrencia : option datetime
}.

Definition ranked_of (g : (option string * option string) * list Alarm) : Ranked :=
  mkRanked (fst (fst g)) (snd (fst g)) (sql_count (snd g)) (max_start (snd g)).

(** [SELECT "Al_Tag", "Al_Message" as descricao, COUNT( * ), MAX("Al_Start_Time")
     FROM "ALARMHISTORY" WHERE ... GROUP BY "Al_Tag", "Al_Message"
     ORDER BY COUNT( * ) DESC LIMIT 5] over the rows that pass the [WHERE]. *)
Definition top5_of (rows : list Alarm) : list Ranked :=
  firstn 5 (order_by_desc (fun r => inject_Z (total_ocorrencias r))
                          (map ranked_of (group_alarms rows))).

(** ["Al_Start_Time" >= %s AND "Al_Start_Time" < %s
     AND "Al_Norm_Time" >= %s AND "Al_Norm_Time" < %s] *)
Definition in_period (lo hi : datetime) (a : Alarm) : bool :=
  in_half_open lo hi (Al_Start_Time (Al_Times a))
  && match Al_Norm_Time (Al_Times a) with
     | Some t => in_half_open lo hi t
     | None => false
     end.

(** ["Al_Start_Time" > CURRENT_DATE AND "Al_Norm_Time" > CURRENT_DATE] *)
Definition after_midnight (today : Z) (a : Alarm) : bool :=
  dt_ltb (midnight today) (Al_Start_Time (Al_Times a))
  && match Al_Norm_Time (Al_Times a) with
     | Some t => dt_ltb (midnight today) t
     | None => false
     end.

Definition top5_period_query (history : list Alarm) (lo hi : datetime)
  : result (list Ranked) :=
  Ok (top5_of (filter (in_period lo hi) history)).

Definition top5_today_query (history : list Alarm) (today : Z) : result (list Ranked) :=
  Ok (top5_of (filter (after_midnight today) history)).

(** What the two functions return: the notice that there is no alarm, one
    item per row of the frame, or the notice of an error. *)
Inductive Top5 : Type :=
| NoAlarm
| Items (rows : list Ranked)
| LoadError.

Definition top5_of_frame (df : DataFrame Ranked) : Top5 :=
  match df with
  | Frame (r :: rows) => Items (r :: rows)
  | _ => NoAlarm
  end.

(** [get_top5_alarms_today()] *)
Definition get_top5_alarms_today (env : Env) (history : list Alarm) : M Top5 :=
  try_exceptM
    (let today := date_of (now env) in
     yesterday <<- lift (add_days (midnight today) (-1)) ;;
     df <<- execute_query env (top5_today_query history today) ;;
     ret (top5_of_frame df))
    (fun _ => ret LoadError).

(** Lines 2313-2318 *)
Definition top5_window (env : Env) (start_date end_date : option Z)
  : result (datetime * datetime) :=
  match start_date, end_date with
  | Some s, Some e =>
      end_dt <- add_days (midnight e) 1 ;; Ok (midnight s, end_dt)
  | _, _ =>
      start_dt <- add_days (now env) (-7) ;; Ok (start_dt, now env)
  end.

(** [get_top5_alarms_period(start_date, end_date)] *)
Definition get_top5_alarms_period (env : Env) (history : list Alarm)
    (start_date end_date : option Z) : M Top5 :=
  try_exceptM
    (w <<- lift (top5_window env start_date end_date) ;;
     df <<- execute_query env (top5_period_query history (fst w) (snd w)) ;;
     ret (top5_of_frame df))
    (fun _ => ret LoadError).

(** [COUNT(DISTINCT "Al_Message")]: NULL is not counted. *)
Fixpoint distinct (l : list string) : list string :=
  match l with
  | [] => []
  | x :: l' => if existsb (String.eqb x) l' then distinct l' else x :: distinct l'
  end.

(** [SELECT COUNT(DISTINCT "Al_Message") AS cnt FROM "ALARMHISTORY"
     WHERE "Al_Start_Time" >= %s AND "Al_Start_Time" < %s
     AND "Al_Norm_Time" IS NULL] *)
Definition alarms_today_query (history : list Alarm) (lo hi : datetime)
  : result (list Z) :=
  Ok [sql_count
        (distinct
           (non_null
              (map Al_Message
                   (filter (fun a => in_half_open lo hi (Al_Start_Time (Al_Times a))
                                     && match Al_Norm_Time (Al_Times a) with
                                        | None => true
                                        | Some _ => false
                                        end) history))))].

(** Lines 2217-2230 of [update_kpis]: the number shown as the alarms of
    the day; [alarmes_ativos] is [kpis.get('alarmes_ativos', 0)]. *)
Definition alarms_today (env : Env) (history : list Alarm) (alarmes_ativos : Z) : M Z :=
  try_exceptM
    (let today := date_of (now env) in
     let start_today := midnight today in
     end_today <<- lift (add_days (midnight today) 1) ;;
     alarms_today_df <<- execute_query env (alarms_today_query history start_today end_today) ;;
     ret (cell alarms_today_df (fun c => c) 0))
    (fun _ => ret alarmes_ativos).

End alarm_history.

(** * dstech_charts.py: the summary of the dashboard

    [format_number_abbreviated] and [get_dashboard_summary]. *)

Module dashboard_summary.

(** ** Number formats *)

(** The integer nearest to [s], a tie going to the even one. *)
Definition round_half_even (s : Q) : Z :=
  let f := Qfloor s in
  match Qcompare (s - inject_Z f) (1 # 2) with
  | Lt => f
  | Gt => f + 1
  | Eq => if Z.even f then f else f + 1
  end.

(** [digits] padded with zeros on the left up to [width] characters. *)
Fixpoint pad_left (width : nat) (digits : string) : string :=
  match width with
  | O => digits
  | S w => if (String.length digits <=? w)%nat
           then pad_left w (String "0" digits) else digits
  end.

(** [f"{x:.nf}"] *)
Definition format_fixed (x : Q) (n : nat) : string :=
  let k := round_half_even (Qabs x * pow10 n) in
  let p := 10 ^ Z.of_nat n in
  ((if Qltb x 0 then "-" else "")
   ++ text_of_int (k / p)
   ++ match n with
      | O => ""
      | S _ => "." ++ pad_left n (text_of_int (k mod p))
      end)%string.

(** [format_number_abbreviated(value)]; [None] is a missing value. *)
Definition format_number_abbreviated (value : option Q) : string :=
  match value with
  | None => "0"
  | Some v =>
      if Qeq_bool v 0 then "0"
      else
        let abs_value := Qabs v in
        if Qle_bool 1000000000 abs_value then (format_fixed (v / 1000000000) 1 ++ "B")%string
        else if Qle_bool 1000000 abs_value then (format_fixed (v / 1000000) 1 ++ "M")%string
        else if Qle_bool 1000 abs_value then (format_fixed (v / 1000) 1 ++ "k")%string
        else format_fixed v 0
  end.

(** ** The statements *)

Record alarms_summary_row : Type := mkAS {
  as_total_alarms : Z;
  as_critical_high_alarms : Z;
  as_avg_resolution_time : option Q
}.

(** [EXTRACT(EPOCH FROM (t - s)) / 60] *)
Definition minutes_between (s t : datetime) : Q :=
  (inject_Z ((ordinal t - ordinal s) * 86400000000 + (micros t - micros s))
   / 60000000)%Q.

(** The rows of [WHERE "Al_Start_Time" >= CURRENT_DATE - INTERVAL '30 days'
    AND "Al_Norm_Time" IS NOT NULL], each with its time of return. *)
Definition resolved_alarms (history : list alarm_history.Alarm) (today : Z)
  : list (alarm_history.Alarm * datetime) :=
  flat_map (fun a =>
              match Al_Norm_Time (alarm_history.Al_Times a) with
              | Some t =>
                  if dt_leb (midnight (today - 30))
                            (Al_Start_Time (alarm_history.Al_Times a))
                  then [(a, t)] else []
              | None => []
              end) history.

(** [SELECT COUNT( * ), COUNT(CASE WHEN "Al_Priority" <= 2 THEN 1 END),
     AVG(EXTRACT(EPOCH FROM ("Al_Norm_Time" - "Al_Start_Time"))/60)
     FROM "ALARMHISTORY" WHERE ...] *)
Definition alarms_summary (history : list alarm_history.Alarm) (today : Z)
  : result (list alarms_summary_row) :=
  let rows := resolved_alarms history today in
  Ok [mkAS (sql_count rows)
           (sql_count (filter (fun p => match alarm_history.Al_Priority (fst p) with
                                        | Some k => k <=? 2
                                        | None => false
                                        end) rows))
           (sql_avg (map (fun p => Some (minutes_between
                                           (Al_Start_Time (alarm_history.Al_Times (fst p)))
                                           (snd p))) rows))].

Record consumption_summary_row : Type := mkCS {
  cs_avg_water_per_kg : option Q;
  cs_total_water_m3 : option Q
}.

(** [SELECT AVG(("C2" * 1000) / "C4"), SUM("C2") FROM "Rel_Diario"
     WHERE "Time_Stamp" >= CURRENT_DATE - INTERVAL '30 days' AND "C4" > 0] *)
Definition consumption_summary (d : Database) (today : Z)
  : result (list consumption_summary_row) :=
  let rows := filter (fun r => dt_leb (midnight (today - 30)) (rd_Time_Stamp r)
                               && Qltb 0 (rd_C4 r)) (Rel_Diario d) in
  ratios <- all_ok (map (fun r => sql_div (Some (rd_C2 r * 1000)%Q) (Some (rd_C4 r))) rows) ;;
  Ok [mkCS (sql_avg ratios) (sumC rd_C2 rows)].

(** ** get_dashboard_summary *)

Record Production : Type := mkProduction {
  total_cycles : Z;
  total_kg : string;
  total_kg_raw : Q;
  avg_per_cycle : Q;
  avg_efficiency : Q
}.

Record Alarms : Type := mkAlarms {
  total : string;
  total_raw : Z;
  critical_high : Z;
  avg_resolution_min : Q
}.

Record Consumption : Type := mkConsumption {
  avg_water_per_kg : Q;
  total_water_m3 : string;
  total_water_m3_raw : Q
}.

(** The dictionary of the [try] block, or the dictionary of zeros of the
    [except] branch. *)
Inductive Summary : Type :=
| Computed (production : Production) (alarms : Alarms) (consumption : Consumption)
| Zeroed.

(** [round(v, n)] of a cell: a missing value cannot be rounded. *)
Definition round_cell (v : option Q) (n : nat) : result Q :=
  match v with
  | Some x => Ok (py_round x n)
  | None => Raise TypeError
  end.

(** [round(df.iloc[0][col], n) if not df.empty else 0] *)
Definition round_column {R : Type} (df : DataFrame R) (col : R -> option Q) (n : nat)
  : result Q :=
  match iloc0 df with
  | Some r => round_cell (col r) n
  | None => Ok 0%Q
  end.

(** Lines 1191-1215 *)
Definition summary_of_frames (prod_df : DataFrame production_summary_row)
    (alarms_df : DataFrame alarms_summary_row)
    (consumption_df : DataFrame consumption_summary_row) : result Summary :=
  let total_kg := cell prod_df ps_total_production_kg (Some 0%Q) in
  let total_alarms := cell alarms_df as_total_alarms 0 in
  let total_water := cell consumption_df cs_total_water_m3 (Some 0%Q) in
  total_kg_raw <- round_cell total_kg 0 ;;
  avg_per_cycle <- round_column prod_df ps_avg_production_per_cycle 1 ;;
  avg_efficiency <- round_column prod_df ps_avg_efficiency 1 ;;
  avg_resolution_min <- round_column alarms_df as_avg_resolution_time 1 ;;
  avg_water_per_kg <- round_column consumption_df cs_avg_water_per_kg 1 ;;
  total_water_m3_raw <- round_cell total_water 1 ;;
  Ok (Computed
        (mkProduction (cell prod_df ps_total_cycles 0)
                      (format_number_abbreviated total_kg)
                      total_kg_raw avg_per_cycle avg_efficiency)
        (mkAlarms (format_number_abbreviated (Some (inject_Z total_alarms)))
                  total_alarms
                  (cell alarms_df as_critical_high_alarms 0)
                  avg_resolution_min)
        (mkConsumption avg_water_per_kg
                       (format_number_abbreviated total_water)
                       total_water_m3_raw)).

(** [get_dashboard_summary()] *)
Definition get_dashboard_summary (env : Env) (history : list alarm_history.Alarm)
  : M Summary :=
  let today := date_of (now env) in
  try_exceptM
    (prod_df <<- execute_query env (production_summary (db env) today) ;;
     alarms_df <<- execute_query env (alarms_summary history today) ;;
     consumption_df <<- execute_query env (consumption_summary (db env) today) ;;
     lift (summary_of_frames prod_df alarms_df consumption_df))
    (fun _ => ret Zeroed).

End dashboard_summary.

(** * dstech_charts.py: the efficiency chart

    [create_efficiency_chart], up to the points it hands to the plot. *)

Module efficiency_chart.

(** The four cases of [date_filter]; a date text stands for the instant
    PostgreSQL reads in it. *)
Definition date_filter (today : Z) (start_date end_date : option datetime)
    (ts : datetime) : bool :=
  match start_date, end_date with
  | Some s, Some e => dt_leb s ts && dt_leb ts e
  | Some s, None => dt_leb s ts
  | None, Some e => dt_leb ts e
  | None, None => dt_leb (midnight (today - 30)) ts
  end.

(** [ORDER BY "Time_Stamp" DESC] *)
Fixpoint insert_latest_first (r : Rel_Diario_row) (l : list Rel_Diario_row)
  : list Rel_Diario_row :=
  match l with
  | [] => [r]
  | x :: l' =>
      if dt_leb (rd_Time_Stamp x) (rd_Time_Stamp r) then r :: l
      else x :: insert_latest_first r l'
  end.

Definition latest_first (l : list Rel_Diario_row) : list Rel_Diario_row :=
  fold_right insert_latest_first [] l.

(** [SELECT "Time_Stamp", "C1", "C0", "C4" FROM "Rel_Diario" {date_filter}
     ORDER BY "Time_Stamp" DESC] *)
Definition efficiency_chart_query (d : Database) (today : Z)
    (start_date end_date : option datetime) : result (list Rel_Diario_row) :=
  Ok (latest_first
        (filter (fun r => date_filter today start_date end_date (rd_Time_Stamp r))
                (Rel_Diario d))).

(** [total_time = df['production_time'] + df['downtime']] of one row *)
Definition total_time (r : Rel_Diario_row) : Q := (rd_C1 r + rd_C0 r)%Q.

(** [((production_time / total_time.replace(0, 1)) * 100).round(2)] of one
    row *)
Definition efficiency_calculated (r : Rel_Diario_row) : Q :=
  py_round (rd_C1 r / (if Qeq_bool (total_time r) 0 then 1 else total_time r) * 100) 2.

(** The figure: the annotation that there is no data, or the trace of
    the efficiency, a point per row. *)
Inductive Figure : Type :=
| NoData
| Trace (points : list (datetime * Q)).

(** [create_efficiency_chart(start_date, end_date)] *)
Definition create_efficiency_chart (env : Env) (start_date end_date : option datetime)
  : M Figure :=
  df <<- execute_query env (efficiency_chart_query (db env) (date_of (now env))
                                                   start_date end_date) ;;
  match df with
  | Frame (r :: rows) =>
      ret (Trace (map (fun x => (rd_Time_Stamp x, efficiency_calculated x))
                      (filter (fun x => Qltb 0 (total_time x)) (r :: rows))))
  | _ => ret NoData
  end.

End efficiency_chart.

(** * Reference notions for the alias table, the users and the alarms *)

Import client_aliases.

(** The keys of the alias table; the primary key makes them distinct. *)
Definition keys (t : list (Z * string)) : list Z := map fst t.

(** The value of the last row of a key. *)
Fixpoint last_value (rows : list (Z * string)) (id : Z) : option string :=
  match rows with
  | [] => None
  | p :: rows' =>
      match last_value rows' id with
      | Some v => Some v
      | None => if fst p =? id then Some (snd p) else None
      end
  end.

(** The environment a callback leaves behind, and what it returns. *)
Definition env_after {A : Type} (r : A * Env * nat) : Env := snd (fst r).

Definition output_of {A : Type} (r : A * Env * nat) : A := fst (fst r).

(** A name as [save_client_name] stores it: not empty, and without blanks
    at either end. *)
Definition trimmed (s : string) : Prop := nonempty s = true /\ strip s = s.

(** The configuration tab over the loads of client 7 and one load of
    client 3, who has a stored name. *)
Definition alias_env : Env :=
  mkEnv (mkDB [] []
              (mkCarga (at_time (jan 2) 9 0) 3 50 (20 # 1000)
               :: c8_loads (at_time (jan 1) 8 0) (at_time (jan 3) 9 30) (at_time (jan 7) 23 0))
              [] [] [(3, "Hospital Norte"%string)])
        (at_time (jan 20) 12 0) always_up.

(** A stand-in for the digest, and a users file with one operator. *)
Definition sample_digest (s : string) : string := ("md5:" ++ s)%string.

Definition sample_users : users.Users :=
  [("ana"%string,
    users.mkUser (sample_digest "segredo") (Some "operator"%string) (at_time (jan 2) 8 0))].

Definition sample_disk : users.Disk := users.mkDisk (users.Content sample_users) true.

(** The alarms of a history that a pair of tag and message stands for. *)
Definition occurrences (rows : list alarm_history.Alarm)
    (k : option string * option string) : list alarm_history.Alarm :=
  filter (fun a => alarm_history.same_key k (alarm_history.group_key a)) rows.

(** The rows filed under a key. *)
Definition group_of (gs : list ((option string * option string) * list alarm_history.Alarm))
    (k : option string * option string) : list alarm_history.Alarm :=
  match find (fun p => alarm_history.same_key (fst p) k) gs with
  | Some p => snd p
  | None => []
  end.

(** The number by which the rankings are ordered. *)
Definition rank (r : alarm_history.Ranked) : Q :=
  inject_Z (alarm_history.total_ocorrencias r).

(** [b] does not rank above [a]. *)
Definition not_above {R : Type} (f : R -> Q) (a b : R) : Prop := (f b <= f a)%Q.

(** An alarm history: two acknowledged occurrences of a pump fault and one
    of an open door on 3 January 2024, and two pump faults still active. *)
Definition sample_history : list alarm_history.Alarm :=
  [alarm_history.mkAlarmEvent (Some "P1"%string) (Some "Falha bomba"%string) (Some 1)
     (mkAlarm (at_time (jan 3) 8 0) (Some (at_time (jan 3) 8 20)));
   alarm_history.mkAlarmEvent (Some "D2"%string) (Some "Porta aberta"%string) (Some 3)
     (mkAlarm (at_time (jan 3) 9 0) (Some (at_time (jan 3) 9 5)));
   alarm_history.mkAlarmEvent (Some "P1"%string) (Some "Falha bomba"%string) (Some 1)
     (mkAlarm (at_time (jan 3) 10 0) (Some (at_time (jan 3) 10 30)));
   alarm_history.mkAlarmEvent (Some "P1"%string) (Some "Falha bomba"%string) (Some 1)
     (mkAlarm (at_time (jan 3) 11 0) None);
   alarm_history.mkAlarmEvent (Some "P1"%string) (Some "Falha bomba"%string) (Some 1)
     (mkAlarm (at_time (jan 3) 11 30) None)].

Definition sample_alarm_env : Env :=
  mkEnv (mkDB [] [] [] [] (map alarm_history.Al_Times sample_history) [])
        (at_time (jan 3) 12 0) always_up.

(** The times of an alarm are times of day. *)
Definition alarm_times_valid (a : alarm_history.Alarm) : Prop :=
  0 <= micros (Al_Start_Time (alarm_history.Al_Times a))
  /\ forall t, Al_Norm_Time (alarm_history.Al_Times a) = Some t -> 0 <= micros t.

(** An alarm that started and returned to normal on days of the range. *)
Definition acknowledged_within (s e : Z) (a : alarm_history.Alarm) : Prop :=
  s <= date_of (Al_Start_Time (alarm_history.Al_Times a)) <= e
  /\ exists t, Al_Norm_Time (alarm_history.Al_Times a) = Some t /\ s <= date_of t <= e.

(** A time stamp within the thirty days before [today], or later. *)
Definition last_30_days (today : Z) (ts : datetime) : bool :=
  dt_leb (midnight (today - 30)) ts.

(** Two consolidated days of January 2024 and the alarm history of
    3 January, seen on 20 January. *)
Definition summary_env : Env :=
  mkEnv (mkDB c10_days [] [] [] (map alarm_history.Al_Times sample_history) [])
        (at_time (jan 20) 12 0) always_up.

(** The same with a consolidated day that has neither production time nor
    downtime. *)
Definition summary_env_idle : Env :=
  mkEnv (mkDB (mkDiario (at_time (jan 6) 23 0) 0 0 1 10 1 :: c10_days) [] [] []
              (map alarm_history.Al_Times sample_history) [])
        (at_time (jan 20) 12 0) always_up.

(** The later of two points comes first. *)
Definition later_first (a b : datetime * Q) : Prop := dt_leb (fst b) (fst a) = true.

(** The rows filed under a key by [GROUP BY]. *)
Definition group_rows {R : Type} (gs : list (Z * list R)) (k : Z) : list R :=
  match find (fun p => fst p =? k) gs with
  | Some p => snd p
  | None => []
  end.

(** The loads that [get_client_performance_comparison] adds up for a
    client: stamped from the start to the end, both included, with
    kilograms. *)
Definition performance_loads (d : Database) (lo hi : datetime) (client : Z)
  : list Rel_Carga_row :=
  filter (fun r => rc_C1 r =? client)
         (filter (fun r => dt_leb lo (rc_Time_Stamp r) && dt_leb (rc_Time_Stamp r) hi
                           && Qltb 0 (rc_C2 r)) (Rel_Carga d)).

(** * Properties *)

(** ** Arithmetic of the guards *)

Lemma Qltb_true_iff a b : Qltb a b = true <-> (a < b)%Q.
Proof.
  unfold Qltb. rewrite negb_true_iff. split; intro H.
  - apply Qnot_le_lt. intro Hle. apply Qle_bool_iff in Hle. congruence.
  - destruct (Qle_bool b a) eqn:E; [|reflexivity].
    apply Qle_bool_iff in E. exfalso. exact (Qlt_not_le _ _ H E).
Qed.

Lemma Qltb_false_iff a b : Qltb a b = false <-> (b <= a)%Q.
Proof.
  unfold Qltb. rewrite negb_false_iff. apply Qle_bool_iff.
Qed.

Lemma Qltb_pos_nonzero k : Qltb 0 k = true -> Qeq_bool k 0 = false.
Proof.
  intro H. apply Qltb_true_iff in H.
  destruct (Qeq_bool k 0) eqn:E; [|reflexivity].
  apply Qeq_bool_iff in E. rewrite E in H. exfalso. exact (Qlt_irrefl _ H).
Qed.

Lemma Qltb_zero_of_eq k : (k == 0)%Q -> Qltb 0 k = false.
Proof.
  intro H. apply Qltb_false_iff. rewrite H. apply Qle_refl.
Qed.

Lemma Zltb_pos_nonzero c : (0 <? c) = true -> Qeq_bool (inject_Z c) 0 = false.
Proof.
  intro H. apply Z.ltb_lt in H. apply Qltb_pos_nonzero. apply Qltb_true_iff.
  unfold Qlt; simpl. lia.
Qed.

Lemma py_truediv_ok a b : Qeq_bool b 0 = false -> py_truediv a b = Ok (a / b)%Q.
Proof. intro H. unfold py_truediv. rewrite H. reflexivity. Qed.

(** ** generate_executive_report *)

(** The ratios of the report never divide by zero: the [try] block computes
    its dictionary in closed form. *)
Lemma report_of_totals_eq s e kg cyc w ch :
  report_of_totals s e kg cyc w ch =
  let days := date_of e - date_of s + 1 in
  Ok (mkReport days kg cyc
        (guarded_ratio (0 <? days) kg (inject_Z days) 0)
        (guarded_ratio (0 <? cyc) kg (inject_Z cyc) 2)
        w (guarded_ratio (Qltb 0 kg) w kg 2)
        ch (guarded_ratio (Qltb 0 kg) ch kg 4)).
Proof.
  unfold report_of_totals, guarded_ratio. cbv zeta.
  destruct (0 <? cyc) eqn:Hc; destruct (Qltb 0 kg) eqn:Hk;
    destruct (0 <? date_of e - date_of s + 1) eqn:Hd;
    repeat match goal with
           | H : (0 <? _) = true |- _ => apply Zltb_pos_nonzero in H
           | H : Qltb 0 _ = true |- _ => apply Qltb_pos_nonzero in H
           end;
    repeat (rewrite py_truediv_ok by assumption); reflexivity.
Qed.

Lemma execute_query_run {R : Type} env (q : result (list R)) n :
  execute_query env q n = (Ok (frame_of env q n), S n).
Proof. reflexivity. Qed.

Lemma report_body_run env s e x n :
  report_body env s e x n =
  (report_of_totals s e
     (cell (frame_of env (prod_query (db env) s x) n) (fun q => q) 0%Q)
     (cell (frame_of env (cycles_water_query (db env) s x) (S n))
           (fun r => py_int (total_cycles r)) 0)
     (cell (frame_of env (cycles_water_query (db env) s x) (S n)) total_water_liters 0%Q)
     (cell (frame_of env (chem_query (db env) s x) (S (S n))) (fun q => q) 0%Q),
   (5 + n)%nat).
Proof. reflexivity. Qed.

(** ** The end of the window *)

Lemma add_days_ok dt n :
  MINORDINAL <= ordinal dt + n <= MAXORDINAL ->
  add_days dt n = Ok (mkdt (ordinal dt + n) (micros dt)).
Proof.
  intros [Hlo Hhi]. unfold add_days. cbv zeta.
  apply Z.leb_le in Hlo. apply Z.leb_le in Hhi. rewrite Hlo, Hhi. reflexivity.
Qed.

(** [build_report_datasets] does floor the end to midnight. *)
Lemma datasets_end_exclusive_spec end_dt :
  MINORDINAL <= ordinal end_dt + 1 <= MAXORDINAL ->
  datasets_end_exclusive end_dt = Ok (midnight (date_of end_dt + 1)).
Proof.
  intro H. unfold datasets_end_exclusive. rewrite (add_days_ok _ _ H). reflexivity.
Qed.

(** C5, at the failing input: for the end 2024-01-07 15:30 the report's
    exclusive bound is 2024-01-08 15:30, not midnight of 8 January (which
    is what [build_report_datasets] computes from the same end), a
    single-day window that starts and ends at 10:00 is closed at 10:00 of
    the next day, and a row stamped 2024-01-08 10:00 enters the period
    production of the summary. *)
Theorem C5_report_end_exclusive_keeps_time_of_day :
  report_window c5_env (Some (midnight (jan 1))) (Some c5_end)
    = Ok (midnight (jan 1), c5_end, at_time (jan 8) 15 30)
  /\ at_time (jan 8) 15 30 <> midnight (date_of c5_end + 1)
  /\ datasets_end_exclusive c5_end = Ok (midnight (date_of c5_end + 1))
  /\ report_window c5_env (Some (at_time (jan 1) 10 0)) (Some (at_time (jan 1) 10 0))
       = Ok (at_time (jan 1) 10 0, at_time (jan 1) 10 0, at_time (jan 2) 10 0)
  /\ exists r, fst (generate_executive_report c5_env (Some (midnight (jan 1)))
                                              (Some c5_end) 0%nat) = Ok r
               /\ (period_production r == 50)%Q.
Proof.
  split; [reflexivity|].
  split; [discriminate|].
  split; [reflexivity|].
  split; [reflexivity|].
  eexists. split; [lazy; reflexivity|]. lazy. reflexivity.
Qed.

(** ** The cumulative-status source *)

(** C4, at the failing input: with two polls of the same day showing 1 and
    then 2 cycles, 50 and then 130 litres, the executive report counts 3
    cycles and 180 litres, the sum over the polls, where the KPI composer
    reads the last poll: 2 cycles and 130 litres. *)
Theorem C4_report_sums_cumulative_status :
  (exists r, fst (generate_executive_report c4_env (Some (midnight (jan 1)))
                                            (Some (midnight (jan 7))) 0%nat) = Ok r
             /\ period_cycles r = 3 /\ (water_period r == 180)%Q)
  /\ (exists k, fst (get_operational_kpis c4_env (Some (midnight (jan 1)))
                                          (Some (midnight (jan 7))) None 0%nat) = Ok k
                /\ ciclos_hoje k = 2 /\ (litros_agua_hoje_raw k == 130)%Q
                /\ ciclos_resumo k = 2 /\ (litros_agua_resumo_raw k == 130)%Q).
Proof.
  split.
  - eexists. split; [lazy; reflexivity|]. split; lazy; reflexivity.
  - eexists. split; [lazy; reflexivity|]. repeat split; lazy; reflexivity.
Qed.

(** ** Ratios whose denominator is zero *)

Lemma agg_zero_not_pos v : agg_zero v -> sql_pos v = false.
Proof.
  destruct v as [x|]; unfold agg_zero; simpl; intro H; [|reflexivity].
  apply Qltb_zero_of_eq; exact H.
Qed.

Lemma sql_pos_div num y :
  Qltb 0 y = true -> sql_div num (Some y) = Ok (option_map (fun x => x / y)%Q num).
Proof.
  intro H. destruct num as [x|]; simpl; [|reflexivity].
  rewrite (Qltb_pos_nonzero _ H). reflexivity.
Qed.

(** A [CASE WHEN den > 0 ...] never fails, and is 0 on a zero denominator. *)
Lemma case_ratio_eq num den n :
  case_ratio num den n =
  Ok (if sql_pos den
      then option_map (fun x => sql_round (x / coalesce den 0) n) num
      else Some 0%Q).
Proof.
  unfold case_ratio. destruct den as [y|]; simpl; [|reflexivity].
  destruct (Qltb 0 y) eqn:H; [|reflexivity].
  rewrite (sql_pos_div _ _ H). destruct num; reflexivity.
Qed.

Lemma per_kg_ok num kg :
  exists v, per_kg num kg = Ok v /\ (agg_zero kg -> v = Some 0%Q).
Proof.
  unfold per_kg. destruct kg as [k|].
  - destruct (Qeq_bool k 0) eqn:E; simpl.
    + eexists; split; [reflexivity|reflexivity].
    + destruct num as [a|].
      * rewrite (py_truediv_ok _ _ E). simpl. eexists; split; [reflexivity|].
        unfold agg_zero; simpl. intro H. apply Qeq_bool_iff in H. congruence.
      * eexists; split; [reflexivity|].
        unfold agg_zero; simpl. intro H. apply Qeq_bool_iff in H. congruence.
  - eexists; split; [reflexivity|reflexivity].
Qed.

Lemma merged_row_ok ws cs dia :
  exists row, merged_row ws cs dia = Ok row /\
    (agg_zero (wc_kg row) ->
     wc_agua_por_kg row = Some 0%Q /\ wc_quimicos_por_kg row = Some 0%Q).
Proof.
  unfold merged_row. cbv zeta.
  destruct (per_kg_ok (option_map w_agua_litros (find (fun r => w_dia r =? dia) ws))
                      (option_map w_kg (find (fun r => w_dia r =? dia) ws)))
    as [a [Ha Pa]].
  destruct (per_kg_ok (option_map c_quimicos (find (fun r => c_dia r =? dia) cs))
                      (option_map w_kg (find (fun r => w_dia r =? dia) ws)))
    as [q [Hq Pq]].
  rewrite Ha, Hq. simpl. eexists; split; [reflexivity|]. simpl. auto.
Qed.

Lemma all_ok_map {A B : Type} (f : A -> result B) (P : B -> Prop) (xs : list A) :
  (forall x, exists y, f x = Ok y /\ P y) ->
  exists ys, all_ok (map f xs) = Ok ys /\ Forall P ys.
Proof.
  intro H. induction xs as [|x xs IH]; simpl.
  - exists []. split; [reflexivity|constructor].
  - destruct (H x) as [y [Hy Py]]. destruct IH as [ys [Hys Pys]].
    rewrite Hy, Hys. simpl. exists (y :: ys). split; [reflexivity|].
    constructor; assumption.
Qed.

Lemma water_chem_merge_ok ws cs :
  exists rows, water_chem_merge (Frame ws) (Frame cs) = Ok (Frame rows) /\
    forall row, In row rows -> agg_zero (wc_kg row) ->
      wc_agua_por_kg row = Some 0%Q /\ wc_quimicos_por_kg row = Some 0%Q.
Proof.
  unfold water_chem_merge. cbv zeta.
  destruct (all_ok_map (merged_row ws cs)
              (fun row => agg_zero (wc_kg row) ->
                 wc_agua_por_kg row = Some 0%Q /\ wc_quimicos_por_kg row = Some 0%Q)
              (map fst (group_by (fun x : Z => x) (map w_dia ws ++ map c_dia cs)))
              (merged_row_ok ws cs)) as [rows [Hrows Prows]].
  rewrite Hrows. simpl. exists rows. split; [reflexivity|].
  intros row Hin. exact (proj1 (Forall_forall _ _) Prows row Hin).
Qed.

(** ** get_operational_kpis in closed form *)

Lemma resolve_dates_run env n :
  resolve_dates env n = (Ok (latest_date_of env n, resumo_exec_date_of env n), (2 + n)%nat).
Proof. reflexivity. Qed.

Lemma get_operational_kpis_run env sd ed cf n :
  get_operational_kpis env sd ed cf n =
  let d := db env in
  let today := date_of (now env) in
  let p := period_of sd ed in
  (Ok (kpis_of_frames
         (frame_of env (sts_last_query d (latest_date_of env n)) (2 + n))
         (frame_of env (sts_last_query d (resumo_exec_date_of env n)) (4 + n))
         (frame_of env (sts_periodo_query d today p) (3 + n))
         (frame_of env (chemical_hoje_query d (resumo_exec_date_of env n)) (9 + n))
         (frame_of env (chemical_periodo_query d today p) (10 + n))
         (frame_of env (efficiency_query d today p cf) (11 + n))
         (frame_of env (alarms_query d today) (12 + n))),
   (13 + n)%nat).
Proof. reflexivity. Qed.

Lemma count_pos_div {A : Type} (rows : list A) num :
  (0 <? sql_count rows) = true ->
  sql_div num (Some (inject_Z (sql_count rows)))
  = Ok (option_map (fun x => x / inject_Z (sql_count rows))%Q num).
Proof.
  intro H. destruct num as [x|]; simpl; [|reflexivity].
  rewrite (Zltb_pos_nonzero _ H). reflexivity.
Qed.

Lemma sts_periodo_query_eq d today p :
  sts_periodo_query d today p =
  let rows := diario_periodo d today p in
  Ok [mkPeriodo (coalesce (sumC rd_C4 rows) 0) (sql_count rows)
        (coalesce (sql_scale (sumC rd_C2 rows) 1000) 0)
        (if 0 <? sql_count rows
         then option_map (fun x => sql_round (x / inject_Z (sql_count rows)) 2)
                         (sumC rd_C4 rows)
         else Some 0%Q)
        (if sql_pos (sumC rd_C4 rows)
         then option_map (fun x => sql_round (x / coalesce (sumC rd_C4 rows) 0) 2)
                         (sql_scale (sumC rd_C2 rows) 1000)
         else Some 0%Q)].
Proof.
  unfold sts_periodo_query. cbv zeta. rewrite case_ratio_eq.
  destruct (0 <? sql_count (diario_periodo d today p)) eqn:H.
  - rewrite (count_pos_div _ _ H).
    destruct (sumC rd_C4 (diario_periodo d today p)); reflexivity.
  - reflexivity.
Qed.

Lemma chemical_query_eq rows kg :
  chemical_query rows kg =
  Ok [(coalesce (sql_sum (map chem_Q1_Q9 rows)) 0,
       if sql_pos kg
       then option_map (fun x => sql_round (x / coalesce kg 0) 3)
                       (sql_sum (map chem_Q1_Q9 rows))
       else Some 0%Q)].
Proof. unfold chemical_query. cbv zeta. rewrite case_ratio_eq. reflexivity. Qed.

Lemma efficiency_of_eq rows :
  efficiency_of rows =
  let total := sumC (fun r => rd_C1 r + rd_C0 r)%Q rows in
  Ok (if sql_pos total
      then option_map (fun x => sql_round (x / coalesce total 0 * 100) 1) (sumC rd_C1 rows)
      else Some 0%Q).
Proof.
  unfold efficiency_of. cbv zeta.
  destruct (sumC (fun r => (rd_C1 r + rd_C0 r)%Q) rows) as [y|] eqn:E; simpl; [|reflexivity].
  destruct (Qltb 0 y) eqn:H; [|reflexivity].
  rewrite (sql_pos_div _ _ H). destruct (sumC rd_C1 rows); reflexivity.
Qed.

Lemma sts_last_query_eq d day :
  sts_last_query d day =
  Ok (match last_by_time (sts_on d day) with
      | None => []
      | Some r =>
          [mkStsOut (coalesce (sd_D3 r) 0) (coalesce (sd_D2 r) 0)
             (coalesce (sd_D1 r) 0 * 1000)%Q
             (if sql_pos (sd_D2 r)
              then option_map (fun x => sql_round (x / coalesce (sd_D2 r) 0) 2) (sd_D3 r)
              else Some 0%Q)
             (if sql_pos (sd_D3 r)
              then option_map (fun x => sql_round (x / coalesce (sd_D3 r) 0) 2)
                              (sql_scale (sd_D1 r) 1000)
              else Some 0%Q)]
      end).
Proof.
  unfold sts_last_query. destruct (last_by_time (sts_on d day)) as [r|]; [|reflexivity].
  rewrite !case_ratio_eq. reflexivity.
Qed.

(** The cell of a frame read from a statement that returns one row. *)
Lemma cell_float_frame_of {R : Type} env (row : R) n (f : R -> option Q) :
  cell_float (frame_of env (Ok [row]) n) f = if up env n then coalesce (f row) 0 else 0%Q.
Proof. unfold frame_of, cell_float. destruct (up env n); reflexivity. Qed.

Lemma py_round_0 n : (py_round 0 n == 0)%Q.
Proof.
  unfold py_round. cbv zeta.
  assert (E : (0 * pow10 n)%Q = (0 # 1)%Q) by reflexivity.
  rewrite E. simpl. unfold Qdiv. apply Qmult_0_l.
Qed.

Ltac zero_cell :=
  rewrite cell_float_frame_of;
  match goal with |- context [up ?e ?n] => destruct (up e n) end;
  cbn [coalesce p_peso_medio p_litros_por_kg s_peso_medio s_litros_por_kg snd];
  try reflexivity.

(** C1: every derived ratio is 0 when its denominator aggregates to zero,
    whatever the numerator, and no exception is raised: the weight per
    cycle, the water and the chemicals per kilogram and the daily average
    of the executive report, the two per-kilogram columns of the daily
    water and chemicals table, and the weight per cycle, the water and the
    chemicals per kilogram and the efficiency of the KPI composer, for
    the period and for the day of the cumulative status. *)
Theorem C1_zero_denominator_yields_zero :
  (forall env s e x n, exists r,
      report_body env s e x n = (Ok r, (5 + n)%nat) /\
      (period_cycles r = 0%Z -> avg_weight r == 0) /\
      (period_production r == 0 -> water_per_kg r == 0 /\ chemicals_per_kg r == 0) /\
      (period_days r = 0%Z -> daily_avg r == 0))%Q
  /\ (forall ws cs, exists rows,
        water_chem_merge (Frame ws) (Frame cs) = Ok (Frame rows) /\
        forall row, In row rows -> agg_zero (wc_kg row) ->
          wc_agua_por_kg row = Some 0%Q /\ wc_quimicos_por_kg row = Some 0%Q)
  /\ (forall env sd ed cf n, exists k,
        fst (get_operational_kpis env sd ed cf n) = Ok k /\
        let d := db env in
        let today := date_of (now env) in
        let p := period_of sd ed in
        (sql_count (diario_periodo d today p) = 0%Z -> peso_medio_periodo k == 0) /\
        (agg_zero (sumC rd_C4 (diario_periodo d today p)) ->
           litros_por_kg_periodo k == 0 /\ ml_quimicos_por_kg_periodo k == 0) /\
        (agg_zero (sumC (fun r => rd_C1 r + rd_C0 r) (diario_efficiency d today p cf)) ->
           eficiencia_media k == 0) /\
        (forall r, last_by_time (sts_on d (latest_date_of env n)) = Some r ->
           (agg_zero (sd_D2 r) -> peso_medio_hoje k == 0) /\
           (agg_zero (sd_D3 r) -> litros_por_kg_hoje k == 0)) /\
        (forall r, last_by_time (sts_on d (resumo_exec_date_of env n)) = Some r ->
           (agg_zero (sd_D2 r) -> peso_medio_resumo k == 0) /\
           (agg_zero (sd_D3 r) ->
              litros_por_kg_resumo k == 0 /\ ml_quimicos_por_kg_hoje k == 0)))%Q.
Proof.
  split; [|split].
  - intros env s e x n. rewrite report_body_run, report_of_totals_eq. cbv zeta.
    eexists. split; [reflexivity|]. cbn [period_cycles avg_weight period_production
      water_per_kg chemicals_per_kg period_days daily_avg].
    split; [|split].
    + intro H. rewrite H. reflexivity.
    + intro H. unfold guarded_ratio. rewrite (Qltb_zero_of_eq _ H).
      split; reflexivity.
    + intro H. rewrite H. reflexivity.
  - exact water_chem_merge_ok.
  - intros env sd ed cf n. rewrite get_operational_kpis_run. cbv zeta.
    eexists. split; [reflexivity|].
    unfold kpis_of_frames.
    cbn [peso_medio_periodo litros_por_kg_periodo ml_quimicos_por_kg_periodo
         eficiencia_media peso_medio_hoje litros_por_kg_hoje peso_medio_resumo
         litros_por_kg_resumo ml_quimicos_por_kg_hoje].
    split; [|split; [|split; [|split]]].
    + intro H. rewrite sts_periodo_query_eq. cbv zeta. rewrite H. zero_cell.
    + intro H. pose proof (agg_zero_not_pos _ H) as Hp. split.
      * rewrite sts_periodo_query_eq. cbv zeta. rewrite Hp. zero_cell.
      * unfold chemical_periodo_query. rewrite chemical_query_eq, Hp.
        zero_cell; apply py_round_0.
    + intro H. pose proof (agg_zero_not_pos _ H) as Hp.
      unfold efficiency_query. rewrite efficiency_of_eq. cbv zeta. rewrite Hp.
      cbn [bind]. zero_cell; apply py_round_0.
    + intros r Hr. rewrite sts_last_query_eq, Hr. split; intro H;
        rewrite (agg_zero_not_pos _ H); zero_cell.
    + intros r Hr. split; intro H; [|split].
      * rewrite sts_last_query_eq, Hr, (agg_zero_not_pos _ H). zero_cell.
      * rewrite sts_last_query_eq, Hr, (agg_zero_not_pos _ H). zero_cell.
      * unfold chemical_hoje_query. rewrite chemical_query_eq, Hr.
        rewrite (agg_zero_not_pos _ H). zero_cell; apply py_round_0.
Qed.

(** ** The builder on failing sources *)

Lemma generate_eq env s e n :
  MINORDINAL <= ordinal e + 1 <= MAXORDINAL ->
  generate_executive_report env (Some s) (Some e) n
  = (Ok (report_of env s e n), (5 + n)%nat).
Proof.
  intro H. unfold generate_executive_report, bindM, lift, report_window.
  cbn [bind]. rewrite (add_days_ok _ _ H). cbn [bind]. unfold try_exceptM.
  rewrite report_body_run, report_of_totals_eq. reflexivity.
Qed.

Lemma add_days_overflow dt n :
  ~ (MINORDINAL <= ordinal dt + n <= MAXORDINAL) ->
  add_days dt n = Raise OverflowError.
Proof.
  intro H. unfold add_days. cbv zeta.
  destruct (MINORDINAL <=? ordinal dt + n) eqn:E1;
    destruct (ordinal dt + n <=? MAXORDINAL) eqn:E2; try reflexivity.
  exfalso. apply H. split; [apply Z.leb_le|apply Z.leb_le]; assumption.
Qed.

(** Past the last representable day the builder raises: the [except]
    branch calls [generate_executive_report], whose own bound is computed
    before its [try]. *)
Lemma build_overflow env s e n :
  ~ (MINORDINAL <= ordinal e + 1 <= MAXORDINAL) ->
  build_report_datasets env s e n = (Raise OverflowError, n).
Proof.
  intro H.
  unfold build_report_datasets, try_exceptM, bindM, lift, datasets_end_exclusive.
  rewrite (add_days_overflow _ _ H). cbn [bind].
  unfold generate_executive_report, bindM, lift, report_window. cbn [bind].
  rewrite (add_days_overflow _ _ H). reflexivity.
Qed.

(** The builder in closed form: the tables of the [try] block when the
    merge succeeds, the empty frames of the [except] branch when it does
    not. *)
Lemma build_eq env s e n :
  MINORDINAL <= ordinal e + 1 <= MAXORDINAL ->
  let d := db env in
  let x := midnight (date_of e + 1) in
  build_report_datasets env s e n =
  match water_chem_merge (frame_of env (water_daily_sql d s x) (7 + n))
                         (frame_of env (chemicals_daily_sql d s x) (8 + n)) with
  | Ok wc =>
      (Ok (mkDatasets (report_of env s e n)
             (frame_of env (prod_client_sql d s x) (5 + n))
             (frame_of env (daily_prod_sql d s x) (6 + n))
             wc
             (frame_of env (alarms_daily_sql d s x) (9 + n))),
       (10 + n)%nat)
  | Raise _ =>
      (Ok (mkDatasets (report_of env s e (9 + n)) NoFrame NoFrame NoFrame NoFrame),
       (14 + n)%nat)
  end.
Proof.
  intros Hr d x.
  unfold build_report_datasets, try_exceptM, bindM, lift.
  rewrite (datasets_end_exclusive_spec _ Hr). rewrite !(generate_eq _ _ _ _ Hr).
  rewrite !execute_query_run.
  change (S (S (S (S (5 + n))))) with (9 + n)%nat.
  change (S (S (S (5 + n)))) with (8 + n)%nat.
  change (S (S (5 + n))) with (7 + n)%nat.
  change (S (5 + n)) with (6 + n)%nat.
  fold d. fold x.
  destruct (water_chem_merge (frame_of env (water_daily_sql d s x) (7 + n))
                             (frame_of env (chemicals_daily_sql d s x) (8 + n)));
    [reflexivity|].
  rewrite (generate_eq _ _ _ _ Hr). reflexivity.
Qed.

Lemma frame_of_down {R : Type} env (q : result (list R)) n :
  up env n = false -> frame_of env q n = NoFrame.
Proof. intro H. unfold frame_of. rewrite H. reflexivity. Qed.

Lemma frame_of_up {R : Type} env (rows : list R) n :
  up env n = true -> frame_of env (Ok rows) n = Frame rows.
Proof. intro H. unfold frame_of. rewrite H. reflexivity. Qed.

Lemma frame_of_Frame {R : Type} env (q : result (list R)) n rows :
  frame_of env q n = Frame rows -> q = Ok rows.
Proof.
  unfold frame_of. destruct (up env n); [|discriminate].
  destruct q; [|discriminate]. intro H. injection H as <-. reflexivity.
Qed.

(** What a returned dataset is made of. *)
Lemma build_inv env s e n ds :
  fst (build_report_datasets env s e n) = Ok ds ->
  MINORDINAL <= ordinal e + 1 <= MAXORDINAL /\
  let d := db env in
  let x := midnight (date_of e + 1) in
  let merged := water_chem_merge (frame_of env (water_daily_sql d s x) (7 + n))
                                 (frame_of env (chemicals_daily_sql d s x) (8 + n)) in
  (merged = Ok (water_chemicals_daily ds)
   /\ production_by_client ds = frame_of env (prod_client_sql d s x) (5 + n)
   /\ daily_production ds = frame_of env (daily_prod_sql d s x) (6 + n)
   /\ alarms_daily ds = frame_of env (alarms_daily_sql d s x) (9 + n)
   /\ summary ds = report_of env s e n)
  \/ ((exists err, merged = Raise err)
      /\ ds = mkDatasets (report_of env s e (9 + n)) NoFrame NoFrame NoFrame NoFrame).
Proof.
  intro H.
  destruct (Z_le_dec MINORDINAL (ordinal e + 1)) as [H1|H1];
    [destruct (Z_le_dec (ordinal e + 1) MAXORDINAL) as [H2|H2]|].
  2: { rewrite build_overflow in H by lia. discriminate. }
  2: { rewrite build_overflow in H by lia. discriminate. }
  assert (Hr : MINORDINAL <= ordinal e + 1 <= MAXORDINAL) by lia.
  split; [exact Hr|]. intros d x merged.
  rewrite (build_eq _ _ _ _ Hr) in H. cbv zeta in H. fold d x merged in H.
  destruct merged as [wc|err] eqn:Hm; cbn [fst] in H; injection H as <-.
  - left. repeat split.
  - right. split; [exists err; reflexivity|reflexivity].
Qed.

Lemma merge_without_frame_r (wdf : DataFrame Water_row) :
  water_chem_merge wdf NoFrame = Raise KeyError.
Proof. destruct wdf; reflexivity. Qed.

(** X25: for every window whose end is a valid date other than 9999-12-31,
    the builder returns a result, whatever statements fail; the result carries
    an executive summary computed by [generate_executive_report], and the
    table of every statement that failed is the empty frame (the daily
    water and chemicals table as soon as one of its two statements
    failed). *)
Lemma builder_degrades_to_empty_tables :
  forall env start_dt end_dt n,
    valid_datetime end_dt -> ordinal end_dt <> MAXORDINAL ->
    exists ds n',
      build_report_datasets env start_dt end_dt n = (Ok ds, n') /\
      (exists m, fst (generate_executive_report env (Some start_dt) (Some end_dt) m)
                 = Ok (summary ds)) /\
      (up env (5 + n) = false -> production_by_client ds = NoFrame) /\
      (up env (6 + n) = false -> daily_production ds = NoFrame) /\
      (up env (7 + n) = false \/ up env (8 + n) = false ->
       water_chemicals_daily ds = NoFrame) /\
      (up env (9 + n) = false -> alarms_daily ds = NoFrame).
Proof.
  intros env s e n Hv Hmax.
  assert (Hr : MINORDINAL <= ordinal e + 1 <= MAXORDINAL)
    by (destruct Hv as [[? ?] _]; unfold MINORDINAL, MAXORDINAL in *; lia).
  rewrite (build_eq _ _ _ _ Hr). cbv zeta.
  destruct (water_chem_merge _ _) as [wc|err] eqn:Hm.
  - eexists; eexists. split; [reflexivity|].
    cbn [summary production_by_client daily_production water_chemicals_daily
         alarms_daily].
    split; [exists n; rewrite (generate_eq _ _ _ _ Hr); reflexivity|].
    split; [apply frame_of_down|].
    split; [apply frame_of_down|].
    split; [|apply frame_of_down].
    intros [H|H]; rewrite (frame_of_down _ _ _ H) in Hm.
    + discriminate.
    + rewrite merge_without_frame_r in Hm. discriminate.
  - eexists; eexists. split; [reflexivity|].
    cbn [summary production_by_client daily_production water_chemicals_daily
         alarms_daily].
    split; [exists (9 + n)%nat; rewrite (generate_eq _ _ _ _ Hr); reflexivity|].
    repeat split.
Qed.

(** With the database down for the whole request the builder still
    answers. *)
Lemma builder_answers_when_database_is_down :
  valid_datetime c5_end /\ ordinal c5_end <> MAXORDINAL /\
  exists ds n',
    build_report_datasets (mkEnv c5_db (at_time (jan 20) 12 0) never_up)
                          (midnight (jan 1)) c5_end 0%nat = (Ok ds, n') /\
    (exists m, fst (generate_executive_report
                      (mkEnv c5_db (at_time (jan 20) 12 0) never_up)
                      (Some (midnight (jan 1))) (Some c5_end) m) = Ok (summary ds)) /\
    (never_up 5%nat = false -> production_by_client ds = NoFrame) /\
    (never_up 6%nat = false -> daily_production ds = NoFrame) /\
    (never_up 7%nat = false \/ never_up 8%nat = false ->
     water_chemicals_daily ds = NoFrame) /\
    (never_up 9%nat = false -> alarms_daily ds = NoFrame).
Proof.
  assert (Hv : valid_datetime c5_end) by (vm_compute; repeat split; discriminate).
  assert (Hm : ordinal c5_end <> MAXORDINAL) by (vm_compute; discriminate).
  split; [exact Hv|]. split; [exact Hm|].
  exact (builder_degrades_to_empty_tables
           (mkEnv c5_db (at_time (jan 20) 12 0) never_up)
           (midnight (jan 1)) c5_end 0%nat Hv Hm).
Defined.

(** C6, at the failing input: with the end date 9999-12-31, a valid
    [datetime], the builder raises [OverflowError] instead of returning a
    degraded result: the addition of one day fails in the [try] block, and
    the [except] branch calls [generate_executive_report], which repeats
    that addition before its own [try]. *)
Theorem C6_builder_raises_on_last_day :
  valid_datetime (midnight (ymd 9999 12 31))
  /\ build_report_datasets c5_env (midnight (jan 1)) (midnight (ymd 9999 12 31)) 0%nat
     = (Raise OverflowError, 0%nat).
Proof. split; [vm_compute; repeat split; discriminate|reflexivity]. Qed.

(** ** Sums over groups *)

Section GroupSums.
Context {R : Type}.
Variable f : R -> Q.

Lemma add_to_group_sum k r gs :
  (Qsum (map (fun g => Qsum (map f (snd g))) (add_to_group k r gs))
   == f r + Qsum (map (fun g : Z * list R => Qsum (map f (snd g))) gs))%Q.
Proof.
  induction gs as [|[k' g] gs IH]; simpl.
  - ring.
  - destruct (Z.compare k k'); simpl.
    + ring.
    + ring.
    + rewrite IH. ring.
Qed.

(** Grouping loses no row and counts none twice. *)
Lemma group_by_sum key rows :
  (Qsum (map (fun g => Qsum (map f (snd g))) (group_by key rows))
   == Qsum (map f rows))%Q.
Proof.
  induction rows as [|r rows IH]; simpl.
  - reflexivity.
  - rewrite add_to_group_sum, IH. reflexivity.
Qed.

Lemma non_null_some (rows : list R) :
  non_null (map (fun r => Some (f r)) rows) = map f rows.
Proof. induction rows as [|r rows IH]; simpl; [reflexivity|now rewrite IH]. Qed.

(** [COALESCE(SUM(col), 0)] over populated cells is the plain sum. *)
Lemma coalesce_sum (rows : list R) :
  coalesce (sql_sum (map (fun r => Some (f r)) rows)) 0 = Qsum (map f rows).
Proof.
  unfold sql_sum. rewrite non_null_some. destruct (map f rows); reflexivity.
Qed.

Lemma insert_desc_sum (key : R -> Q) r l :
  (Qsum (map f (insert_desc R key r l)) == f r + Qsum (map f l))%Q.
Proof.
  induction l as [|x l IH]; simpl.
  - reflexivity.
  - destruct (Qle_bool (key x) (key r)); simpl.
    + reflexivity.
    + rewrite IH. ring.
Qed.

(** [ORDER BY] only permutes the rows. *)
Lemma order_by_desc_sum (key : R -> Q) l :
  (Qsum (map f (order_by_desc key l)) == Qsum (map f l))%Q.
Proof.
  induction l as [|x l IH]; simpl.
  - reflexivity.
  - unfold order_by_desc in *. simpl. rewrite insert_desc_sum, IH. reflexivity.
Qed.
End GroupSums.

Lemma daily_prod_sum d lo hi days :
  daily_prod_sql d lo hi = Ok days ->
  (Qsum (map dp_kg days) == Qsum (map rc_C2 (loads_in d lo hi)))%Q.
Proof.
  unfold daily_prod_sql. intro H. injection H as <-.
  rewrite map_map. cbn [dp_kg].
  rewrite (map_ext _ (fun g : Z * list Rel_Carga_row => Qsum (map rc_C2 (snd g))))
    by (intro g; apply coalesce_sum).
  apply group_by_sum.
Qed.

Lemma prod_client_sum d lo hi clients :
  prod_client_sql d lo hi = Ok clients ->
  (Qsum (map total_kg clients) == Qsum (map rc_C2 (loads_in d lo hi)))%Q.
Proof.
  unfold prod_client_sql. intro H. injection H as <-.
  rewrite order_by_desc_sum, map_map.
  rewrite (map_ext _ (fun g : Z * list Rel_Carga_row => Qsum (map rc_C2 (snd g)))).
  - apply group_by_sum.
  - intros [id loads]. cbn [client_row_of total_kg snd]. apply coalesce_sum.
Qed.

(** C7, amended: in a returned dataset the per-day kilograms of
    [daily_production] add up to the kilograms of the load records
    ([Rel_Carga]) stamped from the start of the window up to, and
    excluding, the midnight after its end, and so do the kilograms per
    client of [production_by_client]; the two tables reconcile with each
    other. The period production of the summary is read from [Rel_Diario]
    and is not part of this equation. *)
Theorem C7_daily_production_sums_the_load_ledger :
  forall env start_dt end_dt n ds days,
    fst (build_report_datasets env start_dt end_dt n) = Ok ds ->
    daily_production ds = Frame days ->
    (Qsum (map dp_kg days)
     == Qsum (map rc_C2 (loads_in (db env) start_dt (midnight (date_of end_dt + 1)))))%Q
    /\ forall clients, production_by_client ds = Frame clients ->
         (Qsum (map total_kg clients) == Qsum (map dp_kg days))%Q.
Proof.
  intros env s e n ds days Hb Hd.
  destruct (build_inv _ _ _ _ _ Hb) as [_ Hcases]. cbv zeta in Hcases.
  destruct Hcases as [(_ & Hc & Hd' & _)|(_ & Hds)];
    [|subst ds; discriminate Hd].
  rewrite Hd in Hd'. symmetry in Hd'. apply frame_of_Frame in Hd'.
  pose proof (daily_prod_sum _ _ _ _ Hd') as Hsum.
  split; [exact Hsum|].
  intros clients Hcl. rewrite Hcl in Hc. symmetry in Hc. apply frame_of_Frame in Hc.
  rewrite Hsum. apply (prod_client_sum _ _ _ _ Hc).
Qed.

Lemma C7_witness :
  fst (build_report_datasets c8_env (midnight (jan 1)) (midnight (jan 7)) 0%nat)
    = Ok c8_datasets
  /\ daily_production c8_datasets = Frame (rows_of (daily_production c8_datasets))
  /\ (Qsum (map dp_kg (rows_of (daily_production c8_datasets)))
      == Qsum (map rc_C2 (loads_in (db c8_env) (midnight (jan 1))
                                   (midnight (date_of (midnight (jan 7)) + 1)))))%Q.
Proof.
  split; [vm_compute; reflexivity|].
  split; [vm_compute; reflexivity|].
  apply (C7_daily_production_sums_the_load_ledger
           c8_env (midnight (jan 1)) (midnight (jan 7)) 0%nat c8_datasets
           (rows_of (daily_production c8_datasets)));
    vm_compute; reflexivity.
Defined.

(** C7 as stated fails: the three loads make 300 kg in [daily_production]
    while the summary, which reads [Rel_Diario], reports 0 kg. *)
Lemma C7_counterexample_summary_reads_another_source :
  fst (build_report_datasets c8_env (midnight (jan 1)) (midnight (jan 7)) 0%nat)
    = Ok c8_datasets
  /\ (Qsum (map dp_kg (rows_of (daily_production c8_datasets))) == 300)%Q
  /\ (period_production (summary c8_datasets) == 0)%Q
  /\ ~ (Qsum (map dp_kg (rows_of (daily_production c8_datasets)))
        == period_production (summary c8_datasets))%Q.
Proof.
  split; [vm_compute; reflexivity|].
  split; [vm_compute; reflexivity|].
  split; [vm_compute; reflexivity|].
  vm_compute. discriminate.
Qed.

(** ** Display names of clients *)

Lemma In_insert_desc {R : Type} (f : R -> Q) (r x : R) l :
  In x (insert_desc R f r l) -> x = r \/ In x l.
Proof.
  induction l as [|y l IH]; simpl.
  - intros [H|[]]. left. congruence.
  - destruct (Qle_bool (f y) (f r)); simpl.
    + intros [H|[H|H]]; [left; congruence|right; left; exact H|right; right; exact H].
    + intros [H|H]; [right; left; exact H|].
      destruct (IH H) as [E|E]; [left; exact E|right; right; exact E].
Qed.

Lemma In_order_by_desc {R : Type} (f : R -> Q) (x : R) l :
  In x (order_by_desc f l) -> In x l.
Proof.
  induction l as [|y l IH]; simpl; [tauto|].
  unfold order_by_desc in *. simpl. intro H.
  destruct (In_insert_desc _ _ _ _ H) as [E|E]; [left; congruence|right; exact (IH E)].
Qed.

Lemma In_firstn_In {A : Type} (x : A) n l : In x (firstn n l) -> In x l.
Proof.
  revert l. induction n as [|n IH]; intros [|y l]; simpl; try tauto.
  intros [H|H]; [left; exact H|right; exact (IH _ H)].
Qed.

Lemma Ok_inj {A : Type} (a b : A) : Ok a = Ok b -> a = b.
Proof. intro H. injection H as H. exact H. Qed.

(** C9, amended: a client identifier without a stored alias is displayed
    as the text "Cliente " followed by the decimal identifier, in every row
    of [production_by_client]; the rows of
    [get_client_performance_comparison] carry that name for every client.
    An unmapped 42 resolves to "Cliente 42". *)
Theorem C9_unaliased_client_is_Cliente_id :
  forall (d : Database) (lo hi : datetime),
    (forall rows row,
        prod_client_sql d lo hi = Ok rows -> In row rows ->
        lookup_alias (client_alias d) (client_id row) = None ->
        client_display row = ("Cliente " ++ text_of_int (client_id row))%string)
    /\ (forall rows row,
           client_performance_query d lo hi = Ok rows -> In row rows ->
           client_name row = ("Cliente " ++ text_of_int (perf_client_id row))%string)
    /\ (lookup_alias (client_alias d) 42 = None ->
        client_display_of (client_alias d) 42 = "Cliente 42"%string).
Proof.
  intros d lo hi. split; [|split].
  - intros rows row Hq Hin Hno. unfold prod_client_sql in Hq. injection Hq as <-.
    apply In_order_by_desc in Hin. apply in_map_iff in Hin.
    destruct Hin as [[id loads] [<- _]].
    cbn [client_row_of client_id client_display] in *.
    unfold client_display_of. rewrite Hno. reflexivity.
  - intros rows row Hq Hin. unfold client_performance_query in Hq.
    apply Ok_inj in Hq. subst rows. apply In_firstn_In, In_order_by_desc in Hin.
    apply in_map_iff in Hin. destruct Hin as [g [<- _]]. reflexivity.
  - intro Hno. unfold client_display_of. rewrite Hno. reflexivity.
Qed.

Lemma C9_witness :
  prod_client_sql c8_db (midnight (jan 1)) (midnight (jan 8)) = Ok [c8_row]
  /\ In c8_row [c8_row]
  /\ lookup_alias (client_alias c8_db) (client_id c8_row) = None
  /\ client_display c8_row = ("Cliente " ++ text_of_int (client_id c8_row))%string.
Proof.
  assert (Hq : prod_client_sql c8_db (midnight (jan 1)) (midnight (jan 8)) = Ok [c8_row])
    by (vm_compute; reflexivity).
  assert (Hin : In c8_row [c8_row]) by (left; reflexivity).
  assert (Hno : lookup_alias (client_alias c8_db) (client_id c8_row) = None)
    by (vm_compute; reflexivity).
  split; [exact Hq|]. split; [exact Hin|]. split; [exact Hno|].
  exact (proj1 (C9_unaliased_client_is_Cliente_id c8_db (midnight (jan 1)) (midnight (jan 8)))
               [c8_row] c8_row Hq Hin Hno).
Defined.

(** C9 as stated fails: the prefix is "Cliente ", so 42 is never shown as
    "Client 42". *)
Lemma C9_counterexample_prefix :
  client_display_of [] 42 = "Cliente 42"%string
  /\ client_display_of [] 42 <> "Client 42"%string.
Proof. split; [reflexivity|discriminate]. Qed.

(** ** The end-to-end scenario *)

(** C8, amended: for the window 2024-01-01 to 2024-01-07 with exactly
    three load records of client 7 (100 kg, 200 kg and 0 kg) stamped inside
    it, no alias for 7 and every statement answered,
    [production_by_client] is the single row with display "Cliente 7",
    300 kg, 3 loads and an average weight of 150 kg, the mean over the
    loads whose weight is not zero; the water per kilogram of the summary is
    computed from [Sts_Dados] and [Rel_Diario], not from the loads, and is
    0 when [Rel_Diario] has no row. *)
Theorem C8_three_loads_of_client_7 :
  forall (t1 t2 t3 nw : datetime) (sts : list Sts_Dados_row)
         (quim : list Rel_Quimico_row) (alarms : list Alarm_row)
         (aliases : list (Z * string)),
    in_half_open (midnight (jan 1)) (midnight (jan 8)) t1 = true ->
    in_half_open (midnight (jan 1)) (midnight (jan 8)) t2 = true ->
    in_half_open (midnight (jan 1)) (midnight (jan 8)) t3 = true ->
    lookup_alias aliases 7 = None ->
    let env := mkEnv (mkDB [] sts (c8_loads t1 t2 t3) quim alarms aliases) nw always_up in
    exists ds row,
      fst (build_report_datasets env (midnight (jan 1)) (midnight (jan 7)) 0%nat) = Ok ds
      /\ production_by_client ds = Frame [row]
      /\ client_id row = 7
      /\ client_display row = "Cliente 7"%string
      /\ total_cargas row = 3
      /\ (total_kg row == 300)%Q
      /\ (peso_medio_kg row == 150)%Q
      /\ (water_per_kg (summary ds) == 0)%Q.
Proof.
  intros t1 t2 t3 nw sts quim alarms aliases H1 H2 H3 Hno env. subst env.
  assert (Hr : MINORDINAL <= ordinal (midnight (jan 7)) + 1 <= MAXORDINAL)
    by (vm_compute; split; discriminate).
  rewrite (build_eq _ _ _ _ Hr). cbv zeta.
  change (midnight (date_of (midnight (jan 7)) + 1)) with (midnight (jan 8)).
  unfold water_daily_sql at 1, chemicals_daily_sql at 1.
  rewrite !frame_of_up by reflexivity.
  match goal with
  | |- context [water_chem_merge (Frame ?ws) (Frame ?cs)] =>
      destruct (water_chem_merge_ok ws cs) as [rows [Hm _]]; rewrite Hm
  end.
  eexists; eexists. split; [reflexivity|].
  cbn [production_by_client summary].
  unfold prod_client_sql, loads_in. rewrite frame_of_up by reflexivity.
  cbn [db Rel_Carga c8_loads filter rc_Time_Stamp]. rewrite H1, H2, H3.
  cbn [group_by fold_right rc_C1 add_to_group Z.compare Pos.compare Pos.compare_cont
       map client_row_of order_by_desc insert_desc client_alias].
  split; [reflexivity|].
  cbn [client_id client_display total_cargas total_kg peso_medio_kg].
  split; [reflexivity|].
  split; [unfold client_display_of; rewrite Hno; reflexivity|].
  split; [reflexivity|].
  split; [vm_compute; reflexivity|].
  split; [vm_compute; reflexivity|].
  unfold report_of. cbv zeta. cbn [water_per_kg].
  unfold prod_query. rewrite frame_of_up by reflexivity. reflexivity.
Qed.

Lemma C8_witness :
  exists ds row,
    fst (build_report_datasets c8_env (midnight (jan 1)) (midnight (jan 7)) 0%nat) = Ok ds
    /\ production_by_client ds = Frame [row]
    /\ client_id row = 7
    /\ client_display row = "Cliente 7"%string
    /\ total_cargas row = 3
    /\ (total_kg row == 300)%Q
    /\ (peso_medio_kg row == 150)%Q
    /\ (water_per_kg (summary ds) == 0)%Q.
Proof.
  apply (C8_three_loads_of_client_7
           (at_time (jan 1) 8 0) (at_time (jan 3) 9 30) (at_time (jan 7) 23 0)
           (at_time (jan 20) 12 0) [] [] [] []); reflexivity.
Defined.

(** C8 as stated fails: in that scenario the row is displayed "Cliente 7",
    not "Client 7", its average weight is 150, not 100, and the water per
    kilogram of the window is 0, not 433.33. *)
Lemma C8_counterexample_row_and_ratio :
  production_by_client c8_datasets = Frame [c8_row]
  /\ client_display c8_row <> "Client 7"%string
  /\ ~ (peso_medio_kg c8_row == 100)%Q
  /\ ~ (water_per_kg (summary c8_datasets) == 43333 # 100)%Q.
Proof.
  split; [vm_compute; reflexivity|].
  split; [vm_compute; discriminate|].
  split; vm_compute; discriminate.
Qed.

(** ** Days without production in the period KPIs *)

Lemma diario_periodo_skip d before r after today p :
  Qltb 0 (rd_C4 r) = false ->
  diario_periodo (with_diario d (before ++ r :: after)) today p
  = diario_periodo (with_diario d (before ++ after)) today p.
Proof.
  intro H. unfold diario_periodo, with_diario. cbn [Rel_Diario].
  rewrite !filter_app. cbn [filter]. rewrite H, andb_false_r. reflexivity.
Qed.

Lemma diario_periodo_client_skip d before r after today p cf :
  Qltb 0 (rd_C4 r) = false ->
  diario_periodo_client (with_diario d (before ++ r :: after)) today p cf
  = diario_periodo_client (with_diario d (before ++ after)) today p cf.
Proof.
  intro H. unfold diario_periodo_client, with_diario. cbn [Rel_Diario].
  rewrite !filter_app. cbn [filter]. rewrite H, andb_false_r. reflexivity.
Qed.

Lemma diario_efficiency_reads d before r after today p cf :
  date_filter_periodo today p (rd_Time_Stamp r) = true ->
  Qltb 0 (rd_C1 r) = true ->
  Qle_bool 0 (rd_C0 r) = true ->
  client_filter_sql cf r = true ->
  diario_efficiency (with_diario d (before ++ r :: after)) today p cf
  = diario_efficiency (with_diario d before) today p cf
    ++ r :: diario_efficiency (with_diario d after) today p cf.
Proof.
  intros H1 H2 H3 H4. unfold diario_efficiency, with_diario. cbn [Rel_Diario].
  rewrite filter_app. cbn [filter]. rewrite H1, H2, H3, H4. reflexivity.
Qed.

(** C10, amended: a consolidated-daily row whose kilograms are not strictly
    positive does not change the period statements of the KPI composer on
    production, water and chemicals: the kilograms, the cycle count, the
    water volume, the weight per cycle and the water per kilogram are the
    same with and without it, with or without a client filter, and so is
    the kilogram sum that divides the chemicals; the period KPIs of the
    bundle built from them are those of the database without the row. The
    period efficiency is not one of them: its statement tests the
    production time and the downtime and never the kilograms, so it reads
    the row whenever the row lies in the period with a positive production
    time, a downtime that is not negative and the selected client. *)
Theorem C10_idle_rows_are_skipped_except_by_efficiency :
  forall (d : Database) (before after : list Rel_Diario_row) (r : Rel_Diario_row)
         (today : Z) (p : Period) (cf : option Z),
    (rd_C4 r <= 0)%Q ->
    let d_with := with_diario d (before ++ r :: after) in
    let d_without := with_diario d (before ++ after) in
    sts_periodo_query d_with today p = sts_periodo_query d_without today p
    /\ production_periodo_query d_with today p cf
       = production_periodo_query d_without today p cf
    /\ water_periodo_query d_with today p cf = water_periodo_query d_without today p cf
    /\ chemical_periodo_query d_with today p = chemical_periodo_query d_without today p
    /\ (forall nw u sd ed n, today = date_of nw -> p = period_of sd ed ->
        exists k k',
          fst (get_operational_kpis (mkEnv d_with nw u) sd ed cf n) = Ok k
          /\ fst (get_operational_kpis (mkEnv d_without nw u) sd ed cf n) = Ok k'
          /\ quilos_lavados_periodo_raw k = quilos_lavados_periodo_raw k'
          /\ ciclos_periodo k = ciclos_periodo k'
          /\ litros_agua_periodo_raw k = litros_agua_periodo_raw k'
          /\ peso_medio_periodo k = peso_medio_periodo k'
          /\ litros_por_kg_periodo k = litros_por_kg_periodo k'
          /\ ml_quimicos_periodo k = ml_quimicos_periodo k'
          /\ ml_quimicos_por_kg_periodo k = ml_quimicos_por_kg_periodo k')
    /\ (date_filter_periodo today p (rd_Time_Stamp r) = true ->
        Qltb 0 (rd_C1 r) = true ->
        Qle_bool 0 (rd_C0 r) = true ->
        client_filter_sql cf r = true ->
        diario_efficiency d_with today p cf
        = diario_efficiency (with_diario d before) today p cf
          ++ r :: diario_efficiency (with_diario d after) today p cf).
Proof.
  intros d before after r today p cf Hle d_with d_without.
  apply Qltb_false_iff in Hle.
  assert (E1 : sts_periodo_query d_with today p = sts_periodo_query d_without today p).
  { unfold sts_periodo_query, d_with, d_without.
    rewrite (diario_periodo_skip _ _ _ _ _ _ Hle). reflexivity. }
  assert (E2 : chemical_periodo_query d_with today p
               = chemical_periodo_query d_without today p).
  { unfold chemical_periodo_query, d_with, d_without.
    rewrite (diario_periodo_skip _ _ _ _ _ _ Hle). reflexivity. }
  split; [exact E1|]. split; [|split; [|split; [exact E2|split]]].
  - unfold production_periodo_query, d_with, d_without.
    rewrite (diario_periodo_client_skip _ _ _ _ _ _ _ Hle). reflexivity.
  - unfold water_periodo_query, d_with, d_without.
    rewrite (diario_periodo_client_skip _ _ _ _ _ _ _ Hle). reflexivity.
  - intros nw u sd ed n -> ->. rewrite !get_operational_kpis_run. cbv zeta.
    eexists; eexists. split; [reflexivity|]. split; [reflexivity|].
    unfold kpis_of_frames.
    cbn [quilos_lavados_periodo_raw ciclos_periodo litros_agua_periodo_raw
         peso_medio_periodo litros_por_kg_periodo ml_quimicos_periodo
         ml_quimicos_por_kg_periodo db now].
    rewrite E1, E2. repeat split.
  - apply diario_efficiency_reads.
Qed.

Lemma C10_witness :
  (rd_C4 idle_day <= 0)%Q
  /\ sts_periodo_query (with_diario empty_db (idle_day :: c10_days))
                       (jan 7) (Selected (midnight (jan 1)) (midnight (jan 7)))
     = sts_periodo_query (with_diario empty_db c10_days)
                         (jan 7) (Selected (midnight (jan 1)) (midnight (jan 7)))
  /\ diario_efficiency (with_diario empty_db (idle_day :: c10_days))
                       (jan 7) (Selected (midnight (jan 1)) (midnight (jan 7))) None
     = idle_day :: diario_efficiency (with_diario empty_db c10_days)
                     (jan 7) (Selected (midnight (jan 1)) (midnight (jan 7))) None.
Proof.
  assert (H : (rd_C4 idle_day <= 0)%Q) by (vm_compute; discriminate).
  pose proof (C10_idle_rows_are_skipped_except_by_efficiency
                empty_db [] c10_days idle_day
                (jan 7) (Selected (midnight (jan 1)) (midnight (jan 7))) None H)
    as [E1 [_ [_ [_ [_ E6]]]]].
  split; [exact H|]. split; [exact E1|].
  exact (E6 eq_refl eq_refl eq_refl eq_refl).
Defined.

(** C10 as stated fails on the period efficiency: in the week of 1 to 7
    January 2024 the day of 4 January, without kilograms but with 240
    minutes of production time and 60 of downtime, leaves the kilograms of
    the period at 2000 and the cycle count as it was, and lowers the
    period efficiency from 94.3 to 90.6. *)
Lemma C10_counterexample_idle_day_changes_efficiency :
  (rd_C4 idle_day <= 0)%Q
  /\ (quilos_lavados_periodo_raw (c10_kpis (idle_day :: c10_days)) == 2000)%Q
  /\ (quilos_lavados_periodo_raw (c10_kpis c10_days) == 2000)%Q
  /\ ciclos_periodo (c10_kpis (idle_day :: c10_days)) = ciclos_periodo (c10_kpis c10_days)
  /\ (eficiencia_media (c10_kpis (idle_day :: c10_days)) == 906 # 10)%Q
  /\ (eficiencia_media (c10_kpis c10_days) == 943 # 10)%Q
  /\ ~ (eficiencia_media (c10_kpis (idle_day :: c10_days))
        == eficiencia_media (c10_kpis c10_days))%Q.
Proof.
  repeat split; vm_compute; solve [reflexivity | discriminate].
Qed.

(** ** Efficiency *)

Lemma pow10_nonzero n : ~ (pow10 n == 0)%Q.
Proof.
  unfold pow10, Qeq. simpl. rewrite Z.mul_1_r.
  pose proof (Z.pow_pos_nonneg 10 (Z.of_nat n)). lia.
Qed.

(** Rounding a value that already has [n] decimals changes nothing. *)
Lemma py_round_decimal k n :
  (py_round (inject_Z k / pow10 n) n == inject_Z k / pow10 n)%Q.
Proof.
  unfold py_round. cbv zeta.
  assert (E : (inject_Z k / pow10 n * pow10 n == inject_Z k)%Q)
    by (field; apply pow10_nonzero).
  assert (F : Qfloor (inject_Z k / pow10 n * pow10 n) = k)
    by (rewrite E; apply Qfloor_Z).
  rewrite F.
  assert (C : Qcompare (inject_Z k / pow10 n * pow10 n - inject_Z k) (1 # 2) = Lt).
  { apply Qlt_alt. rewrite E. setoid_replace (inject_Z k - inject_Z k)%Q with 0%Q by ring.
    reflexivity. }
  rewrite C. reflexivity.
Qed.

Lemma sql_round_decimal x n : exists k, sql_round x n = (inject_Z k / pow10 n)%Q.
Proof.
  unfold sql_round. cbv zeta. destruct (Qltb x 0); eexists; reflexivity.
Qed.

Lemma py_round_sql_round x n : (py_round (sql_round x n) n == sql_round x n)%Q.
Proof.
  destruct (sql_round_decimal x n) as [k ->]. apply py_round_decimal.
Qed.

Lemma sumC_eq f rows :
  sumC f rows = match rows with [] => None | _ => Some (Qsum (map f rows)) end.
Proof.
  unfold sumC, sql_sum. rewrite non_null_some. destruct rows; reflexivity.
Qed.

(** The statement [efficiency_query] computes the summed-minutes formula
    over the rows it keeps. *)
Lemma efficiency_of_summed rows :
  efficiency_of rows =
  Ok (Some (if Qltb 0 (Qsum (map (fun r => rd_C1 r + rd_C0 r)%Q rows))
            then sql_round (summed_efficiency (map minutes_of rows)) 1
            else 0%Q)).
Proof.
  rewrite efficiency_of_eq. cbv zeta. rewrite !sumC_eq.
  destruct rows as [|r rows]; [reflexivity|].
  cbn [sql_pos coalesce option_map].
  unfold summed_efficiency. rewrite !map_map.
  destruct (Qltb 0 _); reflexivity.
Qed.

(** C2, amended: the efficiency KPI is the summed production time over
    the summed production time plus downtime, times 100 and rounded to one
    decimal, over the consolidated rows of the period that have a strictly
    positive production time and a non-negative downtime (and the selected
    client); it is 0 when that sum of minutes is not positive or the
    statement fails. It is not a mean of per-record ratios: the days
    (90, 10) and (10, 10) give 83.3, where the mean of the ratios is 70.
    The days (90, 10) and (10, 90) give 50.0. *)
Theorem C2_efficiency_from_summed_minutes :
  (forall env sd ed cf n,
      let kept := diario_efficiency (db env) (date_of (now env)) (period_of sd ed) cf in
      exists k,
        fst (get_operational_kpis env sd ed cf n) = Ok k
        /\ (up env (11 + n) = true ->
            eficiencia_media k
            == if Qltb 0 (Qsum (map (fun r => rd_C1 r + rd_C0 r) kept))
               then sql_round (summed_efficiency (map minutes_of kept)) 1
               else 0)
        /\ (up env (11 + n) = false -> eficiencia_media k == 0))%Q
  /\ (eficiencia_media (c2_kpis (90, 10) (10, 90)) == 50)%Q
  /\ (eficiencia_media (c2_kpis (90, 10) (10, 10)) == 833 # 10)%Q
  /\ (mean_of_ratios [(90, 10); (10, 10)] == 70)%Q.
Proof.
  split; [|split; [|split]]; [|vm_compute; reflexivity..].
  intros env sd ed cf n kept. rewrite get_operational_kpis_run. cbv zeta.
  eexists. split; [reflexivity|].
  unfold kpis_of_frames. cbn [eficiencia_media].
  unfold efficiency_query. fold kept. rewrite efficiency_of_summed. cbn [bind].
  rewrite cell_float_frame_of. cbn [coalesce].
  split; intro H; rewrite H.
  - destruct (Qltb 0 _); [apply py_round_sql_round|apply py_round_0].
  - apply py_round_0.
Qed.

Lemma C2_witness :
  exists k,
    fst (get_operational_kpis (c2_env (90, 10)%Q (10, 90)%Q) (Some (midnight (jan 1)))
                              (Some (midnight (jan 7))) None 0%nat) = Ok k
    /\ (eficiencia_media k == 50)%Q.
Proof.
  destruct (proj1 C2_efficiency_from_summed_minutes
                  (c2_env (90, 10)%Q (10, 90)%Q) (Some (midnight (jan 1)))
                  (Some (midnight (jan 7))) None 0%nat) as [k [Hk [Hup _]]].
  exists k. split; [exact Hk|].
  rewrite (Hup eq_refl). vm_compute. reflexivity.
Defined.

(** C2 as stated fails on its first example: of the days (10, 0) and
    (0, 10) the statement keeps only the first, whose production time is
    positive, and the efficiency is 100.0, not 50.0. *)
Lemma C2_counterexample_idle_day_is_filtered :
  map minutes_of (diario_efficiency (db (c2_env (10, 0)%Q (0, 10)%Q)) (jan 7)
                    (Selected (midnight (jan 1)) (midnight (jan 7))) None)
  = [(10, 0)%Q]
  /\ (eficiencia_media (c2_kpis (10, 0) (0, 10)) == 100)%Q
  /\ ~ (eficiencia_media (c2_kpis (10, 0) (0, 10)) == 50)%Q.
Proof.
  split; [reflexivity|]. split; vm_compute; [reflexivity|discriminate].
Qed.

(** The 30-day summary of [get_dashboard_summary] does average per-record
    ratios: over the days (90, 10) and (10, 10) its [avg_efficiency] is 70. *)
Lemma dashboard_summary_averages_ratios :
  exists row,
    production_summary (db (c2_env (90, 10)%Q (10, 10)%Q)) (jan 7) = Ok [row]
    /\ exists v, ps_avg_efficiency row = Some v /\ (v == 70)%Q.
Proof.
  eexists. split; [lazy; reflexivity|]. eexists. split; reflexivity.
Qed.

(** ** The last record of a day *)

Lemma dt_leb_iff a b :
  dt_leb a b = true <->
  ordinal a < ordinal b \/ (ordinal a = ordinal b /\ micros a <= micros b).
Proof.
  unfold dt_leb. rewrite orb_true_iff, andb_true_iff, Z.ltb_lt, Z.eqb_eq, Z.leb_le.
  tauto.
Qed.

Lemma dt_ltb_iff a b :
  dt_ltb a b = true <->
  ordinal a < ordinal b \/ (ordinal a = ordinal b /\ micros a < micros b).
Proof.
  unfold dt_ltb. rewrite orb_true_iff, andb_true_iff, !Z.ltb_lt, Z.eqb_eq.
  tauto.
Qed.

Lemma dt_ltb_leb a b : dt_ltb a b = true -> dt_leb a b = true.
Proof. rewrite dt_ltb_iff, dt_leb_iff. lia. Qed.

Lemma dt_not_ltb_leb a b : dt_ltb a b = false -> dt_leb b a = true.
Proof.
  intro H. apply dt_leb_iff.
  destruct (Z_lt_dec (ordinal b) (ordinal a)) as [L|L]; [left; exact L|].
  destruct (Z.eq_dec (ordinal b) (ordinal a)) as [E|E].
  - right. split; [exact E|].
    destruct (Z_le_dec (micros b) (micros a)) as [M|M]; [exact M|].
    assert (T : dt_ltb a b = true) by (apply dt_ltb_iff; lia). congruence.
  - assert (T : dt_ltb a b = true) by (apply dt_ltb_iff; lia). congruence.
Qed.

Lemma dt_leb_trans a b c : dt_leb a b = true -> dt_leb b c = true -> dt_leb a c = true.
Proof. rewrite !dt_leb_iff. lia. Qed.

Lemma dt_leb_refl a : dt_leb a a = true.
Proof. apply dt_leb_iff. lia. Qed.

Lemma last_by_time_from best rows r :
  fold_left (fun acc x =>
               match acc with
               | None => Some x
               | Some b => if dt_ltb (sd_Time_Stamp b) (sd_Time_Stamp x)
                           then Some x else Some b
               end) rows (Some best) = Some r ->
  (r = best \/ In r rows)
  /\ dt_leb (sd_Time_Stamp best) (sd_Time_Stamp r) = true
  /\ forall x, In x rows -> dt_leb (sd_Time_Stamp x) (sd_Time_Stamp r) = true.
Proof.
  revert best. induction rows as [|y rows IH]; intros best; simpl.
  - intro H. injection H as <-. split; [left; reflexivity|].
    split; [apply dt_leb_refl|]. intros x [].
  - destruct (dt_ltb (sd_Time_Stamp best) (sd_Time_Stamp y)) eqn:E; intro H;
      destruct (IH _ H) as [Hin [Hle Hall]].
    + split; [right; destruct Hin as [->|Hin]; [left; reflexivity|right; exact Hin]|].
      split; [exact (dt_leb_trans _ _ _ (dt_ltb_leb _ _ E) Hle)|].
      intros x [<-|Hx]; [exact Hle|exact (Hall x Hx)].
    + split; [destruct Hin as [->|Hin]; [left; reflexivity|right; right; exact Hin]|].
      split; [exact Hle|].
      intros x [<-|Hx]; [|exact (Hall x Hx)].
      exact (dt_leb_trans _ _ _ (dt_not_ltb_leb _ _ E) Hle).
Qed.

(** [ORDER BY "Time_Stamp" DESC LIMIT 1] returns a row of the table that
    no other row is later than; it returns one as soon as there is one. *)
Lemma last_by_time_latest rows r :
  last_by_time rows = Some r ->
  In r rows /\ forall x, In x rows -> dt_leb (sd_Time_Stamp x) (sd_Time_Stamp r) = true.
Proof.
  destruct rows as [|y rows]; [discriminate|]. unfold last_by_time. simpl.
  intro H. destruct (last_by_time_from _ _ _ H) as [Hin [Hle Hall]].
  split; [destruct Hin as [->|Hin]; [left; reflexivity|right; exact Hin]|].
  intros x [<-|Hx]; [exact Hle|exact (Hall x Hx)].
Qed.

Lemma last_by_time_some rows : rows <> [] -> exists r, last_by_time rows = Some r.
Proof.
  destruct rows as [|y rows]; [contradiction|]. intros _.
  unfold last_by_time. simpl. generalize y. induction rows as [|z rows IH]; intro b.
  - exists b. reflexivity.
  - simpl. destruct (dt_ltb (sd_Time_Stamp b) (sd_Time_Stamp z)); apply IH.
Qed.

(** ** The date of the cumulative-status KPIs *)

Lemma max_date_nil rows : max_date rows = None <-> rows = [].
Proof.
  destruct rows as [|r rows]; simpl; [tauto|].
  split; [|discriminate]. destruct (max_date rows); discriminate.
Qed.

(** [MAX("Time_Stamp"::date)] is a date of the table and bounds all of
    them. *)
Lemma max_date_spec rows m :
  max_date rows = Some m ->
  In m (map (fun r => date_of (sd_Time_Stamp r)) rows)
  /\ forall r, In r rows -> date_of (sd_Time_Stamp r) <= m.
Proof.
  revert m. induction rows as [|x rows IH]; simpl; [discriminate|].
  intros m. destruct (max_date rows) as [m'|] eqn:E.
  - intro H. injection H as <-. destruct (IH m' eq_refl) as [Hin Hle].
    split.
    + destruct (Z.max_spec (date_of (sd_Time_Stamp x)) m') as [[_ ->]|[_ ->]];
        [right; exact Hin|left; reflexivity].
    + intros r [<-|Hr]; [apply Z.le_max_l|].
      specialize (Hle r Hr). lia.
  - intro H. injection H as <-. apply max_date_nil in E. subst rows.
    split; [left; reflexivity|]. intros r [<-|[]]. lia.
Qed.

Lemma count_today_pos (rows : list Sts_Dados_row) today :
  (0 <? sql_count (filter (fun r => date_of (sd_Time_Stamp r) =? today) rows)) = true
  <-> exists r, In r rows /\ date_of (sd_Time_Stamp r) = today.
Proof.
  unfold sql_count. split.
  - intro H. apply Z.ltb_lt in H.
    destruct (filter _ rows) as [|r l] eqn:E; [simpl in H; lia|].
    assert (Hin : In r (filter (fun r => date_of (sd_Time_Stamp r) =? today) rows))
      by (rewrite E; left; reflexivity).
    apply filter_In in Hin. destruct Hin as [Hin Hd]. apply Z.eqb_eq in Hd.
    exists r. split; assumption.
  - intros [r [Hin Hd]]. apply Z.ltb_lt.
    assert (Hf : In r (filter (fun r => date_of (sd_Time_Stamp r) =? today) rows))
      by (apply filter_In; split; [exact Hin|apply Z.eqb_eq; exact Hd]).
    destruct (filter _ rows); [destruct Hf|]. simpl length. lia.
Qed.

Lemma sts_on_nil d day : Sts_Dados d = [] -> sts_last_query d day = Ok [].
Proof. intro H. unfold sts_last_query, sts_on. rewrite H. reflexivity. Qed.

Lemma cell_float_no_row {R : Type} env n (f : R -> option Q) :
  cell_float (frame_of env (Ok []) n) f = 0%Q.
Proof. unfold frame_of, cell_float. destruct (up env n); reflexivity. Qed.

(** C3, amended: the resolver never fails and yields two dates. With both
    statements answered, [latest_date], the date of the main "hoje" KPIs, is
    the maximum date of the source (today if the source is empty), whether
    or not a row is stamped today; [resumo_exec_date], the date of the
    executive-summary KPIs, is today when a row is stamped today and
    [latest_date] otherwise. A failing latest-date statement makes both
    dates today; a failing today-check statement is read as "no row
    today". Each family of KPIs shows the last record of its date, and
    with an empty source all of them are zero. *)
Theorem C3_dates_of_the_cumulative_status_kpis :
  forall env n,
    let today := date_of (now env) in
    let rows := Sts_Dados (db env) in
    let day := fun r => date_of (sd_Time_Stamp r) in
    exists latest resumo,
      resolve_dates env n = (Ok (latest, resumo), (2 + n)%nat)
      /\ (up env n = true -> up env (S n) = true ->
          (rows = [] -> latest = today /\ resumo = today)
          /\ (rows <> [] ->
              In latest (map day rows) /\ forall r, In r rows -> day r <= latest)
          /\ ((exists r, In r rows /\ day r = today) -> resumo = today)
          /\ ((forall r, In r rows -> day r <> today) -> resumo = latest))
      /\ (up env (S n) = false -> latest = today /\ resumo = today)
      /\ (up env n = false -> resumo = latest)
      /\ forall sd ed cf, exists k,
           fst (get_operational_kpis env sd ed cf n) = Ok k
           /\ (forall r, up env (2 + n) = true ->
                 last_by_time (sts_on (db env) latest) = Some r ->
                 quilos_lavados_hoje_raw k = py_round (coalesce (sd_D3 r) 0) 0
                 /\ ciclos_hoje k = py_int (coalesce (sd_D2 r) 0)
                 /\ litros_agua_hoje_raw k = py_round (coalesce (sd_D1 r) 0 * 1000) 0)
           /\ (forall r, up env (4 + n) = true ->
                 last_by_time (sts_on (db env) resumo) = Some r ->
                 quilos_lavados_resumo_raw k = py_round (coalesce (sd_D3 r) 0) 0
                 /\ ciclos_resumo k = py_int (coalesce (sd_D2 r) 0)
                 /\ litros_agua_resumo_raw k = py_round (coalesce (sd_D1 r) 0 * 1000) 0)
           /\ (rows = [] ->
               (quilos_lavados_hoje_raw k == 0 /\ litros_agua_hoje_raw k == 0
                /\ litros_por_kg_hoje k == 0 /\ peso_medio_hoje k == 0
                /\ quilos_lavados_resumo_raw k == 0 /\ litros_agua_resumo_raw k == 0
                /\ litros_por_kg_resumo k == 0 /\ peso_medio_resumo k == 0)%Q
               /\ ciclos_hoje k = 0 /\ ciclos_resumo k = 0).
Proof.
  intros env n today rows day.
  exists (latest_date_of env n), (resumo_exec_date_of env n).
  split; [apply resolve_dates_run|].
  split; [|split; [|split]].
  - intros U0 U1.
    unfold resumo_exec_date_of, has_today_data_of, latest_date_of,
      sts_dados_hoje_check_query, sts_dados_hoje_query.
    rewrite !frame_of_up by assumption. cbn [cell iloc0]. fold today rows.
    split; [|split; [|split]].
    + intros ->. split; reflexivity.
    + intro Hne. destruct (max_date rows) as [m|] eqn:E.
      * exact (max_date_spec _ _ E).
      * apply max_date_nil in E. contradiction.
    + intro Hex. apply count_today_pos in Hex. fold day in Hex. rewrite Hex. reflexivity.
    + intro Hnone.
      destruct (0 <? sql_count (filter (fun r => date_of (sd_Time_Stamp r) =? today) rows))
        eqn:E; [|reflexivity].
      apply count_today_pos in E. destruct E as [r [Hin Hd]].
      exfalso. exact (Hnone r Hin Hd).
  - intro U1. unfold resumo_exec_date_of, latest_date_of.
    rewrite (frame_of_down _ _ _ U1). cbn [iloc0]. fold today.
    split; [reflexivity|]. destruct (has_today_data_of env n); reflexivity.
  - intro U0. unfold resumo_exec_date_of, has_today_data_of.
    rewrite (frame_of_down _ _ _ U0). reflexivity.
  - intros sd ed cf. rewrite get_operational_kpis_run. cbv zeta.
    eexists. split; [reflexivity|].
    unfold kpis_of_frames.
    cbn [quilos_lavados_hoje_raw ciclos_hoje litros_agua_hoje_raw litros_por_kg_hoje
         peso_medio_hoje quilos_lavados_resumo_raw ciclos_resumo
         litros_agua_resumo_raw litros_por_kg_resumo peso_medio_resumo].
    split; [|split].
    + intros r U Hr. rewrite sts_last_query_eq, Hr, !cell_float_frame_of, U.
      repeat split.
    + intros r U Hr. rewrite sts_last_query_eq, Hr, !cell_float_frame_of, U.
      repeat split.
    + intro Hrows. fold rows in Hrows. rewrite !(sts_on_nil _ _ Hrows).
      rewrite !cell_float_no_row.
      repeat split; try apply py_round_0; reflexivity.
Qed.

Lemma C3_witness :
  exists latest resumo,
    resolve_dates c3_old_env 0%nat = (Ok (latest, resumo), 2%nat)
    /\ resumo = latest
    /\ In latest (map (fun r => date_of (sd_Time_Stamp r)) (Sts_Dados (db c3_old_env))).
Proof.
  destruct (C3_dates_of_the_cumulative_status_kpis c3_old_env 0%nat)
    as [latest [resumo [Hrun [Hup _]]]].
  destruct (Hup eq_refl eq_refl) as [_ [Hmax [_ Hnone]]].
  exists latest, resumo. split; [exact Hrun|]. split.
  - apply Hnone. intros r [<-|[]]. vm_compute. discriminate.
  - apply Hmax. discriminate.
Defined.

(** C3 as stated fails: with a poll stamped today and one stamped on the
    next day, the main "hoje" KPIs are read at the later date (7 kg), not
    at today's (500 kg); only the executive-summary KPIs use today. *)
Lemma C3_counterexample_hoje_reads_latest_date :
  (exists r, In r (Sts_Dados (db c3_env))
             /\ date_of (sd_Time_Stamp r) = date_of (now c3_env))
  /\ resolve_dates c3_env 0%nat = (Ok (jan 11, jan 10), 2%nat)
  /\ jan 11 <> date_of (now c3_env)
  /\ (quilos_lavados_hoje_raw c3_kpis == 7)%Q
  /\ ~ (quilos_lavados_hoje_raw c3_kpis == 500)%Q
  /\ (quilos_lavados_resumo_raw c3_kpis == 500)%Q.
Proof.
  split; [eexists; split; [left; reflexivity|reflexivity]|].
  split; [vm_compute; reflexivity|].
  split; [vm_compute; discriminate|].
  split; [vm_compute; reflexivity|].
  split; [vm_compute; discriminate|vm_compute; reflexivity].
Qed.

(** The scenario of the specification: no poll today, polls three days
    before; both families of KPIs show the values of that day. *)
Lemma fallback_to_three_days_before :
  resolve_dates c3_old_env 0%nat = (Ok (jan 7, jan 7), 2%nat)
  /\ (quilos_lavados_hoje_raw
        (kpis_of (get_operational_kpis c3_old_env None None None)) == 500)%Q
  /\ (quilos_lavados_resumo_raw
        (kpis_of (get_operational_kpis c3_old_env None None None)) == 500)%Q.
Proof. repeat split; vm_compute; reflexivity. Qed.

(** C1 at work on a non-zero numerator: 180 litres of water over 0 kg give
    0 litres per kilogram. *)
Lemma C1_witness :
  exists r,
    fst (generate_executive_report c4_env (Some (midnight (jan 1)))
                                   (Some (midnight (jan 7))) 0%nat) = Ok r
    /\ (water_period r == 180)%Q /\ (water_per_kg r == 0)%Q.
Proof.
  destruct (proj1 C1_zero_denominator_yields_zero c4_env (midnight (jan 1))
                  (midnight (jan 7)) (midnight (jan 8)) 0%nat) as [r [Hr [_ [Hkg _]]]].
  exists r. split; [|split].
  - unfold generate_executive_report, bindM, lift, try_exceptM.
    change (report_window c4_env (Some (midnight (jan 1))) (Some (midnight (jan 7))))
      with (Ok (midnight (jan 1), midnight (jan 7), midnight (jan 8)) : result _).
    cbv beta iota. rewrite Hr. reflexivity.
  - apply (f_equal fst) in Hr. cbn [fst] in Hr.
    assert (E : Ok r = fst (report_body c4_env (midnight (jan 1)) (midnight (jan 7))
                              (midnight (jan 8)) 0%nat)) by (symmetry; exact Hr).
    vm_compute in E. injection E as ->. vm_compute. reflexivity.
  - apply Hkg. apply (f_equal fst) in Hr. cbn [fst] in Hr.
    assert (E : Ok r = fst (report_body c4_env (midnight (jan 1)) (midnight (jan 7))
                              (midnight (jan 8)) 0%nat)) by (symmetry; exact Hr).
    vm_compute in E. injection E as ->. vm_compute. reflexivity.
Defined.

(** * The client aliases *)

(** ** The table *)

Lemma lookup_alias_cons k a t id :
  lookup_alias ((k, a) :: t) id = if k =? id then Some a else lookup_alias t id.
Proof. unfold lookup_alias. simpl. destruct (k =? id); reflexivity. Qed.

Lemma lookup_upsert_same cid alias t :
  lookup_alias (upsert_row cid alias t) cid = Some alias.
Proof.
  induction t as [|[k a] t IH]; simpl.
  - rewrite lookup_alias_cons, Z.eqb_refl. reflexivity.
  - destruct (k =? cid) eqn:E; rewrite lookup_alias_cons, E; [reflexivity|exact IH].
Qed.

Lemma lookup_upsert_other cid alias t id :
  id <> cid -> lookup_alias (upsert_row cid alias t) id = lookup_alias t id.
Proof.
  intro Hne. induction t as [|[k a] t IH]; simpl.
  - rewrite lookup_alias_cons.
    destruct (cid =? id) eqn:E; [apply Z.eqb_eq in E; congruence|reflexivity].
  - destruct (k =? cid) eqn:E; rewrite !lookup_alias_cons.
    + apply Z.eqb_eq in E. subst k.
      destruct (cid =? id) eqn:E'; [apply Z.eqb_eq in E'; congruence|reflexivity].
    + rewrite IH. reflexivity.
Qed.

Lemma In_keys_upsert cid alias t x :
  In x (keys (upsert_row cid alias t)) <-> x = cid \/ In x (keys t).
Proof.
  induction t as [|[k a] t IH]; simpl.
  - split; [intros [H|[]]; left; congruence|intros [H|[]]; left; congruence].
  - destruct (k =? cid) eqn:E; simpl.
    + apply Z.eqb_eq in E. subst k. intuition congruence.
    + rewrite IH. tauto.
Qed.

Lemma NoDup_keys_upsert cid alias t :
  NoDup (keys t) -> NoDup (keys (upsert_row cid alias t)).
Proof.
  induction t as [|[k a] t IH]; simpl; intro H.
  - constructor; [intros []|constructor].
  - inversion H as [|? ? Hk Ht]; subst.
    destruct (k =? cid) eqn:E; simpl.
    + constructor; assumption.
    + constructor; [|apply IH; exact Ht].
      intro Hin. apply In_keys_upsert in Hin. destruct Hin as [->|Hin].
      * rewrite Z.eqb_refl in E. discriminate.
      * exact (Hk Hin).
Qed.

Lemma lookup_delete_same cid t : lookup_alias (delete_row cid t) cid = None.
Proof.
  induction t as [|[k a] t IH]; simpl; [reflexivity|].
  destruct (k =? cid) eqn:E; simpl; [exact IH|].
  rewrite lookup_alias_cons, E. exact IH.
Qed.

Lemma lookup_delete_other cid t id :
  id <> cid -> lookup_alias (delete_row cid t) id = lookup_alias t id.
Proof.
  intro Hne. induction t as [|[k a] t IH]; simpl; [reflexivity|].
  destruct (k =? cid) eqn:E; simpl; rewrite ?lookup_alias_cons.
  - apply Z.eqb_eq in E. subst k.
    destruct (cid =? id) eqn:E'; [apply Z.eqb_eq in E'; congruence|exact IH].
  - rewrite IH. reflexivity.
Qed.

Lemma NoDup_keys_delete cid t : NoDup (keys t) -> NoDup (keys (delete_row cid t)).
Proof.
  induction t as [|[k a] t IH]; simpl; intro H; [constructor|].
  inversion H as [|? ? Hk Ht]; subst.
  destruct (k =? cid); simpl; [apply IH; exact Ht|].
  constructor; [|apply IH; exact Ht].
  intro Hin. apply Hk. unfold keys, delete_row in *.
  apply in_map_iff in Hin. destruct Hin as [p [Hp Hin]].
  apply filter_In in Hin. apply in_map_iff. exists p. tauto.
Qed.

(** Under the primary key a row is found by its key alone. *)
Lemma lookup_alias_In t id a :
  NoDup (keys t) -> (lookup_alias t id = Some a <-> In (id, a) t).
Proof.
  induction t as [|[k b] t IH]; simpl; intro H.
  - split; [discriminate|intros []].
  - inversion H as [|? ? Hk Ht]; subst. rewrite lookup_alias_cons.
    destruct (k =? id) eqn:E.
    + apply Z.eqb_eq in E. subst k. split.
      * intro Hs. left. congruence.
      * intros [Hs|Hin]; [congruence|].
        exfalso. apply Hk. apply in_map_iff. exists (id, a). split; [reflexivity|exact Hin].
    + rewrite (IH Ht). split; [tauto|].
      intros [Hs|Hin]; [|exact Hin].
      injection Hs as -> ->. rewrite Z.eqb_refl in E. discriminate.
Qed.

Lemma lookup_alias_None t id : lookup_alias t id = None <-> ~ In id (keys t).
Proof.
  induction t as [|[k b] t IH]; simpl.
  - split; [intros _ []|reflexivity].
  - rewrite lookup_alias_cons. destruct (k =? id) eqn:E.
    + apply Z.eqb_eq in E. split; [discriminate|intro H; exfalso; apply H; left; exact E].
    + rewrite IH. apply Z.eqb_neq in E. tauto.
Qed.

(** Two tables with the same rows and the primary key answer alike. *)
Lemma lookup_alias_same_rows t t' id :
  NoDup (keys t) -> NoDup (keys t') -> (forall p, In p t' <-> In p t) ->
  lookup_alias t' id = lookup_alias t id.
Proof.
  intros H H' Hin.
  destruct (lookup_alias t id) as [a|] eqn:E.
  - apply (lookup_alias_In _ _ _ H') , Hin, (lookup_alias_In _ _ _ H). exact E.
  - apply lookup_alias_None. intro Hk. apply lookup_alias_None in E. apply E.
    unfold keys in *. apply in_map_iff in Hk. destruct Hk as [p [Hp Hk]].
    apply in_map_iff. exists p. split; [exact Hp|apply Hin; exact Hk].
Qed.

(** ** Dictionaries *)

Lemma dict_get_set k v m id :
  dict_get (dict_set k v m) id = if k =? id then Some v else dict_get m id.
Proof.
  induction m as [|[k' v'] m IH]; simpl; [reflexivity|].
  destruct (k' =? k) eqn:E; simpl.
  - apply Z.eqb_eq in E. subst k'. destruct (k =? id); reflexivity.
  - rewrite IH. destruct (k' =? id) eqn:E'; [|reflexivity].
    apply Z.eqb_eq in E'. subst k'. rewrite Z.eqb_sym, E. reflexivity.
Qed.

Lemma dict_get_fold rows m id :
  dict_get (fold_left (fun m p => dict_set (fst p) (snd p) m) rows m) id
  = match last_value rows id with Some v => Some v | None => dict_get m id end.
Proof.
  revert m. induction rows as [|p rows IH]; intro m; simpl; [reflexivity|].
  rewrite IH, dict_get_set. destruct (last_value rows id); [reflexivity|].
  destruct (fst p =? id); reflexivity.
Qed.

Lemma last_value_lookup rows id :
  NoDup (keys rows) -> last_value rows id = lookup_alias rows id.
Proof.
  induction rows as [|[k a] rows IH]; simpl; intro H; [reflexivity|].
  inversion H as [|? ? Hk Ht]; subst. rewrite lookup_alias_cons, (IH Ht).
  destruct (k =? id) eqn:E; [|destruct (lookup_alias rows id); reflexivity].
  apply Z.eqb_eq in E. subst k.
  apply lookup_alias_None in Hk. rewrite Hk. reflexivity.
Qed.

Lemma dict_of_rows_get rows id :
  NoDup (keys rows) -> dict_get (dict_of_rows rows) id = lookup_alias rows id.
Proof.
  intro H. unfold dict_of_rows. rewrite dict_get_fold, (last_value_lookup _ _ H).
  destruct (lookup_alias rows id); reflexivity.
Qed.

(** ** ORDER BY client_id *)

Lemma In_insert_asc p x l : In x (insert_asc p l) <-> x = p \/ In x l.
Proof.
  induction l as [|y l IH]; simpl.
  - split; [intros [H|[]]; left; congruence|intros [H|[]]; left; congruence].
  - destruct (fst p <=? fst y); simpl; [split; intros [H|H]; auto|].
    rewrite IH. tauto.
Qed.

Lemma In_order_by_client_id x l : In x (order_by_client_id l) <-> In x l.
Proof.
  induction l as [|y l IH]; simpl; [tauto|].
  rewrite In_insert_asc, IH. split; intros [H|H]; auto.
Qed.

Lemma NoDup_keys_insert_asc p l :
  ~ In (fst p) (keys l) -> NoDup (keys l) -> NoDup (keys (insert_asc p l)).
Proof.
  induction l as [|y l IH]; simpl; intros Hp H.
  - constructor; [intros []|constructor].
  - destruct (fst p <=? fst y); simpl.
    + constructor; assumption.
    + inversion H as [|? ? Hy Hl]; subst. constructor.
      * intro Hin. unfold keys in Hin. apply in_map_iff in Hin.
        destruct Hin as [q [Hq Hin]]. apply In_insert_asc in Hin.
        destruct Hin as [->|Hin]; [apply Hp; left; symmetry; exact Hq|].
        apply Hy. apply in_map_iff. exists q. split; assumption.
      * apply IH; [|exact Hl]. intro Hin. apply Hp. right. exact Hin.
Qed.

Lemma NoDup_keys_order_by l : NoDup (keys l) -> NoDup (keys (order_by_client_id l)).
Proof.
  induction l as [|y l IH]; simpl; intro H; [constructor|].
  inversion H as [|? ? Hy Hl]; subst.
  apply NoDup_keys_insert_asc; [|apply IH; exact Hl].
  intro Hin. apply Hy. unfold keys in *. apply in_map_iff in Hin.
  destruct Hin as [q [Hq Hin]]. apply (proj1 (In_order_by_client_id q l)) in Hin.
  apply in_map_iff. exists q. split; [exact Hq|exact Hin].
Qed.

Lemma lookup_order_by l id :
  NoDup (keys l) -> lookup_alias (order_by_client_id l) id = lookup_alias l id.
Proof.
  intro H. apply lookup_alias_same_rows; [exact H|apply NoDup_keys_order_by; exact H|].
  intro p. apply In_order_by_client_id.
Qed.

(** ** str.strip *)

Lemma lstrip_head s :
  lstrip s = EmptyString \/ exists c t, lstrip s = String c t /\ is_space c = false.
Proof.
  induction s as [|c s IH]; simpl; [left; reflexivity|].
  destruct (is_space c) eqn:E; [exact IH|].
  right. exists c, s. split; [reflexivity|exact E].
Qed.

Lemma rstrip_head c t :
  is_space c = false -> exists u, rstrip (String c t) = String c u.
Proof.
  intro E. simpl. destruct (rstrip t); [rewrite E|]; eexists; reflexivity.
Qed.

Lemma rstrip_idem s : rstrip (rstrip s) = rstrip s.
Proof.
  induction s as [|c s IH]; simpl; [reflexivity|].
  destruct (rstrip s) as [|d u] eqn:E.
  - destruct (is_space c) eqn:Ec; simpl; [reflexivity|rewrite Ec; reflexivity].
  - change (rstrip (String c (String d u))) with
      (match rstrip (String d u) with
       | EmptyString => if is_space c then EmptyString else String c EmptyString
       | t => String c t
       end).
    rewrite IH. reflexivity.
Qed.

Lemma strip_idem s : strip (strip s) = strip s.
Proof.
  unfold strip. destruct (lstrip_head s) as [E|[c [t [E Hc]]]]; rewrite E.
  - reflexivity.
  - destruct (rstrip_head c t Hc) as [u Hu]. rewrite Hu. simpl lstrip. rewrite Hc.
    rewrite <- Hu. apply rstrip_idem.
Qed.

Lemma nonempty_strip s : nonempty (strip s) = true -> nonempty s = true.
Proof. destruct s; [discriminate|reflexivity]. Qed.

(** ** save_client_name *)

Lemma env_after_catalog (res : bool) (env' : Env) (n' : nat) :
  env_after (let '(catalog, n'') := get_client_catalog env' n' in
             (Updated (components_of res catalog), env', n'')) = env'.
Proof. destruct (get_client_catalog env' n'). reflexivity. Qed.

Lemma save_named env n_clicks selected_id manual_id a cid n :
  truthy n_clicks = true ->
  selected_id = Some cid \/ (selected_id = None /\ manual_id = Some cid) ->
  nonempty (strip a) = true -> in_int4 cid = true -> up env n = true ->
  env_after (save_client_name env n_clicks selected_id manual_id (Some a) n)
  = with_aliases env (upsert_row cid (strip a) (client_alias (db env))).
Proof.
  intros Hc Hid Ha Hr Hu. unfold save_client_name. rewrite Hc. cbn [negb].
  assert (E : match selected_id with Some _ => selected_id | None => manual_id end
              = Some cid) by (destruct Hid as [->|[-> ->]]; reflexivity).
  rewrite E, Ha, (nonempty_strip _ Ha). cbn [andb].
  unfold upsert_client_mapping. rewrite Hu, Hr. cbn [andb].
  apply env_after_catalog.
Qed.

Lemma save_blank env n_clicks selected_id manual_id alias_value cid n :
  truthy n_clicks = true ->
  selected_id = Some cid \/ (selected_id = None /\ manual_id = Some cid) ->
  match alias_value with Some a => nonempty (strip a) | None => false end = false ->
  up env n = true ->
  env_after (save_client_name env n_clicks selected_id manual_id alias_value n)
  = with_aliases env (delete_row cid (client_alias (db env))).
Proof.
  intros Hc Hid Ha Hu. unfold save_client_name. rewrite Hc. cbn [negb].
  assert (E : match selected_id with Some _ => selected_id | None => manual_id end
              = Some cid) by (destruct Hid as [->|[-> ->]]; reflexivity).
  rewrite E.
  assert (B : match alias_value with
              | Some a => nonempty a && nonempty (strip a)
              | None => false
              end = false).
  { destruct alias_value as [a|]; [rewrite Ha; apply andb_false_r|reflexivity]. }
  rewrite B, Hu. apply env_after_catalog.
Qed.

Lemma In_prod_client_sql d lo hi rows row :
  prod_client_sql d lo hi = Ok rows -> In row rows ->
  client_display row = client_display_of (client_alias d) (client_id row).
Proof.
  intros Hq Hin. unfold prod_client_sql in Hq. injection Hq as <-.
  apply In_order_by_desc in Hin. apply in_map_iff in Hin.
  destruct Hin as [[id loads] [<- _]]. reflexivity.
Qed.

(** X1: once [save_client_name] has stored a name for a client, every row
    of that client in the client table of the report carries the name,
    stripped of the blanks around it; the rows of the other clients are
    named as before, and the loads are untouched. *)
Theorem saved_name_is_displayed env n_clicks selected_id manual_id a cid n lo hi :
  truthy n_clicks = true ->
  selected_id = Some cid \/ (selected_id = None /\ manual_id = Some cid) ->
  nonempty (strip a) = true -> in_int4 cid = true -> up env n = true ->
  let env' := env_after (save_client_name env n_clicks selected_id manual_id (Some a) n) in
  Rel_Carga (db env') = Rel_Carga (db env)
  /\ forall rows row,
       prod_client_sql (db env') lo hi = Ok rows -> In row rows ->
       client_display row
       = if client_id row =? cid then strip a
         else client_display_of (client_alias (db env)) (client_id row).
Proof.
  intros Hc Hid Ha Hr Hu env'. subst env'.
  rewrite (save_named _ _ _ _ _ _ _ Hc Hid Ha Hr Hu).
  split; [reflexivity|]. intros rows row Hq Hin.
  rewrite (In_prod_client_sql _ _ _ _ _ Hq Hin). cbn [with_aliases db client_alias].
  unfold client_display_of. destruct (client_id row =? cid) eqn:E.
  - apply Z.eqb_eq in E. rewrite E, lookup_upsert_same. reflexivity.
  - apply Z.eqb_neq in E. rewrite (lookup_upsert_other _ _ _ _ E). reflexivity.
Qed.

Lemma saved_name_is_displayed_witness :
  let env' := env_after (save_client_name alias_env (Some 1) (Some 7) None
                                          (Some "  Hotel Sol "%string) 0%nat) in
  Rel_Carga (db env') = Rel_Carga (db alias_env)
  /\ forall rows row,
       prod_client_sql (db env') (midnight (jan 1)) (midnight (jan 8)) = Ok rows ->
       In row rows ->
       client_display row
       = if client_id row =? 7 then strip "  Hotel Sol "
         else client_display_of (client_alias (db alias_env)) (client_id row).
Proof.
  apply (saved_name_is_displayed alias_env (Some 1) (Some 7) None "  Hotel Sol " 7 0%nat
           (midnight (jan 1)) (midnight (jan 8)));
    [reflexivity|left; reflexivity|reflexivity|reflexivity|reflexivity].
Defined.

(** X2: saving a blank name for a client (nothing, an empty text, or
    blanks only) deletes the stored name: the client is displayed again as
    "Cliente " followed by the identifier, and the names of the other
    clients stay. *)
Theorem blank_name_restores_the_identifier
    env n_clicks selected_id manual_id alias_value cid n :
  truthy n_clicks = true ->
  selected_id = Some cid \/ (selected_id = None /\ manual_id = Some cid) ->
  match alias_value with Some a => nonempty (strip a) | None => false end = false ->
  up env n = true ->
  let env' := env_after (save_client_name env n_clicks selected_id manual_id alias_value n) in
  client_display_of (client_alias (db env')) cid = ("Cliente " ++ text_of_int cid)%string
  /\ forall id, id <> cid ->
       client_display_of (client_alias (db env')) id
       = client_display_of (client_alias (db env)) id.
Proof.
  intros Hc Hid Ha Hu env'. subst env'.
  rewrite (save_blank _ _ _ _ _ _ _ Hc Hid Ha Hu). cbn [with_aliases db client_alias].
  unfold client_display_of. split.
  - rewrite lookup_delete_same. reflexivity.
  - intros id Hne. rewrite (lookup_delete_other _ _ _ Hne). reflexivity.
Qed.

Lemma blank_name_restores_the_identifier_witness :
  let env' := env_after (save_client_name alias_env (Some 2) None (Some 3)
                                          (Some "   "%string) 0%nat) in
  client_display_of (client_alias (db env')) 3 = ("Cliente " ++ text_of_int 3)%string
  /\ forall id, id <> 3 ->
       client_display_of (client_alias (db env')) id
       = client_display_of (client_alias (db alias_env)) id.
Proof.
  apply (blank_name_restores_the_identifier alias_env (Some 2) None (Some 3)
           (Some "   "%string) 3 0%nat);
    [reflexivity|right; split; reflexivity|reflexivity|reflexivity].
Defined.

(** ** The primary key *)

Lemma save_client_name_table env n_clicks selected_id manual_id alias_value n :
  let t := client_alias (db env) in
  let t' := client_alias
              (db (env_after (save_client_name env n_clicks selected_id manual_id
                                               alias_value n))) in
  t' = t
  \/ (exists cid, t' = delete_row cid t)
  \/ (exists cid a, alias_value = Some a /\ nonempty (strip a) = true
                    /\ t' = upsert_row cid (strip a) t).
Proof.
  cbv zeta. unfold save_client_name.
  destruct (negb (truthy n_clicks)); [left; reflexivity|].
  destruct (match selected_id with Some _ => selected_id | None => manual_id end)
    as [cid|]; [|left; reflexivity].
  destruct alias_value as [a|].
  - destruct (nonempty a && nonempty (strip a)) eqn:B.
    + unfold upsert_client_mapping. destruct (up env n && in_int4 cid);
        rewrite env_after_catalog; [|left; reflexivity].
      right; right. exists cid, a. apply andb_true_iff in B.
      split; [reflexivity|]. split; [apply B|reflexivity].
    + destruct (up env n); rewrite env_after_catalog; [|left; reflexivity].
      right; left. exists cid. reflexivity.
  - destruct (up env n); rewrite env_after_catalog; [|left; reflexivity].
    right; left. exists cid. reflexivity.
Qed.

(** X3: whatever their arguments and whatever statements fail,
    [upsert_client_mapping], [save_client_name] and [clear_all_aliases]
    leave a table in which no client has two names. *)
Theorem alias_table_keeps_its_primary_key
    env n_clicks selected_id manual_id alias_value cid alias n :
  NoDup (keys (client_alias (db env))) ->
  NoDup (keys (client_alias (db (env_after (upsert_client_mapping env cid alias n)))))
  /\ NoDup (keys (client_alias
                    (db (env_after (save_client_name env n_clicks selected_id manual_id
                                                     alias_value n)))))
  /\ NoDup (keys (client_alias (db (env_after (clear_all_aliases env n_clicks n))))).
Proof.
  intro H. split; [|split].
  - unfold upsert_client_mapping. destruct (up env n && in_int4 cid); [|exact H].
    apply NoDup_keys_upsert. exact H.
  - destruct (save_client_name_table env n_clicks selected_id manual_id alias_value n)
      as [->|[[c ->]|[c [a [_ [_ ->]]]]]].
    + exact H.
    + apply NoDup_keys_delete. exact H.
    + apply NoDup_keys_upsert. exact H.
  - unfold clear_all_aliases. destruct (negb (truthy n_clicks)); [exact H|].
    destruct (up env n); rewrite env_after_catalog; [constructor|exact H].
Qed.

Lemma alias_table_keeps_its_primary_key_witness :
  NoDup (keys (client_alias (db alias_env)))
  /\ NoDup (keys (client_alias
                    (db (env_after (save_client_name alias_env (Some 1) (Some 3) None
                                      (Some "Hospital Sul"%string) 0%nat))))).
Proof.
  assert (H : NoDup (keys (client_alias (db alias_env))))
    by (repeat constructor; intros []).
  split; [exact H|].
  apply (alias_table_keeps_its_primary_key alias_env (Some 1) (Some 3) None
           (Some "Hospital Sul"%string) 3 "Hospital Sul"%string 0%nat H).
Defined.

(** ** load_current_alias *)

Lemma load_current_alias_up env id m :
  NoDup (keys (client_alias (db env))) -> id <> 0 -> up env m = true ->
  load_current_alias env (Some id) m
  = (Some match lookup_alias (client_alias (db env)) id with
          | Some a => a
          | None => EmptyString
          end, S m).
Proof.
  intros H Hid Hu. unfold load_current_alias, truthy, get_client_mappings.
  apply Z.eqb_neq in Hid. rewrite Hid, Hu. cbn [negb].
  rewrite (dict_of_rows_get _ _ (NoDup_keys_order_by _ H)), (lookup_order_by _ _ H).
  reflexivity.
Qed.

(** X4: under the primary key, the name that [save_client_name] stored
    for a client other than client 0 is the text that [load_current_alias]
    puts back into the input when that client is selected, provided its
    statement goes through. *)
Theorem saved_name_is_loaded_back env n_clicks selected_id manual_id a cid n m :
  NoDup (keys (client_alias (db env))) ->
  truthy n_clicks = true ->
  selected_id = Some cid \/ (selected_id = None /\ manual_id = Some cid) ->
  nonempty (strip a) = true -> in_int4 cid = true -> up env n = true ->
  cid <> 0 -> up env m = true ->
  load_current_alias
    (env_after (save_client_name env n_clicks selected_id manual_id (Some a) n))
    (Some cid) m
  = (Some (strip a), S m).
Proof.
  intros H Hc Hid Ha Hr Hu Hz Hm.
  rewrite (save_named _ _ _ _ _ _ _ Hc Hid Ha Hr Hu).
  rewrite load_current_alias_up; [|apply NoDup_keys_upsert; exact H|exact Hz|exact Hm].
  cbn [with_aliases db client_alias]. rewrite lookup_upsert_same. reflexivity.
Qed.

Lemma saved_name_is_loaded_back_witness :
  load_current_alias
    (env_after (save_client_name alias_env (Some 1) (Some 7) None
                                 (Some "  Hotel Sol "%string) 0%nat))
    (Some 7) 3%nat
  = (Some (strip "  Hotel Sol "), 4%nat).
Proof.
  apply (saved_name_is_loaded_back alias_env (Some 1) (Some 7) None "  Hotel Sol " 7
           0%nat 3%nat);
    [repeat constructor; intros []|reflexivity|left; reflexivity|reflexivity
    |reflexivity|reflexivity|discriminate|reflexivity].
Defined.

(** X5: a name can be stored for client 0, yet selecting client 0 never
    loads it: [load_current_alias] takes the identifier 0 for no selection. *)
Theorem client_zero_is_saved_but_never_loaded env n_clicks manual_id a n :
  truthy n_clicks = true -> nonempty (strip a) = true -> up env n = true ->
  let env' := env_after (save_client_name env n_clicks (Some 0) manual_id (Some a) n) in
  lookup_alias (client_alias (db env')) 0 = Some (strip a)
  /\ forall m, load_current_alias env' (Some 0) m = (None, m).
Proof.
  intros Hc Ha Hu env'. subst env'.
  rewrite (save_named _ _ _ manual_id _ 0 _ Hc (or_introl eq_refl) Ha eq_refl Hu).
  split; [apply lookup_upsert_same|reflexivity].
Qed.

Lemma client_zero_is_saved_but_never_loaded_witness :
  let env' := env_after (save_client_name alias_env (Some 1) (Some 0) None
                                          (Some "Avulso"%string) 0%nat) in
  lookup_alias (client_alias (db env')) 0 = Some (strip "Avulso")
  /\ forall m, load_current_alias env' (Some 0) m = (None, m).
Proof.
  apply (client_zero_is_saved_but_never_loaded alias_env (Some 1) None "Avulso" 0%nat);
    reflexivity.
Defined.

(** ** get_client_catalog *)

Lemma add_to_group_keys {R : Type} k (r : R) gs :
  StronglySorted Z.lt (map fst gs) ->
  StronglySorted Z.lt (map fst (add_to_group k r gs))
  /\ forall x, In x (map fst (add_to_group k r gs)) <-> x = k \/ In x (map fst gs).
Proof.
  induction gs as [|[k' g] gs IH]; simpl; intro H.
  - split; [constructor; constructor|]. intro x. intuition congruence.
  - inversion H as [|? ? Hs Hf]; subst. destruct (Z.compare k k') eqn:E; simpl.
    + apply Z.compare_eq in E. subst k'. split; [exact H|]. intro x. intuition congruence.
    + apply Z.compare_lt_iff in E. split; [|intro x; intuition congruence].
      constructor; [exact H|]. constructor; [exact E|].
      eapply Forall_impl; [|exact Hf]. intros y Hy. cbv beta in Hy.
      exact (Z.lt_trans _ _ _ E Hy).
    + apply Z.compare_gt_iff in E. destruct (IH Hs) as [Hs' Hin]. split.
      * constructor; [exact Hs'|]. apply Forall_forall. intros x Hx.
        apply Hin in Hx. destruct Hx as [->|Hx]; [exact E|].
        exact (proj1 (Forall_forall _ _) Hf x Hx).
      * intro x. rewrite Hin. tauto.
Qed.

Lemma group_by_keys {R : Type} (key : R -> Z) rows :
  StronglySorted Z.lt (map fst (group_by key rows))
  /\ forall x, In x (map fst (group_by key rows)) <-> exists r, In r rows /\ key r = x.
Proof.
  induction rows as [|r rows [Hs Hin]]; simpl.
  - split; [constructor|]. intro x. split; [intros []|intros [r [[] _]]].
  - destruct (add_to_group_keys (key r) r _ Hs) as [Hs' Hin']. split; [exact Hs'|].
    intro x. rewrite Hin', Hin. split.
    + intros [->|[r' [Hr' <-]]]; [exists r; auto|exists r'; auto].
    + intros [r' [[<-|Hr'] <-]]; [left; reflexivity|right; exists r'; auto].
Qed.

(** X6: when its two statements go through, [get_client_catalog] lists
    the clients of the loads, each one once and in ascending order of the
    identifier, every one with the name stored for it, if any; it is empty
    as soon as a statement fails. *)
Theorem catalog_lists_each_client_once env n :
  NoDup (keys (client_alias (db env))) ->
  fst (get_client_catalog env n)
  = (if up env n && up env (S n)
     then map (fun id => (id, lookup_alias (client_alias (db env)) id))
              (client_ids (db env))
     else [])
  /\ StronglySorted Z.lt (client_ids (db env))
  /\ forall id, In id (client_ids (db env))
                <-> exists r, In r (Rel_Carga (db env)) /\ rc_C1 r = id.
Proof.
  intro H. split; [|apply group_by_keys].
  unfold get_client_catalog. destruct (up env n); [|reflexivity].
  destruct (up env (S n)); [|reflexivity]. cbn [fst andb].
  apply map_ext. intro id. rewrite (dict_of_rows_get _ _ H). reflexivity.
Qed.

Lemma catalog_lists_each_client_once_witness :
  fst (get_client_catalog alias_env 0%nat)
  = (if up alias_env 0%nat && up alias_env 1%nat
     then map (fun id => (id, lookup_alias (client_alias (db alias_env)) id))
              (client_ids (db alias_env))
     else [])
  /\ StronglySorted Z.lt (client_ids (db alias_env))
  /\ forall id, In id (client_ids (db alias_env))
                <-> exists r, In r (Rel_Carga (db alias_env)) /\ rc_C1 r = id.
Proof.
  apply (catalog_lists_each_client_once alias_env 0%nat).
  repeat constructor; intros [].
Defined.

(** ** The names that are stored *)

Lemma Forall_upsert (P : string -> Prop) cid a t :
  P a -> Forall (fun p => P (snd p)) t ->
  Forall (fun p => P (snd p)) (upsert_row cid a t).
Proof.
  intros Ha. induction t as [|[k b] t IH]; simpl; intro H.
  - constructor; [exact Ha|constructor].
  - inversion H as [|? ? Hb Ht]; subst. destruct (k =? cid).
    + constructor; [exact Ha|exact Ht].
    + constructor; [exact Hb|exact (IH Ht)].
Qed.

Lemma Forall_filter {A : Type} (P : A -> Prop) f (l : list A) :
  Forall P l -> Forall P (filter f l).
Proof.
  intro H. apply Forall_forall. intros x Hx. apply filter_In in Hx.
  exact (proj1 (Forall_forall _ _) H x (proj1 Hx)).
Qed.

(** X7: [save_client_name] keeps the stored names in shape: if no stored
    name is empty or has a blank at either end, none is after the call,
    whatever was typed. *)
Theorem save_client_name_stores_trimmed_names
    env n_clicks selected_id manual_id alias_value n :
  Forall (fun p => trimmed (snd p)) (client_alias (db env)) ->
  Forall (fun p => trimmed (snd p))
         (client_alias (db (env_after (save_client_name env n_clicks selected_id
                                                        manual_id alias_value n)))).
Proof.
  intro H.
  destruct (save_client_name_table env n_clicks selected_id manual_id alias_value n)
    as [->|[[c ->]|[c [a [_ [Ha ->]]]]]].
  - exact H.
  - apply Forall_filter. exact H.
  - apply (Forall_upsert trimmed); [|exact H]. split; [exact Ha|apply strip_idem].
Qed.

Lemma save_client_name_stores_trimmed_names_witness :
  Forall (fun p => trimmed (snd p)) (client_alias (db alias_env))
  /\ Forall (fun p => trimmed (snd p))
            (client_alias (db (env_after (save_client_name alias_env (Some 1) (Some 7) None
                                            (Some "  Hotel Sol "%string) 0%nat)))).
Proof.
  assert (H : Forall (fun p => trimmed (snd p)) (client_alias (db alias_env)))
    by (repeat constructor).
  split; [exact H|].
  exact (save_client_name_stores_trimmed_names alias_env (Some 1) (Some 7) None
           (Some "  Hotel Sol "%string) 0%nat H).
Defined.

(** ** clear_all_aliases *)

(** X8: once the statement of [clear_all_aliases] went through, every
    client is displayed as "Cliente " followed by the identifier, and the
    components it returns show bare identifiers: the label of each option
    is its value, the second cell of each table row repeats the first. *)
Theorem clear_all_aliases_leaves_identifiers env n_clicks n :
  truthy n_clicks = true -> up env n = true ->
  (forall id,
      client_display_of (client_alias (db (env_after (clear_all_aliases env n_clicks n)))) id
      = ("Cliente " ++ text_of_int id)%string)
  /\ exists c,
       output_of (clear_all_aliases env n_clicks n) = Updated c
       /\ alert c = true
       /\ Forall (fun o => fst o = text_of_int (snd o)) (options c)
       /\ forall rows, table_component c = Some rows ->
                       Forall (fun row => snd row = fst row) rows.
Proof.
  intros Hc Hu. unfold clear_all_aliases. rewrite Hc, Hu. cbn [negb].
  rewrite env_after_catalog. split; [reflexivity|].
  set (env' := with_aliases env []).
  assert (Hcat : exists ids, fst (get_client_catalog env' (S n))
                             = map (fun cid : Z => (cid, @None string)) ids).
  { unfold get_client_catalog. destruct (up env' (S n)); [|exists []; reflexivity].
    destruct (up env' (S (S n))); [|exists []; reflexivity].
    exists (client_ids (db env')). reflexivity. }
  destruct Hcat as [ids Hcat].
  destruct (get_client_catalog env' (S n)) as [catalog n'']. cbn [fst] in Hcat.
  subst catalog. eexists. split; [reflexivity|].
  cbn [components_of alert options table_component]. split; [reflexivity|]. split.
  - rewrite map_map. apply Forall_forall. intros o Ho. apply in_map_iff in Ho.
    destruct Ho as [cid [<- _]]. reflexivity.
  - intros rows Hrows. destruct ids as [|i ids]; [discriminate|].
    injection Hrows as <-. rewrite map_map. apply Forall_forall. intros r Hr.
    apply (proj1 (in_map_iff (fun x : Z => table_row (x, None)) (i :: ids) r)) in Hr.
    destruct Hr as [cid [<- _]]. reflexivity.
Qed.

Lemma clear_all_aliases_leaves_identifiers_witness :
  (forall id,
      client_display_of
        (client_alias (db (env_after (clear_all_aliases alias_env (Some 1) 0%nat)))) id
      = ("Cliente " ++ text_of_int id)%string)
  /\ exists c,
       output_of (clear_all_aliases alias_env (Some 1) 0%nat) = Updated c
       /\ alert c = true
       /\ Forall (fun o => fst o = text_of_int (snd o)) (options c)
       /\ forall rows, table_component c = Some rows ->
                       Forall (fun row => snd row = fst row) rows.
Proof.
  apply (clear_all_aliases_leaves_identifiers alias_env (Some 1) 0%nat); reflexivity.
Defined.

(** * The users *)

Import users.

Section UserStore.
Variable md5 : string -> string.

Lemma user_get_cons k v (us : Users) name :
  user_get ((k, v) :: us) name = if String.eqb k name then Some v else user_get us name.
Proof. unfold user_get. simpl. destruct (String.eqb k name); reflexivity. Qed.

Lemma user_get_set_same name u us : user_get (user_set name u us) name = Some u.
Proof.
  induction us as [|[k v] us IH]; simpl.
  - rewrite user_get_cons, String.eqb_refl. reflexivity.
  - destruct (String.eqb k name) eqn:E; rewrite user_get_cons, E; [reflexivity|exact IH].
Qed.

Lemma user_get_set_other name u us other :
  other <> name -> user_get (user_set name u us) other = user_get us other.
Proof.
  intro Hne. induction us as [|[k v] us IH]; simpl.
  - rewrite user_get_cons. destruct (String.eqb name other) eqn:E; [|reflexivity].
    apply String.eqb_eq in E. congruence.
  - destruct (String.eqb k name) eqn:E; rewrite !user_get_cons.
    + apply String.eqb_eq in E. subst k.
      destruct (String.eqb name other) eqn:E'; [|reflexivity].
      apply String.eqb_eq in E'. congruence.
    + rewrite IH. reflexivity.
Qed.

Lemma user_in_get name us : user_in name us = false <-> user_get us name = None.
Proof.
  induction us as [|[k v] us IH]; simpl; [tauto|].
  rewrite user_get_cons. destruct (String.eqb k name); simpl; [|exact IH].
  split; discriminate.
Qed.

Lemma In_names_user_set name u us x :
  In x (map fst (user_set name u us)) <-> x = name \/ In x (map fst us).
Proof.
  induction us as [|[k v] us IH]; simpl.
  - intuition congruence.
  - destruct (String.eqb k name) eqn:E; simpl.
    + apply String.eqb_eq in E. subst k. intuition congruence.
    + rewrite IH. tauto.
Qed.

Lemma NoDup_names_user_set name u us :
  NoDup (map fst us) -> NoDup (map fst (user_set name u us)).
Proof.
  induction us as [|[k v] us IH]; simpl; intro H.
  - constructor; [intros []|constructor].
  - inversion H as [|? ? Hk Ht]; subst. destruct (String.eqb k name) eqn:E; simpl.
    + constructor; assumption.
    + constructor; [|exact (IH Ht)].
      intro Hin. apply In_names_user_set in Hin. destruct Hin as [->|Hin].
      * rewrite String.eqb_refl in E. discriminate.
      * exact (Hk Hin).
Qed.

Lemma add_user_eq now name pw r d :
  add_user md5 now name pw r d
  = if user_in name (fst (load_users md5 now d))
    then (false, snd (load_users md5 now d))
    else (true, save_users (user_set name (mkUser (md5 pw) r now)
                                     (fst (load_users md5 now d)))
                           (snd (load_users md5 now d))).
Proof. unfold add_user. destruct (load_users md5 now d). reflexivity. Qed.

Lemma validate_user_eq now name pw d :
  validate_user md5 now name pw d
  = (match user_get (fst (load_users md5 now d)) name with
     | Some u => String.eqb (u_password u) (md5 pw)
     | None => false
     end, snd (load_users md5 now d)).
Proof.
  unfold validate_user. destruct (load_users md5 now d) as [us d1]. cbn [fst snd].
  destruct (user_get us name); reflexivity.
Qed.

(** The disk after [load_users] stays writable if it was, and then holds
    what was loaded unless the file is unreadable. *)
Lemma load_users_writable now d :
  writable d = true ->
  writable (snd (load_users md5 now d)) = true.
Proof.
  intro H. unfold load_users, save_users.
  destruct (users_json d); cbn [snd]; [rewrite H; reflexivity|exact H|exact H].
Qed.

(** The time of the call matters to the dates of creation only. *)
Lemma user_get_defaults now now' name :
  option_map u_password (user_get (default_users md5 now) name)
  = option_map u_password (user_get (default_users md5 now') name).
Proof.
  unfold default_users. rewrite !user_get_cons.
  destruct (String.eqb "admin" name); [reflexivity|].
  destruct (String.eqb "operador" name); [reflexivity|].
  destruct (String.eqb "supervisor" name); reflexivity.
Qed.

Lemma validate_user_answer now name pw d :
  fst (validate_user md5 now name pw d)
  = match option_map u_password (user_get (fst (load_users md5 now d)) name) with
    | Some h => String.eqb h (md5 pw)
    | None => false
    end.
Proof.
  rewrite validate_user_eq. cbn [fst].
  destruct (user_get (fst (load_users md5 now d)) name); reflexivity.
Qed.

Lemma validate_user_any_time now now' name pw d :
  fst (validate_user md5 now name pw d) = fst (validate_user md5 now' name pw d).
Proof.
  rewrite !validate_user_answer. unfold load_users.
  destruct (users_json d); cbn [fst]; [|reflexivity|reflexivity].
  rewrite (user_get_defaults now now'). reflexivity.
Qed.

Lemma add_user_fresh now name pw r d :
  writable d = true -> user_in name (fst (load_users md5 now d)) = false ->
  add_user md5 now name pw r d
  = (true, mkDisk (Content (user_set name (mkUser (md5 pw) r now)
                                     (fst (load_users md5 now d)))) true).
Proof.
  intros Hw Hf. rewrite add_user_eq, Hf. unfold save_users.
  rewrite (load_users_writable _ _ Hw). reflexivity.
Qed.

(** X9: on a writable disk, a user added under a name not yet taken is
    accepted by [validate_user] with the password given, and the answers
    for every other name are what they were. *)
Theorem added_user_is_validated now now' name pw r d :
  writable d = true -> user_in name (fst (load_users md5 now d)) = false ->
  fst (add_user md5 now name pw r d) = true
  /\ fst (validate_user md5 now' name pw (snd (add_user md5 now name pw r d))) = true
  /\ forall other pw',
       other <> name ->
       fst (validate_user md5 now' other pw' (snd (add_user md5 now name pw r d)))
       = fst (validate_user md5 now' other pw' d).
Proof.
  intros Hw Hf. rewrite (add_user_fresh _ _ _ _ _ Hw Hf). cbn [fst snd].
  split; [reflexivity|]. split.
  - rewrite validate_user_answer. cbn [load_users users_json fst].
    rewrite user_get_set_same. cbn [option_map u_password]. apply String.eqb_refl.
  - intros other pw' Hne. rewrite (validate_user_any_time now' now other pw' d).
    rewrite !validate_user_answer. cbn [load_users users_json fst].
    rewrite (user_get_set_other _ _ _ _ Hne). reflexivity.
Qed.

(** X10: when the file cannot be written, [add_user] still answers that
    the user was created, although the disk is unchanged and
    [validate_user] goes on refusing the new user. *)
Theorem add_user_reports_success_without_saving now now' name pw r d :
  writable d = false -> user_in name (fst (load_users md5 now d)) = false ->
  add_user md5 now name pw r d = (true, d)
  /\ fst (validate_user md5 now' name pw d) = false.
Proof.
  intros Hw Hf.
  assert (Hd : snd (load_users md5 now d) = d).
  { unfold load_users, save_users. destruct (users_json d); cbn [snd]; rewrite ?Hw;
      reflexivity. }
  split.
  - rewrite add_user_eq, Hf, Hd. unfold save_users. rewrite Hw. reflexivity.
  - rewrite (validate_user_any_time now' now), validate_user_answer.
    apply user_in_get in Hf. rewrite Hf. reflexivity.
Qed.

(** X11: [add_user] never touches an existing user: when the file holds a
    dictionary, every user of it is there afterwards with the same record,
    whatever name is added, and no name comes to stand twice. *)
Theorem add_user_keeps_existing_users now name pw r d us :
  users_json d = Content us ->
  exists us',
    users_json (snd (add_user md5 now name pw r d)) = Content us'
    /\ (forall other u, user_get us other = Some u -> user_get us' other = Some u)
    /\ (NoDup (map fst us) -> NoDup (map fst us'))
    /\ (user_in name us = true -> fst (add_user md5 now name pw r d) = false /\ us' = us).
Proof.
  intro Hc. rewrite add_user_eq. unfold load_users. rewrite Hc. cbn [fst snd].
  destruct (user_in name us) eqn:Hin; cbn [snd fst].
  - exists us. split; [exact Hc|]. split; [auto|]. split; [auto|]. intros _. split; reflexivity.
  - unfold save_users. destruct (writable d); cbn [users_json].
    + eexists. split; [reflexivity|]. split; [|split].
      * intros other u Hu. rewrite user_get_set_other; [exact Hu|].
        intros ->. apply user_in_get in Hin. congruence.
      * apply NoDup_names_user_set.
      * discriminate.
    + exists us. split; [exact Hc|]. split; [auto|]. split; [auto|]. discriminate.
Qed.

(** X12: when [users.json] does not exist, [validate_user] accepts the
    three built-in accounts with their built-in passwords, and a writable
    disk then holds exactly those accounts. *)
Theorem missing_file_gives_default_accounts now d :
  users_json d = Missing ->
  fst (validate_user md5 now "admin" "admin123" d) = true
  /\ fst (validate_user md5 now "operador" "operador123" d) = true
  /\ fst (validate_user md5 now "supervisor" "supervisor123" d) = true
  /\ (writable d = true ->
      users_json (snd (validate_user md5 now "admin" "admin123" d))
      = Content (default_users md5 now)).
Proof.
  intro Hm. rewrite !validate_user_eq. unfold load_users. rewrite Hm. cbn [fst snd].
  unfold default_users. rewrite !user_get_cons. cbn [String.eqb Ascii.eqb Bool.eqb].
  cbn [u_password]. rewrite !String.eqb_refl.
  repeat split. intro Hw. unfold save_users. rewrite Hw. reflexivity.
Qed.

(** X13: when [users.json] exists but cannot be read, nobody is
    validated, and adding a user on a writable disk replaces the file by
    one that holds the new user alone. *)
Theorem unreadable_file_is_replaced now name pw r d :
  users_json d = Unreadable ->
  (forall other pw', fst (validate_user md5 now other pw' d) = false)
  /\ (writable d = true ->
      add_user md5 now name pw r d
      = (true, mkDisk (Content [(name, mkUser (md5 pw) r now)]) true)).
Proof.
  intro Hu. split.
  - intros other pw'. rewrite validate_user_eq. unfold load_users. rewrite Hu. reflexivity.
  - intro Hw. rewrite add_user_eq. unfold load_users. rewrite Hu. cbn [fst snd user_in existsb].
    unfold save_users. rewrite Hw. reflexivity.
Qed.

(** X14: after [manage_users] added a user on a writable disk, the user
    is in the list it shows, and [login_user] over the reloaded [USERS]
    opens a session for the name and password that were typed. *)
Theorem managed_user_can_log_in now USERS n_clicks name pw r d clicks :
  clicked n_clicks = true -> clicked clicks = true ->
  filled (Some name) = true -> filled (Some pw) = true ->
  writable d = true -> user_in name (fst (load_users md5 now d)) = false ->
  let res := manage_users md5 now USERS n_clicks (Some name) (Some pw) r d in
  feedback (fst (fst res)) = Success
  /\ In (name, r) (users_list (fst (fst res)))
  /\ login_user md5 (snd (fst res)) clicks (Some name) (Some pw) = Authenticated name.
Proof.
  intros Hc Hc' Hn Hp Hw Hf res. subst res. unfold manage_users.
  rewrite Hc, Hn, Hp. cbn [andb text_of].
  rewrite (add_user_fresh _ _ _ _ _ Hw Hf).
  cbn [load_users users_json fst snd feedback users_list].
  split; [reflexivity|]. split.
  - apply in_map_iff.
    exists (name, mkUser (md5 pw) r now). split; [reflexivity|].
    assert (G : user_get (user_set name (mkUser (md5 pw) r now) (fst (load_users md5 now d)))
                         name = Some (mkUser (md5 pw) r now)) by apply user_get_set_same.
    unfold user_get in G.
    destruct (find _ _) as [[k v]|] eqn:E; [|discriminate].
    injection G as ->. apply find_some in E. destruct E as [E1 E2].
    cbn [fst] in E2. apply String.eqb_eq in E2. subst k. exact E1.
  - unfold login_user. rewrite Hc', Hn, Hp. cbn [andb text_of].
    rewrite user_get_set_same. cbn [u_password]. rewrite String.eqb_refl. reflexivity.
Qed.

(** After the loop over a dictionary that is not empty, [username] holds
    its last key. *)
Lemma rebound_last username (users : Users) k u :
  rebound username (users ++ [(k, u)]) = Some k.
Proof.
  unfold rebound. rewrite map_app. cbn [map fst]. apply last_last.
Qed.

Lemma rebound_empty username : rebound username [] = username.
Proof. reflexivity. Qed.

End UserStore.

(** With one user on disk, a click with a password and no name gives the
    warning and clears both fields, and without a click the name field
    comes back holding the name of that user. *)
Lemma manage_users_clears_by_the_listed_name :
  (let res := manage_users sample_digest (at_time (jan 3) 9 0) sample_users (Some 1)
                           None (Some "s3nha"%string) None sample_disk in
   feedback (fst (fst res)) = Warning
   /\ clear_username (fst (fst res)) = Some EmptyString
   /\ clear_password (fst (fst res)) = Some EmptyString)
  /\ (let res := manage_users sample_digest (at_time (jan 3) 9 0) sample_users None
                              None (Some "s3nha"%string) None sample_disk in
      feedback (fst (fst res)) = NoFeedback
      /\ clear_username (fst (fst res)) = Some "ana"%string
      /\ clear_password (fst (fst res)) = Some "s3nha"%string).
Proof. repeat split. Qed.

Lemma added_user_is_validated_witness :
  fst (add_user sample_digest (at_time (jan 3) 9 0) "bia" "s3nha" (Some "admin"%string)
                sample_disk) = true
  /\ fst (validate_user sample_digest (at_time (jan 4) 9 0) "bia" "s3nha"
            (snd (add_user sample_digest (at_time (jan 3) 9 0) "bia" "s3nha"
                           (Some "admin"%string) sample_disk))) = true
  /\ forall other pw',
       other <> "bia"%string ->
       fst (validate_user sample_digest (at_time (jan 4) 9 0) other pw'
              (snd (add_user sample_digest (at_time (jan 3) 9 0) "bia" "s3nha"
                             (Some "admin"%string) sample_disk)))
       = fst (validate_user sample_digest (at_time (jan 4) 9 0) other pw' sample_disk).
Proof.
  apply (added_user_is_validated sample_digest (at_time (jan 3) 9 0) (at_time (jan 4) 9 0)
           "bia" "s3nha" (Some "admin"%string) sample_disk); reflexivity.
Defined.

Lemma add_user_reports_success_without_saving_witness :
  add_user sample_digest (at_time (jan 3) 9 0) "bia" "s3nha" None
           (mkDisk (Content sample_users) false)
  = (true, mkDisk (Content sample_users) false)
  /\ fst (validate_user sample_digest (at_time (jan 4) 9 0) "bia" "s3nha"
            (mkDisk (Content sample_users) false)) = false.
Proof.
  apply (add_user_reports_success_without_saving sample_digest (at_time (jan 3) 9 0)
           (at_time (jan 4) 9 0) "bia" "s3nha" None (mkDisk (Content sample_users) false));
    reflexivity.
Defined.

Lemma add_user_keeps_existing_users_witness :
  exists us',
    users_json (snd (add_user sample_digest (at_time (jan 3) 9 0) "ana" "outra" None
                              sample_disk)) = Content us'
    /\ (forall other u, user_get sample_users other = Some u -> user_get us' other = Some u)
    /\ (NoDup (map fst sample_users) -> NoDup (map fst us'))
    /\ (user_in "ana" sample_users = true ->
        fst (add_user sample_digest (at_time (jan 3) 9 0) "ana" "outra" None sample_disk)
        = false /\ us' = sample_users).
Proof.
  apply (add_user_keeps_existing_users sample_digest (at_time (jan 3) 9 0) "ana" "outra"
           None sample_disk sample_users). reflexivity.
Defined.

Lemma missing_file_gives_default_accounts_witness :
  fst (validate_user sample_digest (at_time (jan 3) 9 0) "admin" "admin123"
                     (mkDisk Missing true)) = true
  /\ fst (validate_user sample_digest (at_time (jan 3) 9 0) "operador" "operador123"
                        (mkDisk Missing true)) = true
  /\ fst (validate_user sample_digest (at_time (jan 3) 9 0) "supervisor" "supervisor123"
                        (mkDisk Missing true)) = true
  /\ (writable (mkDisk Missing true) = true ->
      users_json (snd (validate_user sample_digest (at_time (jan 3) 9 0) "admin" "admin123"
                                     (mkDisk Missing true)))
      = Content (default_users sample_digest (at_time (jan 3) 9 0))).
Proof.
  apply (missing_file_gives_default_accounts sample_digest (at_time (jan 3) 9 0)
           (mkDisk Missing true)). reflexivity.
Defined.

Lemma unreadable_file_is_replaced_witness :
  (forall other pw',
      fst (validate_user sample_digest (at_time (jan 3) 9 0) other pw'
                         (mkDisk Unreadable true)) = false)
  /\ (writable (mkDisk Unreadable true) = true ->
      add_user sample_digest (at_time (jan 3) 9 0) "bia" "s3nha" None (mkDisk Unreadable true)
      = (true, mkDisk (Content [("bia"%string,
                                 mkUser (sample_digest "s3nha") None (at_time (jan 3) 9 0))])
                      true)).
Proof.
  apply (unreadable_file_is_replaced sample_digest (at_time (jan 3) 9 0) "bia" "s3nha" None
           (mkDisk Unreadable true)). reflexivity.
Defined.

Lemma managed_user_can_log_in_witness :
  let res := manage_users sample_digest (at_time (jan 3) 9 0) sample_users (Some 1)
                          (Some "bia"%string) (Some "s3nha"%string) (Some "admin"%string)
                          sample_disk in
  feedback (fst (fst res)) = Success
  /\ In ("bia"%string, Some "admin"%string) (users_list (fst (fst res)))
  /\ login_user sample_digest (snd (fst res)) (Some 4) (Some "bia"%string)
                (Some "s3nha"%string) = Authenticated "bia".
Proof.
  apply (managed_user_can_log_in sample_digest (at_time (jan 3) 9 0) sample_users (Some 1)
           "bia" "s3nha" (Some "admin"%string) sample_disk (Some 4)); reflexivity.
Defined.

(** * The alarm rankings *)

Import alarm_history.

(** ** Grouping by tag and message *)

Lemma same_cell_eq a b : same_cell a b = true <-> a = b.
Proof.
  destruct a as [x|], b as [y|]; simpl.
  - rewrite String.eqb_eq. split; congruence.
  - split; discriminate.
  - split; discriminate.
  - tauto.
Qed.

Lemma same_key_eq k1 k2 : same_key k1 k2 = true <-> k1 = k2.
Proof.
  destruct k1 as [a b], k2 as [c d]. unfold same_key. cbn [fst snd].
  rewrite andb_true_iff, !same_cell_eq. split; [intros [-> ->]; reflexivity|].
  intro H. injection H as -> ->. tauto.
Qed.

Lemma same_key_refl k : same_key k k = true.
Proof. apply same_key_eq. reflexivity. Qed.

Lemma same_key_neq k1 k2 : same_key k1 k2 = false <-> k1 <> k2.
Proof.
  destruct (same_key k1 k2) eqn:E.
  - apply same_key_eq in E. split; [discriminate|congruence].
  - split; [|reflexivity]. intros _ H. apply same_key_eq in H. congruence.
Qed.

Lemma group_of_cons k g gs k' :
  group_of ((k, g) :: gs) k' = if same_key k k' then g else group_of gs k'.
Proof. unfold group_of. simpl. destruct (same_key k k'); reflexivity. Qed.

Lemma group_of_add_alarm a gs k :
  group_of (add_alarm a gs) k
  = if same_key k (group_key a) then a :: group_of gs k else group_of gs k.
Proof.
  induction gs as [|[k' g] gs IH]; simpl.
  - rewrite group_of_cons. unfold group_of. simpl.
    destruct (same_key (group_key a) k) eqn:E.
    + apply same_key_eq in E. subst k. rewrite same_key_refl. reflexivity.
    + apply same_key_neq in E. destruct (same_key k (group_key a)) eqn:E'; [|reflexivity].
      apply same_key_eq in E'. congruence.
  - destruct (same_key k' (group_key a)) eqn:E; rewrite !group_of_cons.
    + apply same_key_eq in E. subst k'.
      destruct (same_key (group_key a) k) eqn:E'.
      * apply same_key_eq in E'. subst k. rewrite same_key_refl. reflexivity.
      * apply same_key_neq in E'. destruct (same_key k (group_key a)) eqn:E''; [|reflexivity].
        apply same_key_eq in E''. congruence.
    + rewrite IH. destruct (same_key k' k) eqn:E'; [|reflexivity].
      apply same_key_eq in E'. subst k'. rewrite E. reflexivity.
Qed.

Lemma group_of_group_alarms rows k : group_of (group_alarms rows) k = occurrences rows k.
Proof.
  induction rows as [|a rows IH]; simpl; [reflexivity|].
  unfold group_alarms in *. cbn [fold_right]. rewrite group_of_add_alarm, IH.
  unfold occurrences. cbn [filter]. destruct (same_key k (group_key a)); reflexivity.
Qed.

Lemma In_keys_add_alarm a gs k :
  In k (map fst (add_alarm a gs)) <-> k = group_key a \/ In k (map fst gs).
Proof.
  induction gs as [|[k' g] gs IH]; simpl.
  - intuition congruence.
  - destruct (same_key k' (group_key a)) eqn:E; simpl.
    + apply same_key_eq in E. subst k'. intuition congruence.
    + rewrite IH. tauto.
Qed.

Lemma NoDup_keys_add_alarm a gs :
  NoDup (map fst gs) -> NoDup (map fst (add_alarm a gs)).
Proof.
  induction gs as [|[k' g] gs IH]; simpl; intro H.
  - constructor; [intros []|constructor].
  - inversion H as [|? ? Hk Ht]; subst. destruct (same_key k' (group_key a)) eqn:E; simpl.
    + constructor; assumption.
    + constructor; [|exact (IH Ht)].
      intro Hin. apply In_keys_add_alarm in Hin. destruct Hin as [->|Hin].
      * rewrite same_key_refl in E. discriminate.
      * exact (Hk Hin).
Qed.

Lemma NoDup_keys_group_alarms rows : NoDup (map fst (group_alarms rows)).
Proof.
  induction rows as [|a rows IH]; simpl; [constructor|].
  apply NoDup_keys_add_alarm. exact IH.
Qed.

Lemma group_of_In gs k g :
  NoDup (map fst gs) -> In (k, g) gs -> group_of gs k = g.
Proof.
  induction gs as [|[k' g'] gs IH]; simpl; intros H Hin; [contradiction|].
  inversion H as [|? ? Hk Ht]; subst. rewrite group_of_cons.
  destruct Hin as [E|Hin].
  - injection E as -> ->. rewrite same_key_refl. reflexivity.
  - destruct (same_key k' k) eqn:E; [|exact (IH Ht Hin)].
    apply same_key_eq in E. subst k'. exfalso. apply Hk.
    apply in_map_iff. exists (k, g). split; [reflexivity|exact Hin].
Qed.

(** A group holds the rows of its key, all of them, in the order of the
    table. *)
Lemma In_group_alarms rows k g :
  In (k, g) (group_alarms rows) -> g = occurrences rows k.
Proof.
  intro Hin. rewrite <- group_of_group_alarms.
  symmetry. apply group_of_In; [apply NoDup_keys_group_alarms|exact Hin].
Qed.

Lemma add_alarm_nonempty a gs :
  (forall p, In p gs -> snd p <> []) -> forall p, In p (add_alarm a gs) -> snd p <> [].
Proof.
  induction gs as [|[k' g] gs IH]; simpl; intros H p Hp.
  - destruct Hp as [<-|[]]. discriminate.
  - destruct (same_key k' (group_key a)); simpl in Hp; destruct Hp as [<-|Hp].
    + discriminate.
    + apply H. right. exact Hp.
    + apply (H (k', g)). left. reflexivity.
    + apply IH; [|exact Hp]. intros q Hq. apply H. right. exact Hq.
Qed.

Lemma group_alarms_nonempty rows p : In p (group_alarms rows) -> snd p <> [].
Proof.
  revert p. induction rows as [|a rows IH]; simpl; [intros p []|].
  apply add_alarm_nonempty. exact IH.
Qed.

(** ** MAX("Al_Start_Time") *)

Lemma max_start_spec g :
  g <> [] ->
  exists a, In a g /\ max_start g = Some (Al_Start_Time (Al_Times a))
            /\ forall b, In b g ->
                 dt_leb (Al_Start_Time (Al_Times b)) (Al_Start_Time (Al_Times a)) = true.
Proof.
  induction g as [|x g IH]; [congruence|]. intros _. simpl.
  destruct g as [|y g].
  - exists x. simpl. split; [left; reflexivity|]. split; [reflexivity|].
    intros b [<-|[]]. apply dt_leb_refl.
  - destruct IH as [a [Ha [Hm Hall]]]; [discriminate|]. rewrite Hm.
    destruct (dt_ltb (Al_Start_Time (Al_Times a)) (Al_Start_Time (Al_Times x))) eqn:E.
    + exists x. split; [left; reflexivity|]. split; [reflexivity|].
      intros b [<-|Hb]; [apply dt_leb_refl|].
      exact (dt_leb_trans _ _ _ (Hall b Hb) (dt_ltb_leb _ _ E)).
    + exists a. split; [right; exact Ha|]. split; [reflexivity|].
      intros b [<-|Hb]; [exact (dt_not_ltb_leb _ _ E)|exact (Hall b Hb)].
Qed.

(** ** ORDER BY ... DESC LIMIT *)

Lemma insert_desc_sorted {R : Type} (f : R -> Q) r l :
  StronglySorted (not_above f) l -> StronglySorted (not_above f) (insert_desc R f r l).
Proof.
  induction l as [|x l IH]; simpl; intro H.
  - constructor; constructor.
  - inversion H as [|? ? Hs Hf]; subst. destruct (Qle_bool (f x) (f r)) eqn:E.
    + apply Qle_bool_iff in E. constructor; [exact H|]. constructor; [exact E|].
      eapply Forall_impl; [|exact Hf]. intros y Hy. unfold not_above in *.
      exact (Qle_trans _ _ _ Hy E).
    + constructor; [exact (IH Hs)|]. apply Forall_forall. intros y Hy.
      apply In_insert_desc in Hy. destruct Hy as [->|Hy].
      * unfold not_above. apply Qlt_le_weak. apply Qnot_le_lt. intro C.
        apply Qle_bool_iff in C. congruence.
      * exact (proj1 (Forall_forall _ _) Hf y Hy).
Qed.

Lemma order_by_desc_sorted {R : Type} (f : R -> Q) l :
  StronglySorted (not_above f) (order_by_desc f l).
Proof.
  induction l as [|x l IH]; simpl; [constructor|].
  unfold order_by_desc in *. cbn [fold_right]. apply insert_desc_sorted. exact IH.
Qed.

Lemma In_insert_desc_iff {R : Type} (f : R -> Q) r x l :
  In x (insert_desc R f r l) <-> x = r \/ In x l.
Proof.
  induction l as [|y l IH]; simpl.
  - intuition congruence.
  - destruct (Qle_bool (f y) (f r)); simpl; [intuition congruence|].
    rewrite IH. tauto.
Qed.

Lemma In_order_by_desc_iff {R : Type} (f : R -> Q) x l :
  In x (order_by_desc f l) <-> In x l.
Proof.
  induction l as [|y l IH]; simpl; [tauto|].
  unfold order_by_desc in *. cbn [fold_right]. rewrite In_insert_desc_iff, IH.
  intuition congruence.
Qed.

Lemma firstn_sorted {A : Type} (R : A -> A -> Prop) n l :
  StronglySorted R l -> StronglySorted R (firstn n l).
Proof.
  revert l. induction n as [|n IH]; intros [|x l] H; simpl; try constructor.
  - inversion H; subst. apply IH. assumption.
  - inversion H as [|? ? Hs Hf]; subst. apply Forall_forall. intros y Hy.
    apply In_firstn_In in Hy. exact (proj1 (Forall_forall _ _) Hf y Hy).
Qed.

(** What a [LIMIT] cuts off does not rank above what it keeps. *)
Lemma limit_keeps_the_top {A : Type} (R : A -> A -> Prop) n l x y :
  StronglySorted R l -> In x (firstn n l) -> In y l -> ~ In y (firstn n l) -> R x y.
Proof.
  revert l. induction n as [|n IH]; intros [|z l] H Hx Hy Hny; simpl in *; try contradiction.
  inversion H as [|? ? Hs Hf]; subst.
  destruct Hy as [->|Hy]; [exfalso; apply Hny; left; reflexivity|].
  destruct Hx as [->|Hx].
  - exact (proj1 (Forall_forall _ _) Hf y Hy).
  - apply (IH l Hs Hx Hy). intro C. apply Hny. right. exact C.
Qed.

Lemma firstn_length_le {A : Type} n (l : list A) : (length (firstn n l) <= n)%nat.
Proof.
  revert l. induction n as [|n IH]; intros [|x l]; simpl; try lia.
  specialize (IH l). lia.
Qed.

Lemma NoDup_firstn {A : Type} n (l : list A) : NoDup l -> NoDup (firstn n l).
Proof.
  revert l. induction n as [|n IH]; intros [|x l] H; simpl; try constructor.
  - inversion H; subst. intro C. apply In_firstn_In in C. contradiction.
  - inversion H; subst. apply IH. assumption.
Qed.

Lemma NoDup_map_insert_desc {R K : Type} (k : R -> K) (f : R -> Q) x l :
  NoDup (map k (x :: l)) -> NoDup (map k (insert_desc R f x l)).
Proof.
  induction l as [|y l IH]; simpl; intro H; [exact H|].
  destruct (Qle_bool (f y) (f x)); simpl; [exact H|].
  inversion H as [|? ? H1 H2]; subst. inversion H2 as [|? ? H3 H4]; subst. constructor.
  - intro C. apply in_map_iff in C. destruct C as [z [Hz Hin]].
    apply In_insert_desc_iff in Hin. destruct Hin as [->|Hin].
    + apply H1. left. symmetry. exact Hz.
    + apply H3. apply in_map_iff. exists z. split; assumption.
  - apply IH. simpl. constructor; [|exact H4]. intro C. apply H1. right. exact C.
Qed.

Lemma NoDup_map_order_by_desc {R K : Type} (k : R -> K) (f : R -> Q) l :
  NoDup (map k l) -> NoDup (map k (order_by_desc f l)).
Proof.
  induction l as [|y l IH]; simpl; intro H; [constructor|].
  inversion H as [|? ? H1 H2]; subst. unfold order_by_desc in *. cbn [fold_right].
  apply NoDup_map_insert_desc. simpl. constructor; [|exact (IH H2)].
  intro C. apply in_map_iff in C. destruct C as [z [Hz Hin]].
  apply (proj1 (In_order_by_desc_iff f z l)) in Hin.
  apply H1. apply in_map_iff. exists z. split; assumption.
Qed.

(** ** The rows of a ranking *)

Lemma In_top5_of rows r :
  In r (top5_of rows) ->
  In ((tag r, descricao r), occurrences rows (tag r, descricao r)) (group_alarms rows)
  /\ r = ranked_of ((tag r, descricao r), occurrences rows (tag r, descricao r)).
Proof.
  unfold top5_of. intro H. apply In_firstn_In, In_order_by_desc in H.
  apply in_map_iff in H. destruct H as [[[t m] g] [<- Hg]].
  cbn [ranked_of tag descricao fst snd].
  rewrite <- (In_group_alarms _ _ _ Hg). split; [exact Hg|reflexivity].
Qed.

Lemma length_filter_and {A : Type} (p q : A -> bool) l :
  filter q (filter p l) = filter (fun a => p a && q a) l.
Proof.
  induction l as [|x l IH]; simpl; [reflexivity|].
  destruct (p x); simpl; [destruct (q x); rewrite IH; reflexivity|exact IH].
Qed.

(** X15: a row of the period ranking stands for a pair of tag and message
    that no other row stands for; its count is the number of alarms of the
    history with that pair whose start and whose return to normal both lie
    in the window, and is at least one; its last occurrence is the start
    of one of them, and none of them started later. An alarm that is still
    active is counted in no row. *)
Theorem ranking_counts_acknowledged_alarms history lo hi rows r :
  top5_period_query history lo hi = Ok rows -> In r rows ->
  let counted := filter (fun a => in_period lo hi a
                                  && same_key (tag r, descricao r) (group_key a))
                        history in
  total_ocorrencias r = Z.of_nat (length counted)
  /\ 0 < total_ocorrencias r
  /\ (forall a, In a counted -> Al_Norm_Time (Al_Times a) <> None)
  /\ (exists a, In a counted
                /\ ultima_ocorrencia r = Some (Al_Start_Time (Al_Times a))
                /\ forall b, In b counted ->
                     dt_leb (Al_Start_Time (Al_Times b)) (Al_Start_Time (Al_Times a)) = true)
  /\ NoDup (map (fun x => (tag x, descricao x)) rows).
Proof.
  intros Hq Hin counted. unfold top5_period_query in Hq. apply Ok_inj in Hq. subst rows.
  destruct (In_top5_of _ _ Hin) as [Hg Hr].
  assert (Hc : counted = occurrences (filter (in_period lo hi) history) (tag r, descricao r)).
  { unfold counted, occurrences. rewrite length_filter_and. reflexivity. }
  rewrite Hc. clear Hc counted.
  set (g := occurrences (filter (in_period lo hi) history) (tag r, descricao r)) in *.
  assert (Hne : g <> []) by exact (group_alarms_nonempty _ _ Hg).
  assert (Ht : total_ocorrencias r = Z.of_nat (length g)) by (rewrite Hr; reflexivity).
  split; [exact Ht|]. split; [|split; [|split]].
  - rewrite Ht. destruct g; [congruence|simpl; lia].
  - intros a Ha. unfold g, occurrences in Ha. apply filter_In in Ha.
    destruct Ha as [Ha _]. apply filter_In in Ha. destruct Ha as [_ Ha].
    unfold in_period in Ha. apply andb_true_iff in Ha.
    destruct (Al_Norm_Time (Al_Times a)); [discriminate|destruct Ha; discriminate].
  - destruct (max_start_spec g Hne) as [a [Ha [Hm Hall]]].
    exists a. split; [exact Ha|]. split; [rewrite Hr; exact Hm|exact Hall].
  - unfold top5_of. rewrite <- firstn_map. apply NoDup_firstn.
    apply NoDup_map_order_by_desc. rewrite map_map.
    rewrite (map_ext _ fst) by (intros [[t m] x]; reflexivity).
    apply NoDup_keys_group_alarms.
Qed.

Lemma ranking_counts_acknowledged_alarms_witness :
  let r := mkRanked (Some "P1"%string) (Some "Falha bomba"%string) 2
                    (Some (at_time (jan 3) 10 0)) in
  let counted := filter (fun a => in_period (midnight (jan 3)) (midnight (jan 4)) a
                                  && same_key (tag r, descricao r) (group_key a))
                        sample_history in
  total_ocorrencias r = Z.of_nat (length counted)
  /\ 0 < total_ocorrencias r
  /\ (forall a, In a counted -> Al_Norm_Time (Al_Times a) <> None)
  /\ (exists a, In a counted
                /\ ultima_ocorrencia r = Some (Al_Start_Time (Al_Times a))
                /\ forall b, In b counted ->
                     dt_leb (Al_Start_Time (Al_Times b)) (Al_Start_Time (Al_Times a)) = true)
  /\ NoDup (map (fun x => (tag x, descricao x))
                (top5_of (filter (in_period (midnight (jan 3)) (midnight (jan 4)))
                                 sample_history))).
Proof.
  apply (ranking_counts_acknowledged_alarms sample_history (midnight (jan 3))
           (midnight (jan 4)) _ _ eq_refl).
  left. reflexivity.
Defined.

Lemma StronglySorted_weaken {A : Type} (R S : A -> A -> Prop) l :
  (forall a b, R a b -> S a b) -> StronglySorted R l -> StronglySorted S l.
Proof.
  intros HRS H. induction H as [|a l Hs IH Hf]; constructor; [exact IH|].
  eapply Forall_impl; [|exact Hf]. intros b. apply HRS.
Qed.

Lemma group_of_nonempty_In gs k :
  group_of gs k <> [] -> In (k, group_of gs k) gs.
Proof.
  unfold group_of. destruct (find _ gs) as [[k' g]|] eqn:E; [|congruence].
  intros _. apply find_some in E. destruct E as [Hin Hk]. cbn [fst] in Hk.
  apply same_key_eq in Hk. subst k'. exact Hin.
Qed.

(** X16: the period ranking has at most five rows, in descending order of
    their counts, and no pair of tag and message that it leaves out has
    more alarms in the window than a pair it lists. *)
Theorem ranking_is_the_top_five history lo hi rows :
  top5_period_query history lo hi = Ok rows ->
  (length rows <= 5)%nat
  /\ StronglySorted (fun a b => total_ocorrencias b <= total_ocorrencias a) rows
  /\ forall k r,
       In r rows -> ~ In k (map (fun x => (tag x, descricao x)) rows) ->
       Z.of_nat (length (filter (fun a => in_period lo hi a && same_key k (group_key a))
                                history))
       <= total_ocorrencias r.
Proof.
  intro Hq. unfold top5_period_query in Hq. apply Ok_inj in Hq. subst rows.
  set (sel := filter (in_period lo hi) history).
  split; [apply firstn_length_le|]. split.
  - apply (StronglySorted_weaken (not_above rank)).
    + intros a b. unfold not_above, rank. rewrite <- Zle_Qle. tauto.
    + apply firstn_sorted, order_by_desc_sorted.
  - intros k r Hr Hk. rewrite <- length_filter_and. fold sel. fold (occurrences sel k).
    destruct (In_top5_of _ _ Hr) as [_ Er].
    assert (Hpos : 0 <= total_ocorrencias r) by (rewrite Er; cbn; unfold sql_count; lia).
    destruct (occurrences sel k) as [|a0 g0] eqn:Eg; [exact Hpos|].
    assert (Hg : In (k, occurrences sel k) (group_alarms sel)).
    { rewrite <- group_of_group_alarms. apply group_of_nonempty_In.
      rewrite group_of_group_alarms, Eg. discriminate. }
    set (y := ranked_of (k, occurrences sel k)).
    assert (Hy : In y (order_by_desc rank (map ranked_of (group_alarms sel)))).
    { apply In_order_by_desc_iff, in_map_iff. exists (k, occurrences sel k).
      split; [reflexivity|exact Hg]. }
    assert (Hny : ~ In y (firstn 5 (order_by_desc rank (map ranked_of (group_alarms sel))))).
    { intro C. apply Hk. apply in_map_iff. exists y. split; [|exact C].
      destruct k; reflexivity. }
    pose proof (limit_keeps_the_top (not_above rank) 5 _ r y
                  (order_by_desc_sorted rank _) Hr Hy Hny) as Hle.
    unfold not_above, rank in Hle. rewrite <- Zle_Qle in Hle.
    unfold y in Hle. cbn [ranked_of total_ocorrencias snd] in Hle.
    unfold sql_count in Hle. rewrite Eg in Hle. exact Hle.
Qed.

Lemma ranking_is_the_top_five_witness :
  (length (top5_of (filter (in_period (midnight (jan 3)) (midnight (jan 4))) sample_history))
   <= 5)%nat
  /\ StronglySorted (fun a b => total_ocorrencias b <= total_ocorrencias a)
       (top5_of (filter (in_period (midnight (jan 3)) (midnight (jan 4))) sample_history))
  /\ forall k r,
       In r (top5_of (filter (in_period (midnight (jan 3)) (midnight (jan 4)))
                             sample_history)) ->
       ~ In k (map (fun x => (tag x, descricao x))
                   (top5_of (filter (in_period (midnight (jan 3)) (midnight (jan 4)))
                                    sample_history))) ->
       Z.of_nat (length (filter (fun a => in_period (midnight (jan 3)) (midnight (jan 4)) a
                                          && same_key k (group_key a))
                                sample_history))
       <= total_ocorrencias r.
Proof.
  apply (ranking_is_the_top_five sample_history (midnight (jan 3)) (midnight (jan 4))).
  reflexivity.
Defined.

(** ** get_top5_alarms_period *)

Lemma add_alarm_not_nil a gs : add_alarm a gs <> [].
Proof. destruct gs as [|[k g] gs]; simpl; [|destruct (same_key k (group_key a))]; discriminate. Qed.

Lemma insert_desc_not_nil {R : Type} (f : R -> Q) r l : insert_desc R f r l <> [].
Proof. destruct l; simpl; [|destruct (Qle_bool (f r0) (f r))]; discriminate. Qed.

Lemma top5_of_nil rows : top5_of rows = [] <-> rows = [].
Proof.
  split; [|intros ->; reflexivity].
  destruct rows as [|a rows]; [reflexivity|]. unfold top5_of, group_alarms.
  cbn [fold_right]. destruct (add_alarm a (fold_right add_alarm [] rows)) as [|g gs] eqn:E;
    [exfalso; exact (add_alarm_not_nil _ _ E)|].
  cbn [map]. unfold order_by_desc. cbn [fold_right].
  destruct (insert_desc Ranked _ (ranked_of g) _) eqn:E';
    [exfalso; exact (insert_desc_not_nil _ _ _ E')|discriminate].
Qed.

Lemma in_half_open_days s e t :
  0 <= micros t ->
  in_half_open (midnight s) (midnight (e + 1)) t = true <-> s <= date_of t <= e.
Proof.
  intro Ht. unfold in_half_open. rewrite andb_true_iff, dt_leb_iff, dt_ltb_iff.
  unfold midnight, date_of. cbn [ordinal micros]. lia.
Qed.

Lemma in_period_days s e a :
  alarm_times_valid a ->
  in_period (midnight s) (midnight (e + 1)) a = true <-> acknowledged_within s e a.
Proof.
  intros [Hs Hn]. unfold in_period, acknowledged_within.
  rewrite andb_true_iff, (in_half_open_days _ _ _ Hs).
  destruct (Al_Norm_Time (Al_Times a)) as [t|].
  - rewrite (in_half_open_days _ _ _ (Hn t eq_refl)). split.
    + intros [H1 H2]. split; [exact H1|]. exists t. split; [reflexivity|exact H2].
    + intros [H1 [t' [E H2]]]. injection E as <-. split; assumption.
  - split; [intros [_ C]; discriminate|intros [_ [t' [C _]]]; discriminate].
Qed.

Lemma get_top5_alarms_period_run env history s e n :
  MINORDINAL <= e + 1 <= MAXORDINAL ->
  get_top5_alarms_period env history (Some s) (Some e) n
  = (Ok (top5_of_frame
           (frame_of env (top5_period_query history (midnight s) (midnight (e + 1))) n)),
     S n).
Proof.
  intro Hr. unfold get_top5_alarms_period, try_exceptM, bindM, lift, top5_window.
  unfold add_days, midnight. cbn [ordinal micros].
  assert (B : (MINORDINAL <=? e + 1) && (e + 1 <=? MAXORDINAL) = true)
    by (apply andb_true_iff; split; apply Z.leb_le; lia).
  rewrite B. reflexivity.
Qed.

(** X17: for a range of days whose end is not the last day of the
    calendar, [get_top5_alarms_period] returns the notice that there is no
    alarm, or a list that is not empty, and never the notice of an error;
    it returns the notice exactly when its statement fails or no alarm of
    the history both started and returned to normal on days of the range,
    the last day included. *)
Theorem period_ranking_is_empty_without_acknowledged_alarms env history s e n :
  MINORDINAL <= e + 1 <= MAXORDINAL ->
  (forall a, In a history -> alarm_times_valid a) ->
  let res := fst (get_top5_alarms_period env history (Some s) (Some e) n) in
  (res = Ok NoAlarm \/ exists r rows, res = Ok (Items (r :: rows)))
  /\ (res = Ok NoAlarm
      <-> up env n = false \/ forall a, In a history -> ~ acknowledged_within s e a).
Proof.
  intros Hr Hv res. subst res. rewrite (get_top5_alarms_period_run _ _ _ _ _ Hr).
  cbn [fst]. unfold frame_of, top5_period_query.
  set (sel := filter (in_period (midnight s) (midnight (e + 1))) history).
  assert (Hsel : sel = [] <-> forall a, In a history -> ~ acknowledged_within s e a).
  { split.
    - intros E a Ha C. apply (in_period_days s e a (Hv a Ha)) in C.
      assert (Hin : In a sel) by (apply filter_In; split; assumption).
      rewrite E in Hin. exact Hin.
    - intro H. destruct sel as [|a l] eqn:E; [reflexivity|exfalso].
      assert (Hin : In a sel) by (rewrite E; left; reflexivity).
      apply filter_In in Hin. destruct Hin as [Ha Hp].
      apply (H a Ha). apply (in_period_days s e a (Hv a Ha)). exact Hp. }
  destruct (up env n).
  - destruct (top5_of sel) as [|r rows] eqn:E; cbn [top5_of_frame].
    + split; [left; reflexivity|]. split; [|reflexivity].
      intros _. right. apply Hsel. apply top5_of_nil. exact E.
    + split; [right; exists r, rows; reflexivity|]. split; [discriminate|].
      intros [C|C]; [discriminate|]. apply Hsel in C. apply top5_of_nil in C. congruence.
  - cbn [top5_of_frame]. split; [left; reflexivity|]. split; [|reflexivity].
    intros _. left. reflexivity.
Qed.

Lemma period_ranking_is_empty_without_acknowledged_alarms_witness :
  let res := fst (get_top5_alarms_period sample_alarm_env sample_history
                                         (Some (jan 1)) (Some (jan 3)) 0%nat) in
  (res = Ok NoAlarm \/ exists r rows, res = Ok (Items (r :: rows)))
  /\ (res = Ok NoAlarm
      <-> up sample_alarm_env 0%nat = false
          \/ forall a, In a sample_history -> ~ acknowledged_within (jan 1) (jan 3) a).
Proof.
  apply (period_ranking_is_empty_without_acknowledged_alarms sample_alarm_env sample_history
           (jan 1) (jan 3) 0%nat).
  - vm_compute. split; discriminate.
  - intros a Ha. split.
    + repeat (destruct Ha as [<-|Ha]; [vm_compute; discriminate|]). destruct Ha.
    + intros t Ht.
      repeat (destruct Ha as [<-|Ha];
              [first [discriminate Ht
                     |injection Ht as <-; vm_compute; discriminate]|]).
      destruct Ha.
Defined.

(** ** The alarms of the day *)

Lemma distinct_length l : (length (distinct l) <= length l)%nat.
Proof.
  induction l as [|x l IH]; simpl; [lia|].
  destruct (existsb (String.eqb x) l); simpl; lia.
Qed.

Lemma non_null_length {A : Type} (l : list (option A)) :
  (length (non_null l) <= length l)%nat.
Proof. induction l as [|[x|] l IH]; simpl; lia. Qed.

Lemma filter_map_comm {A B : Type} (f : A -> B) (p : B -> bool) l :
  filter p (map f l) = map f (filter (fun a => p (f a)) l).
Proof.
  induction l as [|x l IH]; simpl; [reflexivity|].
  destruct (p (f x)); simpl; rewrite IH; reflexivity.
Qed.

Lemma alarms_today_run env history fallback n :
  MINORDINAL <= date_of (now env) + 1 <= MAXORDINAL ->
  alarms_today env history fallback n
  = (Ok (cell (frame_of env (alarms_today_query history (midnight (date_of (now env)))
                                                (midnight (date_of (now env) + 1))) n)
              (fun c => c) 0), S n).
Proof.
  intro Hr. unfold alarms_today, try_exceptM, bindM, lift, add_days, midnight.
  cbn [ordinal micros].
  assert (B : (MINORDINAL <=? date_of (now env) + 1) && (date_of (now env) + 1 <=? MAXORDINAL)
              = true) by (apply andb_true_iff; split; apply Z.leb_le; lia).
  rewrite B. reflexivity.
Qed.

(** X18: the number that [update_kpis] shows as the alarms of the day
    counts distinct messages of active alarms, while the KPI
    [alarmes_ativos] counts the active alarms themselves: over the same
    history the first is never negative and never exceeds what the
    statement of the second counts, whether its own statement goes through
    or not. *)
Theorem alarms_of_the_day_count_messages env history fallback n :
  ALARMHISTORY (db env) = map Al_Times history ->
  MINORDINAL <= date_of (now env) + 1 <= MAXORDINAL ->
  exists c,
    fst (alarms_today env history fallback n) = Ok c
    /\ forall k, alarms_query (db env) (date_of (now env)) = Ok [k] -> 0 <= c <= k.
Proof.
  intros Hd Hr. rewrite (alarms_today_run _ _ _ _ Hr). cbn [fst].
  eexists. split; [reflexivity|]. intros k Hk. unfold alarms_query in Hk.
  injection Hk as <-. rewrite Hd. unfold sql_count, frame_of, alarms_today_query.
  destruct (up env n); cbn [cell iloc0]; [|lia].
  unfold sql_count. split; [lia|]. apply inj_le.
  etransitivity; [apply distinct_length|].
  etransitivity; [apply non_null_length|].
  rewrite filter_map_comm. rewrite !length_map. unfold date_filter_hoje_carga. lia.
Qed.

Lemma alarms_of_the_day_count_messages_witness :
  exists c,
    fst (alarms_today sample_alarm_env sample_history 0 0%nat) = Ok c
    /\ forall k, alarms_query (db sample_alarm_env) (date_of (now sample_alarm_env)) = Ok [k] ->
                 0 <= c <= k.
Proof.
  apply (alarms_of_the_day_count_messages sample_alarm_env sample_history 0 0%nat);
    [reflexivity|vm_compute; split; discriminate].
Defined.

(** ** get_top5_alarms_today *)

Lemma get_top5_alarms_today_run env history n :
  MINORDINAL <= date_of (now env) - 1 <= MAXORDINAL ->
  get_top5_alarms_today env history n
  = (Ok (top5_of_frame (frame_of env (top5_today_query history (date_of (now env))) n)),
     S n).
Proof.
  intro Hr. unfold get_top5_alarms_today, try_exceptM, bindM, lift, add_days, midnight.
  cbn [ordinal micros].
  assert (B : (MINORDINAL <=? date_of (now env) + -1) && (date_of (now env) + -1 <=? MAXORDINAL)
              = true) by (apply andb_true_iff; split; apply Z.leb_le; lia).
  rewrite B. reflexivity.
Qed.

(** X19: every item that [get_top5_alarms_today] lists counts the alarms
    of its tag and message that started after the midnight of today and
    returned to normal after it; an alarm that started at midnight sharp
    or earlier, or that is still active, is counted in no item, so that a
    history of active alarms alone gives the notice that there is no
    alarm. *)
Theorem today_ranking_counts_alarms_after_midnight env history n :
  MINORDINAL <= date_of (now env) - 1 <= MAXORDINAL ->
  let today := date_of (now env) in
  (forall rows r,
      fst (get_top5_alarms_today env history n) = Ok (Items rows) -> In r rows ->
      let counted := filter (fun a => after_midnight today a
                                      && same_key (tag r, descricao r) (group_key a))
                            history in
      total_ocorrencias r = Z.of_nat (length counted)
      /\ 0 < total_ocorrencias r
      /\ forall a, In a counted ->
           dt_ltb (midnight today) (Al_Start_Time (Al_Times a)) = true
           /\ exists t, Al_Norm_Time (Al_Times a) = Some t
                        /\ dt_ltb (midnight today) t = true)
  /\ ((forall a, In a history -> Al_Norm_Time (Al_Times a) = None) ->
      fst (get_top5_alarms_today env history n) = Ok NoAlarm).
Proof.
  intros Hr today. rewrite (get_top5_alarms_today_run _ _ _ Hr). cbn [fst]. fold today.
  unfold frame_of, top5_today_query. split.
  - intros rows r Hrows Hin.
    set (counted := filter (fun a => after_midnight today a
                                      && same_key (tag r, descricao r) (group_key a))
                           history).
    assert (E : rows = top5_of (filter (after_midnight today) history)).
    { destruct (up env n); [|discriminate].
      destruct (top5_of (filter (after_midnight today) history)); [discriminate|].
      cbn [top5_of_frame] in Hrows. congruence. }
    subst rows. destruct (In_top5_of _ _ Hin) as [Hg Er].
    assert (Hc : counted = occurrences (filter (after_midnight today) history)
                                       (tag r, descricao r)).
    { unfold counted, occurrences. rewrite length_filter_and. reflexivity. }
    rewrite Hc. clear Hc counted.
    set (g := occurrences (filter (after_midnight today) history) (tag r, descricao r)) in *.
    assert (Hne : g <> []) by exact (group_alarms_nonempty _ _ Hg).
    assert (Ht : total_ocorrencias r = Z.of_nat (length g)) by (rewrite Er; reflexivity).
    split; [exact Ht|]. split.
    + rewrite Ht. destruct g; [congruence|simpl; lia].
    + intros a Ha. unfold g, occurrences in Ha. apply filter_In in Ha.
      destruct Ha as [Ha _]. apply filter_In in Ha. destruct Ha as [_ Ha].
      unfold after_midnight in Ha. apply andb_true_iff in Ha. destruct Ha as [H1 H2].
      split; [exact H1|]. destruct (Al_Norm_Time (Al_Times a)) as [t|]; [|discriminate].
      exists t. split; [reflexivity|exact H2].
  - intro Hact.
    assert (F : filter (after_midnight today) history = []).
    { destruct (filter (after_midnight today) history) as [|a l] eqn:E; [reflexivity|exfalso].
      assert (Ha : In a (filter (after_midnight today) history)) by (rewrite E; left; reflexivity).
      apply filter_In in Ha. destruct Ha as [Ha Hp]. unfold after_midnight in Hp.
      rewrite (Hact a Ha) in Hp. rewrite andb_false_r in Hp. discriminate. }
    rewrite F. destruct (up env n); reflexivity.
Qed.

Lemma today_ranking_counts_alarms_after_midnight_witness :
  fst (get_top5_alarms_today sample_alarm_env sample_history 0%nat)
  = Ok (Items [mkRanked (Some "P1"%string) (Some "Falha bomba"%string) 2
                        (Some (at_time (jan 3) 10 0));
               mkRanked (Some "D2"%string) (Some "Porta aberta"%string) 1
                        (Some (at_time (jan 3) 9 0))])
  /\ forall r,
       In r [mkRanked (Some "P1"%string) (Some "Falha bomba"%string) 2
                      (Some (at_time (jan 3) 10 0));
             mkRanked (Some "D2"%string) (Some "Porta aberta"%string) 1
                      (Some (at_time (jan 3) 9 0))] ->
       0 < total_ocorrencias r.
Proof.
  assert (E : fst (get_top5_alarms_today sample_alarm_env sample_history 0%nat)
              = Ok (Items [mkRanked (Some "P1"%string) (Some "Falha bomba"%string) 2
                                    (Some (at_time (jan 3) 10 0));
                           mkRanked (Some "D2"%string) (Some "Porta aberta"%string) 1
                                    (Some (at_time (jan 3) 9 0))]))
    by (vm_compute; reflexivity).
  split; [exact E|]. intros r Hr.
  assert (Hd : MINORDINAL <= date_of (now sample_alarm_env) - 1 <= MAXORDINAL)
    by (vm_compute; split; discriminate).
  exact (proj1 (proj2 (proj1 (today_ranking_counts_alarms_after_midnight
                                sample_alarm_env sample_history 0%nat Hd) _ r E Hr))).
Defined.

(** * The summary of the dashboard *)

Import dashboard_summary.

(** ** format_number_abbreviated *)

Lemma Qfloor_between (s : Q) (k : Z) :
  (inject_Z k <= s)%Q -> (s < inject_Z (k + 1))%Q -> Qfloor s = k.
Proof.
  intros Hlo Hhi.
  assert (H1 : k <= Qfloor s).
  { rewrite <- (Qfloor_Z k). apply Qfloor_resp_le. exact Hlo. }
  assert (H2 : Qfloor s < k + 1).
  { rewrite Zlt_Qlt. eapply Qle_lt_trans; [apply Qfloor_le|exact Hhi]. }
  lia.
Qed.

Lemma round_half_even_up (s : Q) (k : Z) :
  (inject_Z k + (1 # 2) < s)%Q -> (s < inject_Z (k + 1))%Q -> round_half_even s = k + 1.
Proof.
  intros Hlo Hhi. unfold round_half_even.
  assert (F : Qfloor s = k).
  { apply Qfloor_between; [|exact Hhi]. apply Qlt_le_weak.
    eapply Qle_lt_trans; [|exact Hlo]. rewrite <- (Qplus_0_r (inject_Z k)) at 1.
    apply Qplus_le_r. discriminate. }
  cbv zeta. rewrite F.
  assert (C : Qcompare (s - inject_Z k) (1 # 2) = Gt).
  { apply Qgt_alt. apply (Qplus_lt_l _ _ (inject_Z k)). ring_simplify.
    first [exact Hlo|rewrite Qplus_comm; exact Hlo]. }
  rewrite C. reflexivity.
Qed.

Lemma round_half_even_comp (s t : Q) : s == t -> round_half_even s = round_half_even t.
Proof.
  intro E. unfold round_half_even. cbv zeta. rewrite (Qfloor_comp _ _ E).
  assert (C : Qcompare (s - inject_Z (Qfloor t)) (1 # 2)
              = Qcompare (t - inject_Z (Qfloor t)) (1 # 2)) by (rewrite E; reflexivity).
  rewrite C. reflexivity.
Qed.

(** X20: a value just under a threshold of [format_number_abbreviated]
    keeps the smaller unit and is shown with a mantissa of 1000.0: every
    value above 999 950 and below one million reads "1000.0k", and a
    thousand times such a value reads "1000.0M". *)
Theorem format_number_abbreviated_below_a_threshold (v : Q) :
  (999950 < v)%Q -> (v < 1000000)%Q ->
  format_number_abbreviated (Some v) = "1000.0k"%string
  /\ format_number_abbreviated (Some (v * 1000)%Q) = "1000.0M"%string.
Proof.
  intros Hlo0 Hhi0.
  assert (G : forall (v unit : Q) (suffix : string), (0 < unit)%Q ->
            (999950 * unit / 1000 < v)%Q -> (v < 1000 * unit)%Q ->
            (format_fixed (v / unit) 1 ++ suffix)%string = ("1000.0" ++ suffix)%string).
  { clear v Hlo0 Hhi0. intros v unit suffix Hu Hlo Hhi. unfold format_fixed.
    assert (Hpos : (0 < v / unit)%Q).
    { apply Qlt_shift_div_l; [exact Hu|]. rewrite Qmult_0_l.
      eapply Qlt_trans; [|exact Hlo]. apply Qlt_shift_div_l; [reflexivity|].
      rewrite Qmult_0_l. apply Qmult_lt_0_compat; [reflexivity|exact Hu]. }
    assert (Hs : Qltb (v / unit) 0 = false).
    { apply Qltb_false_iff. apply Qlt_le_weak. exact Hpos. }
    rewrite Hs.
    assert (R : round_half_even (Qabs (v / unit) * pow10 1) = 9999 + 1).
    { rewrite (round_half_even_comp _ (v / unit * pow10 1))
        by (rewrite (Qabs_pos _ (Qlt_le_weak _ _ Hpos)); reflexivity).
      apply round_half_even_up.
      - apply (Qmult_lt_r _ _ (unit / 10)); [apply Qlt_shift_div_l; [reflexivity|];
          rewrite Qmult_0_l; exact Hu|].
        setoid_replace (v / unit * pow10 1 * (unit / 10))%Q with v
          by (unfold pow10; cbn; field; intro C; rewrite C in Hu; discriminate).
        setoid_replace ((inject_Z 9999 + (1 # 2)) * (unit / 10))%Q
          with (999950 * unit / 1000)%Q by (change (inject_Z 9999) with 9999%Q; field).
        exact Hlo.
      - apply (Qmult_lt_r _ _ (unit / 10)); [apply Qlt_shift_div_l; [reflexivity|];
          rewrite Qmult_0_l; exact Hu|].
        setoid_replace (v / unit * pow10 1 * (unit / 10))%Q with v
          by (unfold pow10; cbn; field; intro C; rewrite C in Hu; discriminate).
        setoid_replace (inject_Z (9999 + 1) * (unit / 10))%Q with (1000 * unit)%Q
          by (change (inject_Z (9999 + 1)) with 10000%Q; field).
        exact Hhi. }
    rewrite R. reflexivity. }
  assert (T : forall v lo hi : Q, (0 < lo)%Q -> (lo < v)%Q -> (v < hi)%Q ->
            Qeq_bool v 0 = false /\ Qabs v == v
            /\ Qle_bool hi (Qabs v) = false /\ Qle_bool lo (Qabs v) = true).
  { clear v Hlo0 Hhi0. intros v lo hi H0 Hlo Hhi.
    assert (Hv : (0 < v)%Q) by (eapply Qlt_trans; eassumption).
    assert (A : Qabs v == v) by (apply Qabs_pos, Qlt_le_weak, Hv).
    split; [|split; [exact A|split]].
    - destruct (Qeq_bool v 0) eqn:E; [|reflexivity]. apply Qeq_bool_iff in E.
      rewrite E in Hv. discriminate.
    - destruct (Qle_bool hi (Qabs v)) eqn:E; [|reflexivity]. apply Qle_bool_iff in E.
      rewrite A in E. exfalso. exact (Qlt_not_le _ _ Hhi E).
    - apply Qle_bool_iff. rewrite A. apply Qlt_le_weak. exact Hlo. }
  split; unfold format_number_abbreviated.
  - pose proof Hlo0 as Hlo. pose proof Hhi0 as Hhi.
    destruct (T v 999950%Q 1000000%Q eq_refl Hlo Hhi) as [Z0 [A [B1 B2]]]. rewrite Z0.
    assert (B0 : Qle_bool 1000000000 (Qabs v) = false).
    { destruct (Qle_bool 1000000000 (Qabs v)) eqn:E; [|reflexivity].
      apply Qle_bool_iff in E. rewrite A in E. exfalso.
      apply (Qlt_not_le _ _ Hhi). eapply Qle_trans; [|exact E]. discriminate. }
    assert (B3 : Qle_bool 1000 (Qabs v) = true).
    { apply Qle_bool_iff. rewrite A. apply Qlt_le_weak. eapply Qlt_trans; [|exact Hlo].
      reflexivity. }
    cbv zeta. rewrite B0, B1, B3. apply (G v 1000%Q "k"%string eq_refl).
    + setoid_replace (999950 * 1000 / 1000)%Q with 999950%Q by reflexivity. exact Hlo.
    + setoid_replace (1000 * 1000)%Q with 1000000%Q by reflexivity. exact Hhi.
  - assert (Hlo : (999950000 < v * 1000)%Q).
    { setoid_replace 999950000%Q with (999950 * 1000)%Q by reflexivity.
      apply Qmult_lt_r; [reflexivity|exact Hlo0]. }
    assert (Hhi : (v * 1000 < 1000000000)%Q).
    { setoid_replace 1000000000%Q with (1000000 * 1000)%Q by reflexivity.
      apply Qmult_lt_r; [reflexivity|exact Hhi0]. }
    destruct (T (v * 1000)%Q 999950000%Q 1000000000%Q eq_refl Hlo Hhi) as [Z0 [A [B1 B2]]].
    rewrite Z0.
    assert (B3 : Qle_bool 1000000 (Qabs (v * 1000)) = true).
    { apply Qle_bool_iff. rewrite A. apply Qlt_le_weak. eapply Qlt_trans; [|exact Hlo].
      reflexivity. }
    cbv zeta. rewrite B1, B3. apply (G (v * 1000)%Q 1000000%Q "M"%string eq_refl).
    + setoid_replace (999950 * 1000000 / 1000)%Q with 999950000%Q by reflexivity. exact Hlo.
    + setoid_replace (1000 * 1000000)%Q with 1000000000%Q by reflexivity. exact Hhi.
Qed.

Lemma format_number_abbreviated_below_a_threshold_witness :
  format_number_abbreviated (Some 999999%Q) = "1000.0k"%string
  /\ format_number_abbreviated (Some (999999 * 1000)%Q) = "1000.0M"%string.
Proof.
  apply (format_number_abbreviated_below_a_threshold 999999%Q); reflexivity.
Defined.

(** ** get_dashboard_summary *)

Lemma get_dashboard_summary_run env history n :
  get_dashboard_summary env history n
  = (Ok match summary_of_frames
                (frame_of env (production_summary (db env) (date_of (now env))) n)
                (frame_of env (alarms_summary history (date_of (now env))) (S n))
                (frame_of env (consumption_summary (db env) (date_of (now env))) (S (S n)))
        with
        | Ok s => s
        | Raise _ => Zeroed
        end, S (S (S n))).
Proof.
  unfold get_dashboard_summary, try_exceptM, bindM, execute_query, lift, frame_of.
  destruct (summary_of_frames _ _ _); reflexivity.
Qed.

Lemma round_cases {A : Type} (r : result A) : (exists a, r = Ok a) \/ (exists e, r = Raise e).
Proof. destruct r as [a|e]; [left; exists a|right; exists e]; reflexivity. Qed.

(** The summary is computed only if none of the six rounded cells is
    missing. *)
Lemma summary_of_frames_Ok prod_df alarms_df consumption_df s :
  summary_of_frames prod_df alarms_df consumption_df = Ok s ->
  exists a b c d e f,
    round_cell (cell prod_df ps_total_production_kg (Some 0%Q)) 0 = Ok a
    /\ round_column prod_df ps_avg_production_per_cycle 1 = Ok b
    /\ round_column prod_df ps_avg_efficiency 1 = Ok c
    /\ round_column alarms_df as_avg_resolution_time 1 = Ok d
    /\ round_column consumption_df cs_avg_water_per_kg 1 = Ok e
    /\ round_cell (cell consumption_df cs_total_water_m3 (Some 0%Q)) 1 = Ok f
    /\ s = Computed
             (mkProduction (cell prod_df ps_total_cycles 0)
                (format_number_abbreviated (cell prod_df ps_total_production_kg (Some 0%Q)))
                a b c)
             (mkAlarms
                (format_number_abbreviated
                   (Some (inject_Z (cell alarms_df as_total_alarms 0))))
                (cell alarms_df as_total_alarms 0)
                (cell alarms_df as_critical_high_alarms 0) d)
             (mkConsumption e
                (format_number_abbreviated (cell consumption_df cs_total_water_m3 (Some 0%Q)))
                f).
Proof.
  unfold summary_of_frames. cbv zeta.
  destruct (round_cell (cell prod_df ps_total_production_kg (Some 0%Q)) 0) as [a|];
    [|discriminate].
  destruct (round_column prod_df ps_avg_production_per_cycle 1) as [b|]; [|discriminate].
  destruct (round_column prod_df ps_avg_efficiency 1) as [c|]; [|discriminate].
  destruct (round_column alarms_df as_avg_resolution_time 1) as [d|]; [|discriminate].
  destruct (round_column consumption_df cs_avg_water_per_kg 1) as [e|]; [|discriminate].
  destruct (round_cell (cell consumption_df cs_total_water_m3 (Some 0%Q)) 1) as [f|];
    [|discriminate].
  cbn [bind]. intro H. injection H as <-.
  exists a, b, c, d, e, f. repeat split.
Qed.

Lemma sql_avg_nil {A : Type} (f : A -> option Q) : sql_avg (map f []) = None.
Proof. reflexivity. Qed.

(** X21: [get_dashboard_summary] falls back to its dictionary of zeros,
    production figures included, as soon as one of its statements goes
    through with an aggregate over no row: no
    consolidated day in the last thirty days, no alarm of the last thirty
    days that returned to normal, or no day with production. *)
Theorem summary_is_zeroed_by_an_empty_aggregate env history n :
  let today := date_of (now env) in
  (up env n = true
   /\ forall r, In r (Rel_Diario (db env)) -> last_30_days today (rd_Time_Stamp r) = false)
  \/ (up env (S n) = true /\ resolved_alarms history today = [])
  \/ (up env (S (S n)) = true
      /\ forall r, In r (Rel_Diario (db env)) ->
           last_30_days today (rd_Time_Stamp r) && Qltb 0 (rd_C4 r) = false) ->
  get_dashboard_summary env history n = (Ok Zeroed, S (S (S n))).
Proof.
  intros today H. rewrite get_dashboard_summary_run. fold today.
  destruct (summary_of_frames _ _ _) as [s|] eqn:E; [exfalso|reflexivity].
  apply summary_of_frames_Ok in E.
  destruct E as [a [b [c [d [e [f [E1 [E2 [E3 [E4 [E5 [E6 _]]]]]]]]]]]].
  destruct H as [[Hu H]|[[Hu H]|[Hu H]]].
  - unfold frame_of in E1. rewrite Hu in E1. unfold production_summary in E1.
    assert (F : filter (fun r => dt_leb (midnight (today - 30)) (rd_Time_Stamp r))
                       (Rel_Diario (db env)) = []).
    { destruct (filter _ _) as [|x l] eqn:Ef; [reflexivity|exfalso].
      assert (Hx : In x (filter (fun r => dt_leb (midnight (today - 30)) (rd_Time_Stamp r))
                                (Rel_Diario (db env)))) by (rewrite Ef; left; reflexivity).
      apply filter_In in Hx. destruct Hx as [Hx Hp]. specialize (H x Hx).
      unfold last_30_days in H. congruence. }
    cbv zeta in E1. rewrite F in E1. discriminate.
  - unfold frame_of in E4. rewrite Hu in E4. unfold alarms_summary in E4.
    cbv zeta in E4. rewrite H in E4. discriminate.
  - unfold frame_of in E6. rewrite Hu in E6. unfold consumption_summary in E6.
    assert (F : filter (fun r => dt_leb (midnight (today - 30)) (rd_Time_Stamp r)
                                 && Qltb 0 (rd_C4 r)) (Rel_Diario (db env)) = []).
    { destruct (filter _ _) as [|x l] eqn:Ef; [reflexivity|exfalso].
      assert (Hx : In x (filter (fun r => dt_leb (midnight (today - 30)) (rd_Time_Stamp r)
                                          && Qltb 0 (rd_C4 r)) (Rel_Diario (db env))))
        by (rewrite Ef; left; reflexivity).
      apply filter_In in Hx. destruct Hx as [Hx Hp]. specialize (H x Hx).
      unfold last_30_days in H. congruence. }
    cbv zeta in E6. rewrite F in E6. discriminate.
Qed.

Lemma summary_is_zeroed_by_an_empty_aggregate_witness :
  get_dashboard_summary summary_env [] 0%nat = (Ok Zeroed, 3%nat).
Proof.
  apply (summary_is_zeroed_by_an_empty_aggregate summary_env [] 0%nat).
  right. left. split; reflexivity.
Defined.

Lemma all_ok_raise {A B : Type} (f : A -> result B) l x e :
  In x l -> f x = Raise e -> exists e', all_ok (map f l) = Raise e'.
Proof.
  induction l as [|y l IH]; simpl; intros Hin Hx; [contradiction|].
  destruct Hin as [->|Hin].
  - rewrite Hx. exists e. reflexivity.
  - destruct (f y) as [b|e0]; [|exists e0; reflexivity]. cbn [bind].
    destruct (IH Hin Hx) as [e' ->]. exists e'. reflexivity.
Qed.

(** X22: one consolidated day of the last thirty days with neither
    production time nor downtime makes the production statement of
    [get_dashboard_summary] fail on a division by zero; a summary that is
    computed then shows no cycle, "0" kilograms and averages of zero,
    whatever the other days hold. *)
Theorem idle_day_blanks_the_production_summary env history n r production alarms consumption :
  In r (Rel_Diario (db env)) ->
  last_30_days (date_of (now env)) (rd_Time_Stamp r) = true ->
  (rd_C1 r + rd_C0 r == 0)%Q ->
  fst (get_dashboard_summary env history n) = Ok (Computed production alarms consumption) ->
  total_cycles production = 0
  /\ total_kg production = "0"%string
  /\ (total_kg_raw production == 0)%Q
  /\ (avg_per_cycle production == 0)%Q
  /\ (avg_efficiency production == 0)%Q.
Proof.
  intros Hin H30 Hz Hs. rewrite get_dashboard_summary_run in Hs. cbn [fst] in Hs.
  assert (P : exists e, production_summary (db env) (date_of (now env)) = Raise e).
  { unfold production_summary. cbv zeta.
    destruct (all_ok_raise row_efficiency
                (filter (fun r => dt_leb (midnight (date_of (now env) - 30)) (rd_Time_Stamp r))
                        (Rel_Diario (db env))) r DatabaseError) as [e' He'].
    - apply filter_In. split; [exact Hin|exact H30].
    - unfold row_efficiency, sql_div. apply Qeq_bool_iff in Hz. rewrite Hz. reflexivity.
    - rewrite He'. exists e'. reflexivity. }
  destruct P as [e0 P].
  assert (F : frame_of env (production_summary (db env) (date_of (now env))) n = NoFrame).
  { unfold frame_of. rewrite P. destruct (up env n); reflexivity. }
  rewrite F in Hs.
  destruct (summary_of_frames _ _ _) as [s|] eqn:E; [|discriminate].
  injection Hs as ->. apply summary_of_frames_Ok in E.
  destruct E as [a [b [c [d [e [f [E1 [E2 [E3 [_ [_ [_ E]]]]]]]]]]]].
  injection E as -> _ _. cbn in E1, E2, E3. injection E1 as <-. injection E2 as <-.
  injection E3 as <-. cbn [total_cycles total_kg total_kg_raw avg_per_cycle avg_efficiency].
  repeat split; reflexivity.
Qed.

Lemma idle_day_blanks_the_production_summary_witness :
  exists production alarms consumption,
    fst (get_dashboard_summary summary_env_idle sample_history 0%nat)
    = Ok (Computed production alarms consumption)
    /\ total_cycles production = 0
    /\ total_kg production = "0"%string
    /\ (total_kg_raw production == 0)%Q
    /\ (avg_per_cycle production == 0)%Q
    /\ (avg_efficiency production == 0)%Q.
Proof.
  eexists. eexists. eexists. split; [vm_compute; reflexivity|].
  eapply (idle_day_blanks_the_production_summary summary_env_idle sample_history 0%nat
            (mkDiario (at_time (jan 6) 23 0) 0 0 1 10 1)).
  - left. reflexivity.
  - reflexivity.
  - reflexivity.
  - vm_compute. reflexivity.
Defined.

(** * The efficiency chart *)

Import efficiency_chart.

Lemma py_round_between x n (lo hi : Z) :
  (inject_Z lo <= x * pow10 n)%Q -> (x * pow10 n <= inject_Z hi)%Q ->
  (inject_Z lo / pow10 n <= py_round x n)%Q /\ (py_round x n <= inject_Z hi / pow10 n)%Q.
Proof.
  intros Hlo Hhi. unfold py_round. cbv zeta.
  set (s := (x * pow10 n)%Q) in *. set (f := Qfloor s).
  assert (Hf : lo <= f).
  { unfold f. rewrite <- (Qfloor_Z lo). apply Qfloor_resp_le. exact Hlo. }
  assert (Hf' : f <= hi).
  { unfold f. rewrite <- (Qfloor_Z hi). apply Qfloor_resp_le. exact Hhi. }
  assert (Hp : (0 < pow10 n)%Q).
  { unfold pow10. change 0%Q with (inject_Z 0). rewrite <- Zlt_Qlt.
    apply Z.pow_pos_nonneg; lia. }
  assert (K : forall k, lo <= k <= hi ->
              (inject_Z lo / pow10 n <= inject_Z k / pow10 n)%Q
              /\ (inject_Z k / pow10 n <= inject_Z hi / pow10 n)%Q).
  { intros k [H1 H2]. split; apply Qmult_le_compat_r;
      try (apply Qlt_le_weak, Qinv_lt_0_compat, Hp); rewrite <- Zle_Qle; assumption. }
  assert (Up : (1 # 2 <= s - inject_Z f)%Q -> f + 1 <= hi).
  { intro Hh. destruct (Z.eq_dec f hi) as [E|E]; [exfalso|lia].
    assert (C : (s - inject_Z f <= 0)%Q).
    { rewrite E. apply (Qplus_le_l _ _ (inject_Z hi)). ring_simplify. exact Hhi. }
    assert (D : (1 # 2 <= 0)%Q) by (eapply Qle_trans; eassumption).
    unfold Qle in D. simpl in D. lia. }
  destruct (Qcompare (s - inject_Z f) (1 # 2)) eqn:C.
  - apply Qeq_alt in C. destruct (Z.even f).
    + apply K. lia.
    + apply K. assert (f + 1 <= hi) by (apply Up; rewrite C; apply Qle_refl). lia.
  - apply K. lia.
  - apply Qgt_alt in C. apply K.
    assert (f + 1 <= hi) by (apply Up; apply Qlt_le_weak; exact C). lia.
Qed.

Lemma efficiency_in_range r :
  (0 <= rd_C1 r)%Q -> (0 <= rd_C0 r)%Q -> (0 < total_time r)%Q ->
  (0 <= efficiency_calculated r)%Q /\ (efficiency_calculated r <= 100)%Q.
Proof.
  intros H1 H0 Ht. unfold efficiency_calculated.
  assert (Z0 : Qeq_bool (total_time r) 0 = false).
  { destruct (Qeq_bool (total_time r) 0) eqn:E; [|reflexivity].
    apply Qeq_bool_iff in E. rewrite E in Ht. discriminate. }
  rewrite Z0.
  set (x := (rd_C1 r / total_time r * 100)%Q).
  assert (Hx0 : (0 <= x)%Q).
  { unfold x. apply Qmult_le_0_compat; [|discriminate].
    apply Qle_shift_div_l; [exact Ht|]. rewrite Qmult_0_l. exact H1. }
  assert (Hx1 : (x <= 100)%Q).
  { unfold x. setoid_replace 100%Q with (1 * 100)%Q at 2 by reflexivity.
    apply Qmult_le_compat_r; [|discriminate].
    apply Qle_shift_div_r; [exact Ht|]. rewrite Qmult_1_l. unfold total_time.
    rewrite <- (Qplus_0_r (rd_C1 r)) at 1. apply Qplus_le_r. exact H0. }
  destruct (py_round_between x 2 0 10000) as [A B].
  - change (inject_Z 0) with 0%Q. apply Qmult_le_0_compat; [exact Hx0|discriminate].
  - setoid_replace (inject_Z 10000) with (100 * pow10 2)%Q by reflexivity.
    apply Qmult_le_compat_r; [exact Hx1|discriminate].
  - split.
    + eapply Qle_trans; [|exact A]. discriminate.
    + eapply Qle_trans; [exact B|]. discriminate.
Qed.

Lemma In_insert_latest_first r x l :
  In x (insert_latest_first r l) <-> x = r \/ In x l.
Proof.
  induction l as [|y l IH]; simpl.
  - intuition congruence.
  - destruct (dt_leb (rd_Time_Stamp y) (rd_Time_Stamp r)); simpl; [intuition congruence|].
    rewrite IH. tauto.
Qed.

Lemma In_latest_first x l : In x (latest_first l) <-> In x l.
Proof.
  induction l as [|y l IH]; simpl; [tauto|].
  unfold latest_first in *. cbn [fold_right]. rewrite In_insert_latest_first, IH.
  intuition congruence.
Qed.

Lemma dt_leb_total a b : dt_leb a b = false -> dt_leb b a = true.
Proof.
  intro H. apply dt_leb_iff.
  destruct (dt_leb b a) eqn:E; [apply dt_leb_iff in E; exact E|exfalso].
  assert (Ha : ~ (ordinal a < ordinal b \/ (ordinal a = ordinal b /\ micros a <= micros b))).
  { intro C. apply dt_leb_iff in C. congruence. }
  assert (Hb : ~ (ordinal b < ordinal a \/ (ordinal b = ordinal a /\ micros b <= micros a))).
  { intro C. apply dt_leb_iff in C. congruence. }
  lia.
Qed.

Lemma insert_latest_first_sorted r l :
  StronglySorted (fun a b => dt_leb (rd_Time_Stamp b) (rd_Time_Stamp a) = true) l ->
  StronglySorted (fun a b => dt_leb (rd_Time_Stamp b) (rd_Time_Stamp a) = true)
                 (insert_latest_first r l).
Proof.
  induction l as [|x l IH]; simpl; intro H.
  - constructor; constructor.
  - inversion H as [|? ? Hs Hf]; subst.
    destruct (dt_leb (rd_Time_Stamp x) (rd_Time_Stamp r)) eqn:E.
    + constructor; [exact H|]. constructor; [exact E|].
      eapply Forall_impl; [|exact Hf]. intros y Hy. cbv beta in Hy.
      exact (dt_leb_trans _ _ _ Hy E).
    + constructor; [exact (IH Hs)|]. apply Forall_forall. intros y Hy.
      apply In_insert_latest_first in Hy. destruct Hy as [->|Hy].
      * apply dt_leb_total. exact E.
      * exact (proj1 (Forall_forall _ _) Hf y Hy).
Qed.

Lemma latest_first_sorted l :
  StronglySorted (fun a b => dt_leb (rd_Time_Stamp b) (rd_Time_Stamp a) = true)
                 (latest_first l).
Proof.
  induction l as [|x l IH]; simpl; [constructor|].
  unfold latest_first in *. cbn [fold_right]. apply insert_latest_first_sorted. exact IH.
Qed.

Lemma filter_sorted {A : Type} (R : A -> A -> Prop) p l :
  StronglySorted R l -> StronglySorted R (filter p l).
Proof.
  intro H. induction H as [|a l Hs IH Hf]; simpl; [constructor|].
  destruct (p a); [|exact IH]. constructor; [exact IH|].
  apply Forall_forall. intros y Hy. apply filter_In in Hy.
  exact (proj1 (Forall_forall _ _) Hf y (proj1 Hy)).
Qed.

Lemma map_sorted {A B : Type} (R : A -> A -> Prop) (S : B -> B -> Prop) (f : A -> B) l :
  (forall a b, R a b -> S (f a) (f b)) -> StronglySorted R l -> StronglySorted S (map f l).
Proof.
  intros HRS H. induction H as [|a l Hs IH Hf]; simpl; constructor; [exact IH|].
  apply Forall_forall. intros y Hy. apply in_map_iff in Hy. destruct Hy as [x [<- Hx]].
  apply HRS. exact (proj1 (Forall_forall _ _) Hf x Hx).
Qed.

(** X23: every point of the trace of [create_efficiency_chart] comes from
    a consolidated day inside the date filter whose production time and
    downtime add up to more than zero, so that a day without any recorded
    time neither divides by zero nor is plotted; with minutes that are not
    negative the plotted efficiency lies between 0 and 100; the points run
    from the latest day to the earliest. *)
Theorem efficiency_trace_is_within_bounds env start_date end_date n points :
  fst (create_efficiency_chart env start_date end_date n) = Ok (Trace points) ->
  (forall p, In p points ->
     exists r, In r (Rel_Diario (db env))
               /\ date_filter (date_of (now env)) start_date end_date (rd_Time_Stamp r) = true
               /\ (0 < total_time r)%Q
               /\ p = (rd_Time_Stamp r, py_round (rd_C1 r / total_time r * 100) 2)
               /\ ((0 <= rd_C1 r)%Q -> (0 <= rd_C0 r)%Q ->
                   (0 <= snd p)%Q /\ (snd p <= 100)%Q))
  /\ StronglySorted later_first points.
Proof.
  unfold create_efficiency_chart, bindM, execute_query, ret, efficiency_chart_query.
  set (sel := latest_first (filter _ (Rel_Diario (db env)))).
  assert (Hsel : forall r, In r sel ->
            In r (Rel_Diario (db env))
            /\ date_filter (date_of (now env)) start_date end_date (rd_Time_Stamp r) = true).
  { intros r Hr. apply In_latest_first, filter_In in Hr. exact Hr. }
  assert (Hs : StronglySorted (fun a b => dt_leb (rd_Time_Stamp b) (rd_Time_Stamp a) = true)
                              sel) by apply latest_first_sorted.
  destruct (up env n); cbn [fst]; [|discriminate].
  destruct sel as [|r0 rows] eqn:E; [discriminate|]. cbn [fst]. intro H.
  assert (Hp : points = map (fun x => (rd_Time_Stamp x, efficiency_calculated x))
                            (filter (fun x => Qltb 0 (total_time x)) (r0 :: rows)))
    by congruence.
  subst points. clear H. split.
  - intros p Hp. apply in_map_iff in Hp. destruct Hp as [r [<- Hr]].
    apply filter_In in Hr. destruct Hr as [Hr Ht]. apply Qltb_true_iff in Ht.
    destruct (Hsel r Hr) as [H1 H2]. exists r. split; [exact H1|]. split; [exact H2|].
    split; [exact Ht|].
    assert (Z0 : Qeq_bool (total_time r) 0 = false).
    { destruct (Qeq_bool (total_time r) 0) eqn:Ez; [|reflexivity].
      apply Qeq_bool_iff in Ez. rewrite Ez in Ht. discriminate. }
    split.
    + unfold efficiency_calculated. rewrite Z0. reflexivity.
    + intros Hc1 Hc0. cbn [snd]. exact (efficiency_in_range r Hc1 Hc0 Ht).
  - apply (map_sorted (fun a b => dt_leb (rd_Time_Stamp b) (rd_Time_Stamp a) = true)).
    + intros a b Hab. exact Hab.
    + apply filter_sorted. exact Hs.
Qed.

Lemma efficiency_trace_is_within_bounds_witness :
  exists points,
    fst (create_efficiency_chart summary_env_idle None None 0%nat) = Ok (Trace points)
    /\ length points = 2%nat
    /\ StronglySorted later_first points.
Proof.
  eexists. split; [vm_compute; reflexivity|]. split; [reflexivity|].
  apply (efficiency_trace_is_within_bounds summary_env_idle None None 0%nat).
  vm_compute. reflexivity.
Defined.

(** * get_client_performance_comparison *)

Lemma group_rows_cons {R : Type} k (g : list R) gs k' :
  group_rows ((k, g) :: gs) k' = if k =? k' then g else group_rows gs k'.
Proof. unfold group_rows. simpl. destruct (k =? k'); reflexivity. Qed.

Lemma group_rows_absent {R : Type} (gs : list (Z * list R)) k :
  ~ In k (map fst gs) -> group_rows gs k = [].
Proof.
  induction gs as [|[k' g] gs IH]; simpl; intro H; [reflexivity|].
  rewrite group_rows_cons. destruct (k' =? k) eqn:E.
  - apply Z.eqb_eq in E. exfalso. apply H. left. exact E.
  - apply IH. intro C. apply H. right. exact C.
Qed.

Lemma group_rows_add_to_group {R : Type} k (r : R) gs k' :
  StronglySorted Z.lt (map fst gs) ->
  group_rows (add_to_group k r gs) k'
  = if k' =? k then r :: group_rows gs k' else group_rows gs k'.
Proof.
  induction gs as [|[k0 g] gs IH]; simpl; intro H.
  - rewrite group_rows_cons. rewrite (Z.eqb_sym k' k). destruct (k =? k'); reflexivity.
  - inversion H as [|? ? Hs Hf]; subst. destruct (Z.compare k k0) eqn:C.
    + apply Z.compare_eq in C. subst k0. rewrite !group_rows_cons, (Z.eqb_sym k' k).
      destruct (k =? k'); reflexivity.
    + apply Z.compare_lt_iff in C. change (k < k0) in C. rewrite !group_rows_cons, (Z.eqb_sym k' k).
      destruct (k =? k') eqn:E; [|reflexivity].
      apply Z.eqb_eq in E. subst k'.
      assert (E0 : (k0 =? k) = false) by (apply Z.eqb_neq; lia). rewrite E0.
      rewrite group_rows_absent; [reflexivity|].
      intro Hin. pose proof (proj1 (Forall_forall _ _) Hf k Hin) as L. change (k0 < k) in L. lia.
    + apply Z.compare_gt_iff in C. change (k0 < k) in C. rewrite !group_rows_cons, (IH Hs).
      destruct (k0 =? k') eqn:E; [|reflexivity].
      apply Z.eqb_eq in E. subst k'.
      assert (E0 : (k0 =? k) = false) by (apply Z.eqb_neq; lia). rewrite E0. reflexivity.
Qed.

Lemma group_rows_group_by {R : Type} (key : R -> Z) rows k :
  group_rows (group_by key rows) k = filter (fun r => key r =? k) rows.
Proof.
  induction rows as [|r rows IH]; simpl; [reflexivity|].
  unfold group_by in *. cbn [fold_right].
  rewrite group_rows_add_to_group by apply group_by_keys.
  rewrite IH, (Z.eqb_sym k (key r)). destruct (key r =? k); reflexivity.
Qed.

Lemma sorted_lt_NoDup l : StronglySorted Z.lt l -> NoDup l.
Proof.
  intro H. induction H as [|a l Hs IH Hf]; constructor; [|exact IH].
  intro C. pose proof (proj1 (Forall_forall _ _) Hf a C) as L. change (a < a) in L. lia.
Qed.

Lemma group_rows_In {R : Type} (gs : list (Z * list R)) k g :
  NoDup (map fst gs) -> In (k, g) gs -> group_rows gs k = g.
Proof.
  induction gs as [|[k' g'] gs IH]; simpl; intros H Hin; [contradiction|].
  inversion H as [|? ? Hk Ht]; subst. rewrite group_rows_cons.
  destruct Hin as [E|Hin].
  - injection E as -> ->. rewrite Z.eqb_refl. reflexivity.
  - destruct (k' =? k) eqn:E; [|exact (IH Ht Hin)].
    apply Z.eqb_eq in E. subst k'. exfalso. apply Hk.
    apply in_map_iff. exists (k, g). split; [reflexivity|exact Hin].
Qed.

(** A group of [GROUP BY] holds the rows of its key, and at least one. *)
Lemma In_group_by {R : Type} (key : R -> Z) rows k g :
  In (k, g) (group_by key rows) -> g = filter (fun r => key r =? k) rows /\ g <> [].
Proof.
  intro Hin.
  assert (E : g = filter (fun r => key r =? k) rows).
  { rewrite <- group_rows_group_by. symmetry. apply group_rows_In; [|exact Hin].
    apply sorted_lt_NoDup, group_by_keys. }
  split; [exact E|]. subst g.
  assert (Hk : In k (map fst (group_by key rows)))
    by (apply in_map_iff; exists (k, filter (fun r => key r =? k) rows); split;
        [reflexivity|exact Hin]).
  apply group_by_keys in Hk. destruct Hk as [r [Hr Hkr]].
  intro C. assert (Hf : In r (filter (fun r => key r =? k) rows))
    by (apply filter_In; split; [exact Hr|apply Z.eqb_eq; exact Hkr]).
  rewrite C in Hf. exact Hf.
Qed.

Lemma Qsum_pos {A : Type} (f : A -> Q) l :
  l <> [] -> (forall x, In x l -> (0 < f x)%Q) -> (0 < Qsum (map f l))%Q.
Proof.
  induction l as [|x l IH]; [congruence|]. intros _ H. simpl.
  assert (Hx : (0 < f x)%Q) by (apply H; left; reflexivity).
  destruct l as [|y l].
  - simpl. rewrite Qplus_0_r. exact Hx.
  - assert (Hl : (0 < Qsum (map f (y :: l)))%Q).
    { apply IH; [discriminate|]. intros z Hz. apply H. right. exact Hz. }
    setoid_replace 0%Q with (0 + 0)%Q by reflexivity.
    apply Qplus_lt_le_compat; [exact Hx|apply Qlt_le_weak; exact Hl].
Qed.

(** X24: [get_client_performance_comparison] returns at most fifty
    clients, no client twice, in descending order of their kilograms; the
    kilograms of a row are the sum over the loads of that client stamped
    from the start to the end of the window, both included, that weigh
    more than zero, and are themselves more than zero; a client that is
    cut off has no more kilograms than any client listed. *)
Theorem client_performance_ranks_by_kilograms d lo hi rows :
  client_performance_query d lo hi = Ok rows ->
  (length rows <= 50)%nat
  /\ StronglySorted (fun a b => (perf_total_kg b <= perf_total_kg a)%Q) rows
  /\ NoDup (map perf_client_id rows)
  /\ (forall r, In r rows ->
        (perf_total_kg r
         == Qsum (map rc_C2 (performance_loads d lo hi (perf_client_id r))))%Q
        /\ (0 < perf_total_kg r)%Q)
  /\ (forall client r,
        In r rows -> ~ In client (map perf_client_id rows) ->
        (Qsum (map rc_C2 (performance_loads d lo hi client)) <= perf_total_kg r)%Q).
Proof.
  intro Hq. unfold client_performance_query in Hq. cbv zeta in Hq.
  apply Ok_inj in Hq. subst rows.
  set (sel := filter (fun r => dt_leb lo (rc_Time_Stamp r) && dt_leb (rc_Time_Stamp r) hi
                               && Qltb 0 (rc_C2 r)) (Rel_Carga d)).
  set (row := fun g : Z * list Rel_Carga_row =>
                mkPerf ("Cliente " ++ text_of_int (fst g)) (fst g) (Qsum (map rc_C2 (snd g)))).
  set (all := order_by_desc perf_total_kg (map row (group_by rc_C1 sel))).
  assert (Hall : forall r, In r all ->
            (perf_total_kg r == Qsum (map rc_C2 (performance_loads d lo hi (perf_client_id r))))%Q
            /\ (0 < perf_total_kg r)%Q).
  { intros r Hr. apply In_order_by_desc_iff, in_map_iff in Hr.
    destruct Hr as [[k g] [<- Hg]]. apply In_group_by in Hg. destruct Hg as [Eg Hne].
    cbn [row perf_total_kg perf_client_id fst snd]. unfold performance_loads. fold sel.
    rewrite <- Eg. split; [reflexivity|]. apply Qsum_pos; [exact Hne|].
    intros x Hx. rewrite Eg in Hx. apply filter_In in Hx. destruct Hx as [Hx _].
    apply filter_In in Hx. destruct Hx as [_ Hx]. apply andb_true_iff in Hx.
    apply Qltb_true_iff. apply Hx. }
  split; [apply firstn_length_le|]. split; [|split; [|split]].
  - apply firstn_sorted. apply (order_by_desc_sorted perf_total_kg).
  - rewrite <- firstn_map. apply NoDup_firstn. apply NoDup_map_order_by_desc.
    rewrite map_map. cbn [row perf_client_id]. apply sorted_lt_NoDup, group_by_keys.
  - intros r Hr. apply Hall. apply In_firstn_In in Hr. exact Hr.
  - intros client r Hr Hc.
    destruct (performance_loads d lo hi client) as [|x l] eqn:El.
    + simpl. apply Qlt_le_weak. apply Hall. apply In_firstn_In in Hr. exact Hr.
    + rewrite <- El.
      assert (Hg : In (client, performance_loads d lo hi client) (group_by rc_C1 sel)).
      { assert (Hk : In client (map fst (group_by rc_C1 sel))).
        { apply group_by_keys. exists x.
          assert (Hx : In x (performance_loads d lo hi client)) by (rewrite El; left; reflexivity).
          unfold performance_loads in Hx. fold sel in Hx. apply filter_In in Hx.
          split; [apply Hx|apply Z.eqb_eq; apply Hx]. }
        apply in_map_iff in Hk. destruct Hk as [[k g] [Ek Hkg]]. cbn [fst] in Ek. subst k.
        destruct (In_group_by _ _ _ _ Hkg) as [Eg _]. unfold performance_loads. fold sel.
        rewrite <- Eg. exact Hkg. }
      set (y := row (client, performance_loads d lo hi client)).
      assert (Hy : In y all) by (apply In_order_by_desc_iff, in_map_iff;
                                 exists (client, performance_loads d lo hi client);
                                 split; [reflexivity|exact Hg]).
      assert (Hny : ~ In y (firstn 50 all)).
      { intro C. apply Hc. apply in_map_iff. exists y. split; [reflexivity|exact C]. }
      exact (limit_keeps_the_top (not_above perf_total_kg) 50 all r y
               (order_by_desc_sorted perf_total_kg _) Hr Hy Hny).
Qed.

Lemma client_performance_ranks_by_kilograms_witness :
  (length [mkPerf "Cliente 7" 7 300; mkPerf "Cliente 3" 3 50] <= 50)%nat
  /\ StronglySorted (fun a b => (perf_total_kg b <= perf_total_kg a)%Q)
                    [mkPerf "Cliente 7" 7 300; mkPerf "Cliente 3" 3 50]
  /\ NoDup (map perf_client_id [mkPerf "Cliente 7" 7 300; mkPerf "Cliente 3" 3 50])
  /\ (forall r, In r [mkPerf "Cliente 7" 7 300; mkPerf "Cliente 3" 3 50] ->
        (perf_total_kg r
         == Qsum (map rc_C2 (performance_loads (db alias_env) (midnight (jan 1))
                                               (midnight (jan 8)) (perf_client_id r))))%Q
        /\ (0 < perf_total_kg r)%Q)
  /\ (forall client r,
        In r [mkPerf "Cliente 7" 7 300; mkPerf "Cliente 3" 3 50] ->
        ~ In client (map perf_client_id [mkPerf "Cliente 7" 7 300; mkPerf "Cliente 3" 3 50]) ->
        (Qsum (map rc_C2 (performance_loads (db alias_env) (midnight (jan 1))
                                            (midnight (jan 8)) client))
         <= perf_total_kg r)%Q).
Proof.
  apply (client_performance_ranks_by_kilograms (db alias_env) (midnight (jan 1))
           (midnight (jan 8))).
  vm_compute. reflexivity.
Defined.
